(** * ScalpingApp: session clock, sentiment, market regime, confidence scoring
      and the prediction journal

    A shallow embedding of the decision logic of the repository
    ([config.py], [prediction_engine.py], [sentiment_engine.py],
    [journal.py]) followed by the properties stated about it.

    Conventions of the embedding.
    - Python [float] values are exact rationals ([Q]).  The arithmetic of the
      scoring model only involves short decimal constants, so the embedding
      computes the exact decimal value; binary rounding error of IEEE doubles
      is outside the model.  The value [nan] of [last_price] is [None].
    - A pandas [DataFrame] is the list of its rows, in index order.
    - Python strings are [string]; the labels the engine branches on
      (status codes, regimes, trends, ...) are inductive types with one
      constructor per spelling used in the source. *)

From Stdlib Require Import ZArith QArith Qround Qabs Lqa Lia List Bool.
From Stdlib Require Import Ascii String DecimalString.
Import ListNotations.

Local Open Scope Z_scope.

(* ------------------------------------------------------------------ *)
(** ** Text helpers shared by the modules *)

Module Text.

Local Open Scope string_scope.

(** One decimal digit as a character. *)
Definition digit_char (d : Z) : ascii :=
  ascii_of_nat (48 + Z.to_nat (d mod 10)).

(** The [w] least significant decimal digits of [n], most significant
    first: the zero padded rendering used by [%d], [%H], [%M], [%Y]. *)
Fixpoint zfill (w : nat) (n : Z) : string :=
  match w with
  | O => EmptyString
  | S w' => zfill w' (n / 10) ++ String (digit_char n) EmptyString
  end.

(** [sep.join(parts)]. *)
Fixpoint join (sep : string) (parts : list string) : string :=
  match parts with
  | [] => EmptyString
  | [p] => p
  | p :: rest => p ++ sep ++ join sep rest
  end.

(** [str.lower()] on the ASCII range. *)
Definition lower_char (c : ascii) : ascii :=
  let n := nat_of_ascii c in
  if andb (Nat.leb 65 n) (Nat.leb n 90) then ascii_of_nat (n + 32) else c.

Fixpoint lower (s : string) : string :=
  match s with
  | EmptyString => EmptyString
  | String c rest => String (lower_char c) (lower rest)
  end.

(** [w in text] for strings: substring test. *)
Fixpoint contains (w text : string) : bool :=
  if prefix w text then true
  else match text with
       | EmptyString => false
       | String _ rest => contains w rest
       end.

End Text.

(* ------------------------------------------------------------------ *)
(** ** [config.py] and the clock values of [datetime] *)

Module Config.

(** [datetime.time]: compared field by field, hours first. *)
Record time := mk_time {
  hour : Z;
  minute : Z;
  second : Z;
  microsecond : Z
}.

Definition time_hm (h m : Z) : time := mk_time h m 0 0.

(** [datetime.datetime] as the engine uses it (already in IST). *)
Record datetime := mk_datetime {
  year : Z;
  month : Z;
  day : Z;
  clock : time
}.

(** [datetime.date]. *)
Record date := mk_date {
  d_year : Z;
  d_month : Z;
  d_day : Z
}.

Definition date_of (dt : datetime) : date :=
  mk_date (year dt) (month dt) (day dt).

Definition date_eqb (a b : date) : bool :=
  (d_year a =? d_year b) && (d_month a =? d_month b) && (d_day a =? d_day b).

(** [a < b] on [datetime.time]: lexicographic on
    (hour, minute, second, microsecond). *)
Definition time_ltb (a b : time) : bool :=
  if hour a <? hour b then true
  else if hour b <? hour a then false
  else if minute a <? minute b then true
  else if minute b <? minute a then false
  else if second a <? second b then true
  else if second b <? second a then false
  else microsecond a <? microsecond b.

Definition time_leb (a b : time) : bool := negb (time_ltb b a).

(* Market timings (IST) *)
Definition MARKET_OPEN : time := time_hm 9 15.
Definition STUDY_END : time := time_hm 10 0.

Definition SCALP_1_START : time := time_hm 10 0.
Definition SCALP_1_END : time := time_hm 11 30.

Definition NO_NEW_1_START : time := SCALP_1_END.
Definition NO_NEW_1_END : time := time_hm 13 30.

Definition SCALP_2_START : time := time_hm 13 30.
Definition SCALP_2_END : time := time_hm 14 45.

Definition NO_NEW_2_START : time := SCALP_2_END.
Definition MARKET_CLOSE : time := time_hm 15 30.

(* Prediction / scalping config *)
Definition PREDICTION_TIME_BUCKET_MINUTES : Z := 15.
Definition SCALP_VALID_MINUTES : Z := 15.

(* Data symbols *)
Definition NIFTY_SYMBOL_YF : string := "^NSEI".

End Config.

(* ------------------------------------------------------------------ *)
(** ** Numeric helpers: Python and numpy/pandas arithmetic on exact values *)

Module Num.

Local Open Scope Q_scope.

Definition Qleb (a b : Q) : bool := Qle_bool a b.
Definition Qltb (a b : Q) : bool := negb (Qle_bool b a).
Definition Qeqb (a b : Q) : bool := Qeq_bool a b.

(** Nearest integer, ties to the even neighbour (Python's [round]). *)
Definition round_half_even (x : Q) : Z :=
  let f := Qfloor x in
  let r := x - inject_Z f in
  if Qltb r (1 # 2) then f
  else if Qltb (1 # 2) r then (f + 1)%Z
  else if Z.even f then f else (f + 1)%Z.

Definition pow10 (n : nat) : Z := (10 ^ Z.of_nat n)%Z.

(** [round(x, n)]: the nearest multiple of [10^-n]. *)
Definition py_round (x : Q) (n : nat) : Q :=
  Qmake (round_half_even (x * inject_Z (pow10 n))) (Z.to_pos (pow10 n)).

(** Python's [min(a, b)]: [b] when [b < a], else [a]. *)
Definition min (a b : Q) : Q := if Qltb b a then b else a.

(** [sum(xs)]; the running total is kept in lowest terms. *)
Definition sum (xs : list Q) : Q := fold_left (fun acc x => Qred (acc + x)) xs 0.

(** [Series.mean()] of a non-empty series. *)
Definition mean (xs : list Q) : Q :=
  sum xs / inject_Z (Z.of_nat (List.length xs)).

(** The last [n] rows: [.iloc[-n:]]. *)
Definition lastn {A : Type} (n : nat) (l : list A) : list A :=
  skipn (List.length l - n) l.

(** A value of [Series.pct_change()]: a finite quotient, an infinity
    (division of a non-zero close by a zero close) or [NaN] (the first
    row, and 0/0). *)
Inductive pct := Fin (q : Q) | Inf | NaN.

Definition pct_of (prev cur : Q) : pct :=
  if Qeqb prev 0 then (if Qeqb cur 0 then NaN else Inf)
  else Fin (Qred (cur / prev - 1)).

Fixpoint pct_pairs (prev : Q) (rest : list Q) : list pct :=
  match rest with
  | [] => []
  | c :: rest' => pct_of prev c :: pct_pairs c rest'
  end.

(** [closes.pct_change()]. *)
Definition pct_change (closes : list Q) : list pct :=
  match closes with
  | [] => []
  | c :: rest => NaN :: pct_pairs c rest
  end.

(** [.dropna()]: infinities are kept, [NaN] rows go. *)
Definition dropna (xs : list pct) : list pct :=
  filter (fun x => match x with NaN => false | _ => true end) xs.

(** The finite values, or [None] when an infinity is present. *)
Fixpoint finite_values (xs : list pct) : option (list Q) :=
  match xs with
  | [] => Some []
  | Fin q :: rest => option_map (cons q) (finite_values rest)
  | _ :: _ => None
  end.

(** Unbiased sample variance ([ddof = 1]) of at least two values. *)
Definition sample_variance (xs : list Q) : Q :=
  let m := mean xs in
  sum (map (fun x => (x - m) * (x - m)) xs)
  / inject_Z (Z.of_nat (List.length xs) - 1).

(** [Series.std()], kept as its square so that the value stays rational:
    [Some v] is the standard deviation [sqrt v], [None] is [nan] (fewer than
    two rows, or an infinity among them). *)
Definition std_squared (xs : list pct) : option Q :=
  match finite_values xs with
  | Some vs => if (2 <=? List.length vs)%nat then Some (sample_variance vs) else None
  | None => None
  end.

(** [std >= c] and [std <= c] for a constant [c >= 0]; comparisons with
    [nan] are false. *)
Definition std_geb (s : option Q) (c : Q) : bool :=
  match s with Some v => Qleb (c * c) v | None => false end.

Definition std_leb (s : option Q) (c : Q) : bool :=
  match s with Some v => Qleb v (c * c) | None => false end.

End Num.

(* ------------------------------------------------------------------ *)
(** ** [sentiment_engine.py] *)

Module SentimentEngine.

Local Open Scope string_scope.

Definition POSITIVE_WORDS : list string :=
  [ "upgrade"; "upgrades"; "beat"; "record"; "surge"; "rally"; "profit";
    "profits"; "growth"; "positive"; "strong"; "beat estimates" ].

Definition NEGATIVE_WORDS : list string :=
  [ "downgrade"; "downgrades"; "miss"; "missed"; "loss"; "losses"; "scam";
    "fraud"; "fall"; "drop"; "negative"; "penalty"; "fine"; "probe";
    "investigation" ].

Definition EVENT_KEYWORDS : list string :=
  [ "results"; "earnings"; "q1"; "q2"; "q3"; "q4"; "quarter"; "dividend";
    "bonus"; "split"; "merger"; "acquisition"; "rbi"; "policy"; "court";
    "hearing"; "order"; "judgment"; "verdict" ].

Definition BREAKING_KEYWORDS : list string :=
  [ "breaking"; "just in"; "live"; "alert"; "urgent"; "flash" ].

(** A headline dictionary.  [None] stands for a key that is absent or
    bound to Python's [None]; both read as the empty string below. *)
Record Headline := mk_headline {
  title : option string;
  description : option string;
  published_at : string;
  source : string;
  url : string
}.

Inductive SentimentLabel := POSITIVE | NEGATIVE | NEUTRAL.

Inductive NewsRiskFlag := NONE | EVENT_RISK | BREAKING.

(** [h.get(k, "") or ""]. *)
Definition get_or_empty (v : option string) : string :=
  match v with Some s => s | None => "" end.

(** [(title or "") + " " + (description or "")], lower-cased. *)
Definition headline_text (h : Headline) : string :=
  Text.lower (get_or_empty (title h) ++ " " ++ get_or_empty (description h)).

(** The number of words of [ws] occurring in [text]. *)
Definition count_hits (ws : list string) (text : string) : Z :=
  fold_left (fun acc w => if Text.contains w text then acc + 1 else acc) ws 0%Z.

Definition headline_score (h : Headline) : Z :=
  let text_lower := headline_text h in
  (count_hits POSITIVE_WORDS text_lower - count_hits NEGATIVE_WORDS text_lower)%Z.

(** [np.mean(scores)]. *)
Definition mean_Z (xs : list Z) : Q :=
  (inject_Z (fold_left Z.add xs 0%Z) / inject_Z (Z.of_nat (List.length xs)))%Q.

(** [max(1, max(abs(s) for s in scores))]. *)
Definition max_abs_score (xs : list Z) : Z :=
  fold_left (fun m s => Z.max m (Z.abs s)) xs 1%Z.

(** [h.get("title")] is truthy: present and non-empty. *)
Definition truthy_title (h : Headline) : option string :=
  match title h with
  | Some EmptyString => None
  | other => other
  end.

Fixpoint raw_titles (hs : list Headline) : list string :=
  match hs with
  | [] => []
  | h :: rest =>
      match truthy_title h with
      | Some t => t :: raw_titles rest
      | None => raw_titles rest
      end
  end.

(** Returns (score, label, summary). *)
Definition simple_sentiment_from_headlines (headlines : list Headline)
  : Q * SentimentLabel * string :=
  match headlines with
  | [] => (0.0%Q, NEUTRAL, "No recent news found for this stock.")
  | _ =>
      let scores := map headline_score headlines in
      match scores with
      | [] => (0.0%Q, NEUTRAL, "News headlines were not clearly positive or negative.")
      | _ =>
          let avg_raw := mean_Z scores in
          let max_abs := max_abs_score scores in
          let score_norm := (avg_raw / inject_Z max_abs)%Q in
          let label :=
            if Num.Qltb 0.2 score_norm then POSITIVE
            else if Num.Qltb score_norm (- 0.2) then NEGATIVE
            else NEUTRAL in
          let titles := raw_titles headlines in
          let summary :=
            match titles with
            | [] => "News is available, but not strongly directional."
            | _ => Text.join "; " (firstn 2 titles)
            end in
          (score_norm, label, summary)
      end
  end.

(** [any(w in text for w in ws)]: the inner loops with their [break]. *)
Definition any_keyword (ws : list string) (text : string) : bool :=
  existsb (fun w => Text.contains w text) ws.

Definition determine_news_risk (headlines : list Headline) : NewsRiskFlag :=
  match headlines with
  | [] => NONE
  | _ =>
      let has_event :=
        existsb (fun h => any_keyword EVENT_KEYWORDS (headline_text h)) headlines in
      let has_breaking :=
        existsb (fun h => any_keyword BREAKING_KEYWORDS (headline_text h)) headlines in
      if has_breaking then BREAKING
      else if has_event then EVENT_RISK
      else NONE
  end.

End SentimentEngine.

(* ------------------------------------------------------------------ *)
(** ** [prediction_engine.py] *)

Module PredictionEngine.

Import Config SentimentEngine.

Local Open Scope string_scope.

Inductive StatusCode :=
  CLOSED | STUDY | SCALP_1 | NO_NEW_1 | SCALP_2 | NO_NEW_2 | OPEN.

(** The dictionary returned by [get_time_status]. *)
Record TimeStatus := mk_status {
  code : StatusCode;
  color : string;
  message : string;
  window_start : option time;
  window_end : option time
}.

Definition month_abbr (m : Z) : string :=
  nth (Z.to_nat (m - 1))
      [ "Jan"; "Feb"; "Mar"; "Apr"; "May"; "Jun";
        "Jul"; "Aug"; "Sep"; "Oct"; "Nov"; "Dec" ] "".

(** [strftime("%d-%b-%Y")]. *)
Definition date_str (dt : datetime) : string :=
  Text.zfill 2 (day dt) ++ "-" ++ month_abbr (month dt) ++ "-" ++ Text.zfill 4 (year dt).

(** [strftime("%I:%M %p")]. *)
Definition time_str (dt : datetime) : string :=
  let h := hour (clock dt) in
  let h12 := if (h mod 12 =? 0)%Z then 12%Z else (h mod 12)%Z in
  Text.zfill 2 h12 ++ ":" ++ Text.zfill 2 (minute (clock dt)) ++ " "
  ++ (if (h <? 12)%Z then "AM" else "PM").

(** Return dict with code, color, human message, window_start, window_end. *)
Definition get_time_status (now_ist : datetime) : TimeStatus :=
  let t := clock now_ist in
  let date_str := date_str now_ist in
  let time_str := time_str now_ist in
  if time_ltb t MARKET_OPEN || time_ltb MARKET_CLOSE t then
    mk_status CLOSED "#b22222"
      ("Market is currently closed on " ++ date_str ++ ". Current time is "
       ++ time_str ++ " (Indian Standard Time).") None None
  else if time_leb MARKET_OPEN t && time_ltb t STUDY_END then
    mk_status STUDY "#b22222"
      ("Study-only period for today (" ++ date_str ++ "). "
       ++ "From 9:15 AM to 10:00 AM you should only observe the market and avoid opening new scalping trades.")
      None None
  else if time_leb SCALP_1_START t && time_ltb t SCALP_1_END then
    mk_status SCALP_1 "#228b22"
      ("You are in Prime Scalping Window 1 on " ++ date_str ++ ". "
       ++ "Current time is " ++ time_str ++ ". This window runs from 10:00 AM to 11:30 AM. "
       ++ "Short-term scalping opportunities are allowed during this period when conditions are favourable.")
      None None
  else if time_leb NO_NEW_1_START t && time_ltb t NO_NEW_1_END then
    mk_status NO_NEW_1 "#ff8c00"
      ("You are in the midday period on " ++ date_str ++ " (approximately 11:30 AM to 1:30 PM). "
       ++ "This part of the session often has lower quality moves. "
       ++ "It is generally better to avoid starting fresh scalping trades and instead manage or monitor existing positions.")
      None None
  else if time_leb SCALP_2_START t && time_ltb t SCALP_2_END then
    mk_status SCALP_2 "#228b22"
      ("You are in Prime Scalping Window 2 on " ++ date_str ++ ". "
       ++ "Current time is " ++ time_str ++ ". This window runs from 1:30 PM to 2:45 PM. "
       ++ "This is another good period for short-term scalping if the market and stock conditions support it.")
      None None
  else if time_leb NO_NEW_2_START t && time_leb t MARKET_CLOSE then
    mk_status NO_NEW_2 "#ff8c00"
      ("You are in the final wind-down window for today (" ++ date_str
       ++ "), between approximately 2:45 PM and 3:30 PM. "
       ++ "This period is best used for managing and exiting existing trades, not for opening new scalping positions.")
      None None
  else
    mk_status OPEN "#1e90ff"
      ("Market is open on " ++ date_str ++ ". Current time is " ++ time_str ++ ".")
      None None.

(** Floor datetime to lower time bucket of given minutes, return HH:MM string. *)
Definition floor_time_to_bucket (dt : datetime) (minutes : Z) : string :=
  let minute := (minute (clock dt) / minutes * minutes)%Z in
  Text.zfill 2 (hour (clock dt)) ++ ":" ++ Text.zfill 2 minute.

(** One row of an intraday price frame; [index] is the bar's timestamp. *)
Record Bar := mk_bar {
  index : Z;
  Open : Q;
  High : Q;
  Low : Q;
  Close : Q;
  Volume : Q
}.

(** [df.sort_index()]: rows in increasing timestamp order. *)
Fixpoint insert_bar (b : Bar) (l : list Bar) : list Bar :=
  match l with
  | [] => [b]
  | x :: rest => if (index b <? index x)%Z then b :: l else x :: insert_bar b rest
  end.

Definition sort_index (df : list Bar) : list Bar :=
  fold_left (fun acc b => insert_bar b acc) df [].

Inductive StockTrend := UP | DOWN | SIDEWAYS.
Inductive Level := HIGH | MEDIUM | LOW.
Inductive VolumeSignal := V_HIGH | V_NORMAL | V_LOW | V_UNKNOWN.
Inductive MarketRegime :=
  TREND_DAY | RANGE_DAY | HIGH_VOLATILITY | LOW_VOLATILITY | UNKNOWN.
Inductive NiftyTrend := BULLISH | BEARISH | N_NEUTRAL.
Inductive Action := LONG_BIAS | SHORT_BIAS | NO_TRADE.
Inductive ConfidenceLabel := L_High | L_Medium | L_Low | L_VeryLowOrNoTrade.
Inductive TrendTag := TREND | RANGE.

Definition level_eqb (a b : Level) : bool :=
  match a, b with
  | HIGH, HIGH | MEDIUM, MEDIUM | LOW, LOW => true
  | _, _ => false
  end.

Definition trend_tag_eqb (a b : TrendTag) : bool :=
  match a, b with
  | TREND, TREND | RANGE, RANGE => true
  | _, _ => false
  end.

(** [np.arange(n)] as rationals. *)
Definition arange (n : nat) : list Q := map (fun i => inject_Z (Z.of_nat i)) (seq 0 n).

(** [np.polyfit(x, y, 1)[0]]: the least-squares slope. *)
Definition polyfit_slope (xs ys : list Q) : Q :=
  let mx := Num.mean xs in
  let my := Num.mean ys in
  (Num.sum (map (fun p => (fst p - mx) * (snd p - my)) (combine xs ys))
   / Num.sum (map (fun x => (x - mx) * (x - mx)) xs))%Q.

(** Very simple intraday trend based on regression slope over recent bars. *)
Definition determine_stock_trend (intraday_df : list Bar) (lookback_bars : nat)
  : StockTrend :=
  if match intraday_df with [] => true | _ => false end
     || (List.length intraday_df <? lookback_bars)%nat
  then SIDEWAYS
  else
    let closes := map Close (Num.lastn lookback_bars intraday_df) in
    let x := arange (List.length closes) in
    let slope := polyfit_slope x closes in
    if Num.Qltb 0 slope then UP
    else if Num.Qltb slope 0 then DOWN
    else SIDEWAYS.

(** Rough classification of intraday volatility based on return standard
    deviation. *)
Definition compute_intraday_volatility_label (intraday_df : list Bar)
  (lookback_bars : nat) : Level :=
  if match intraday_df with [] => true | _ => false end
     || (List.length intraday_df <? lookback_bars)%nat
  then MEDIUM
  else
    let closes := map Close (Num.lastn lookback_bars intraday_df) in
    let returns := Num.dropna (Num.pct_change closes) in
    match returns with
    | [] => MEDIUM
    | _ =>
        let std := Num.std_squared returns in
        if Num.std_geb std 0.004 then HIGH
        else if Num.std_leb std 0.0015 then LOW
        else MEDIUM
    end.

Definition list_max (xs : list Q) (d : Q) : Q :=
  fold_left (fun m x => if Num.Qltb m x then x else m) xs d.

Definition list_min (xs : list Q) (d : Q) : Q :=
  fold_left (fun m x => if Num.Qltb x m then x else m) xs d.

(** Classify the overall day for NIFTY as TREND_DAY, RANGE_DAY,
    HIGH_VOLATILITY or LOW_VOLATILITY. *)
Definition compute_market_regime (nifty_intraday : list Bar) : MarketRegime :=
  if match nifty_intraday with [] => true | _ => false end
     || (List.length nifty_intraday <? 30)%nat
  then UNKNOWN
  else
    let df := sort_index nifty_intraday in
    let closes := map Close df in
    match closes with
    | [] => UNKNOWN
    | c0 :: _ =>
        let first_price := c0 in
        let last_price := last closes c0 in
        let day_range := (list_max closes c0 - list_min closes c0)%Q in
        let price_change := Qabs (last_price - first_price) in
        let trend_ratio :=
          if Num.Qeqb day_range 0 then 0%Q else (price_change / day_range)%Q in
        let returns := Num.dropna (Num.pct_change closes) in
        let intraday_vol :=
          match returns with [] => Some 0%Q | _ => Num.std_squared returns end in
        let vol_tag :=
          if Num.std_geb intraday_vol 0.004 then HIGH
          else if Num.std_leb intraday_vol 0.0015 then LOW
          else MEDIUM in
        let trend_tag := if Num.Qleb 0.6 trend_ratio then TREND else RANGE in
        if trend_tag_eqb trend_tag TREND
           && (level_eqb vol_tag HIGH || level_eqb vol_tag MEDIUM)
        then TREND_DAY
        else if trend_tag_eqb trend_tag RANGE && level_eqb vol_tag HIGH
        then HIGH_VOLATILITY
        else if level_eqb vol_tag LOW then LOW_VOLATILITY
        else RANGE_DAY
    end.

Definition MARKET_REGIME_DESCRIPTIONS (r : MarketRegime) : string :=
  match r with
  | TREND_DAY =>
      "The overall market (NIFTY) is showing a clear trend with reasonable intraday volatility. "
      ++ "Scalping in the direction of the main trend is usually favourable."
  | RANGE_DAY =>
      "The overall market (NIFTY) is moving sideways within a range with no clear direction. "
      ++ "Many scalping signals will fail or reverse quickly in this environment."
  | HIGH_VOLATILITY =>
      "The market is very volatile with wide swings up and down but not always a clear direction. "
      ++ "Opportunities exist, but risk is also higher, so trade size and discipline must be strict."
  | LOW_VOLATILITY =>
      "The market is relatively quiet with narrow intraday ranges. "
      ++ "Scalps may not move enough to justify risk, so conditions are often less attractive."
  | UNKNOWN =>
      "There is not enough information yet to classify the overall market regime."
  end.

(** The market data collaborator.  [get_intraday_history] answers [None]
    when the call raises; the engine catches that and continues with an empty
    frame. *)
Record MarketDataProvider := mk_market_provider {
  get_intraday_history : string -> option (list Bar);
  get_nifty_trend_daily : NiftyTrend
}.

Record NewsProvider := mk_news_provider {
  get_headlines_for_symbol : string -> Z -> list Headline
}.

(** A row of the active watchlist. *)
Record WatchRow := mk_watch {
  w_ticker : string;
  w_data_symbol : string;
  w_index_bucket : string
}.

(** A prediction row, with the columns of [PREDICTION_COLUMNS].
    [datetime_ist] holds the timestamp itself rather than its ISO text. *)
Record Prediction := mk_prediction {
  prediction_id : string;
  datetime_ist : datetime;
  date : Config.date;
  time_bucket : string;
  ticker : string;
  data_symbol : string;
  index_bucket : string;
  nifty_trend : NiftyTrend;
  stock_short_trend : StockTrend;
  market_regime : MarketRegime;
  prediction_action : Action;
  confidence_score : Q;
  confidence_level_label : ConfidenceLabel;
  confidence_trend : Q;
  confidence_volume : Q;
  confidence_sentiment : Q;
  confidence_volatility : Q;
  confidence_explanation : string;
  valid_for_minutes : Z;
  price_at_prediction : option Q;
  volume_signal : VolumeSignal;
  sentiment_score : Q;
  sentiment_label : SentimentLabel;
  news_summary : string;
  news_risk_flag : NewsRiskFlag;
  status_code : StatusCode;
  strategy_version : string
}.

Definition status_eqb (a b : StatusCode) : bool :=
  match a, b with
  | CLOSED, CLOSED | STUDY, STUDY | SCALP_1, SCALP_1 | NO_NEW_1, NO_NEW_1
  | SCALP_2, SCALP_2 | NO_NEW_2, NO_NEW_2 | OPEN, OPEN => true
  | _, _ => false
  end.

Definition regime_eqb (a b : MarketRegime) : bool :=
  match a, b with
  | TREND_DAY, TREND_DAY | RANGE_DAY, RANGE_DAY
  | HIGH_VOLATILITY, HIGH_VOLATILITY | LOW_VOLATILITY, LOW_VOLATILITY
  | UNKNOWN, UNKNOWN => true
  | _, _ => false
  end.

Definition action_eqb (a b : Action) : bool :=
  match a, b with
  | LONG_BIAS, LONG_BIAS | SHORT_BIAS, SHORT_BIAS | NO_TRADE, NO_TRADE => true
  | _, _ => false
  end.

Definition nifty_eqb (a b : NiftyTrend) : bool :=
  match a, b with
  | BULLISH, BULLISH | BEARISH, BEARISH | N_NEUTRAL, N_NEUTRAL => true
  | _, _ => false
  end.

Definition stock_eqb (a b : StockTrend) : bool :=
  match a, b with
  | UP, UP | DOWN, DOWN | SIDEWAYS, SIDEWAYS => true
  | _, _ => false
  end.

Definition sentiment_eqb (a b : SentimentLabel) : bool :=
  match a, b with
  | POSITIVE, POSITIVE | NEGATIVE, NEGATIVE | NEUTRAL, NEUTRAL => true
  | _, _ => false
  end.

(** [np.isnan] on a price. *)
Definition isnan (x : option Q) : bool :=
  match x with None => true | Some _ => false end.

Definition label_text (l : ConfidenceLabel) : string :=
  match l with
  | L_High => "High"
  | L_Medium => "Medium"
  | L_Low => "Low"
  | L_VeryLowOrNoTrade => "Very Low or No Trade"
  end.

(** The [:.2f] rendering of a non-negative value. *)
Definition format_2f (x : Q) : string :=
  let n := Num.round_half_even (x * 100) in
  NilZero.string_of_uint (N.to_uint (Z.to_N (n / 100))) ++ "." ++ Text.zfill 2 n.

(** Whether new signals may be produced: the two scalping windows, the
    second one only on a day that is not quiet. *)
Definition is_actionable (status_code : StatusCode) (market_regime : MarketRegime)
  : bool :=
  let actionable := status_eqb status_code SCALP_1 || status_eqb status_code SCALP_2 in
  if status_eqb status_code SCALP_2 && regime_eqb market_regime LOW_VOLATILITY
  then false
  else actionable.

(** (last_price, stock_trend, volume_signal, volatility_label) of one
    instrument; [None] is the [nan] price of an empty frame. *)
Definition instrument_features (intraday : list Bar)
  : option Q * StockTrend * VolumeSignal * Level :=
  match intraday with
  | [] => (None, SIDEWAYS, V_UNKNOWN, MEDIUM)
  | b0 :: _ =>
      let intraday := sort_index intraday in
      let last_price := Close (last intraday b0) in
      let stock_trend := determine_stock_trend intraday 20 in
      let recent_vol := Num.mean (map Volume (Num.lastn 20 intraday)) in
      let hist_vol :=
        if (60 <=? List.length intraday)%nat
        then Num.mean (map Volume (Num.lastn 60 intraday))
        else recent_vol in
      let volume_ratio :=
        if Num.Qeqb hist_vol 0 then 1%Q else (recent_vol / hist_vol)%Q in
      let volume_signal :=
        if Num.Qltb 1.5 volume_ratio then V_HIGH
        else if Num.Qltb volume_ratio 0.7 then V_LOW
        else V_NORMAL in
      let volatility_label := compute_intraday_volatility_label intraday 40 in
      (Some last_price, stock_trend, volume_signal, volatility_label)
  end.

(** Decide prediction_action based on trend + sentiment + market regime. *)
Definition decide_action (actionable : bool) (last_price : option Q)
  (nifty_trend : NiftyTrend) (stock_trend : StockTrend)
  (sentiment_label : SentimentLabel) : Action :=
  if actionable && negb (isnan last_price) then
    if nifty_eqb nifty_trend BULLISH && stock_eqb stock_trend UP
       && negb (sentiment_eqb sentiment_label NEGATIVE)
    then LONG_BIAS
    else if nifty_eqb nifty_trend BEARISH && stock_eqb stock_trend DOWN
            && negb (sentiment_eqb sentiment_label POSITIVE)
    then SHORT_BIAS
    else NO_TRADE
  else NO_TRADE.

(** 1. Trend alignment component. *)
Definition trend_component_of (prediction_action : Action)
  (nifty_trend : NiftyTrend) (stock_trend : StockTrend) : Q :=
  match prediction_action with
  | LONG_BIAS =>
      if nifty_eqb nifty_trend BULLISH && stock_eqb stock_trend UP then 1.0
      else if (nifty_eqb nifty_trend BULLISH || nifty_eqb nifty_trend N_NEUTRAL)
              && stock_eqb stock_trend UP then 0.7
      else 0.3
  | SHORT_BIAS =>
      if nifty_eqb nifty_trend BEARISH && stock_eqb stock_trend DOWN then 1.0
      else if (nifty_eqb nifty_trend BEARISH || nifty_eqb nifty_trend N_NEUTRAL)
              && stock_eqb stock_trend DOWN then 0.7
      else 0.3
  | NO_TRADE => 0.0
  end.

(** 2. Volume confirmation component. *)
Definition volume_component_of (volume_signal : VolumeSignal) : Q :=
  match volume_signal with
  | V_HIGH => 1.0
  | V_NORMAL => 0.7
  | V_LOW => 0.3
  | V_UNKNOWN => 0.5
  end.

(** 3. Sentiment support component. *)
Definition sentiment_component_of (prediction_action : Action)
  (sentiment_label : SentimentLabel) : Q :=
  match prediction_action with
  | LONG_BIAS =>
      match sentiment_label with
      | POSITIVE => 1.0
      | NEUTRAL => 0.7
      | NEGATIVE => 0.3
      end
  | SHORT_BIAS =>
      match sentiment_label with
      | NEGATIVE => 1.0
      | NEUTRAL => 0.7
      | POSITIVE => 0.3
      end
  | NO_TRADE => 0.5
  end.

(** 4. Volatility suitability component (for scalping, medium-to-high is
    better). *)
Definition volatility_component_of (volatility_label : Level) : Q :=
  match volatility_label with
  | HIGH => 1.0
  | MEDIUM => 0.8
  | LOW => 0.4
  end.

(** The overall confidence score: weighted sum, regime adjustment, cap
    under elevated news risk, rounding to two decimals. *)
Definition overall_confidence_of (prediction_action : Action) (actionable : bool)
  (trend_component volume_component sentiment_component volatility_component : Q)
  (market_regime : MarketRegime) (news_risk_flag : NewsRiskFlag) : Q :=
  let overall_confidence :=
    if action_eqb prediction_action NO_TRADE || negb actionable then 0.0%Q
    else (0.30 * trend_component
          + 0.25 * volume_component
          + 0.20 * sentiment_component
          + 0.25 * volatility_component)%Q in
  let overall_confidence :=
    match market_regime with
    | RANGE_DAY => (overall_confidence * 0.7)%Q
    | LOW_VOLATILITY => (overall_confidence * 0.6)%Q
    | _ => overall_confidence
    end in
  let overall_confidence :=
    match news_risk_flag with
    | EVENT_RISK | BREAKING => Num.min overall_confidence 0.6
    | NONE => overall_confidence
    end in
  Num.py_round overall_confidence 2.

(** Confidence level label. *)
Definition confidence_level_label_of (overall_confidence : Q) : ConfidenceLabel :=
  if Num.Qleb 0.7 overall_confidence then L_High
  else if Num.Qleb 0.4 overall_confidence then L_Medium
  else if Num.Qltb 0 overall_confidence then L_Low
  else L_VeryLowOrNoTrade.
(** What the loop body computes between "Decide prediction_action" and
    "Confidence level label". *)
Record Scores := mk_scores {
  sc_action : Action;
  sc_trend : Q;
  sc_volume : Q;
  sc_sentiment : Q;
  sc_volatility : Q;
  sc_overall : Q;
  sc_label : ConfidenceLabel
}.

Definition score_instrument (actionable : bool) (market_regime : MarketRegime)
  (nifty_trend : NiftyTrend) (last_price : option Q) (stock_trend : StockTrend)
  (volume_signal : VolumeSignal) (volatility_label : Level)
  (sentiment_label : SentimentLabel) (news_risk_flag : NewsRiskFlag) : Scores :=
  let prediction_action :=
    decide_action actionable last_price nifty_trend stock_trend sentiment_label in
  (* Confidence components *)
  let trend_component := trend_component_of prediction_action nifty_trend stock_trend in
  let volume_component := volume_component_of volume_signal in
  let sentiment_component := sentiment_component_of prediction_action sentiment_label in
  let volatility_component := volatility_component_of volatility_label in
  let overall_confidence :=
    overall_confidence_of prediction_action actionable trend_component
      volume_component sentiment_component volatility_component
      market_regime news_risk_flag in
  let confidence_level_label := confidence_level_label_of overall_confidence in
  mk_scores prediction_action trend_component volume_component
    sentiment_component volatility_component overall_confidence
    confidence_level_label.

(** Explanation text. *)
Definition confidence_explanation_of (prediction_action : Action)
  (trend_component volume_component sentiment_component volatility_component : Q)
  (overall_confidence : Q) (confidence_level_label : ConfidenceLabel)
  (market_regime : MarketRegime) (news_risk_flag : NewsRiskFlag) : string :=
  let part1 :=
    match prediction_action with
    | LONG_BIAS =>
        "The system currently sees this stock as a candidate for a short-term buying (long) scalp."
    | SHORT_BIAS =>
        "The system currently sees this stock as a candidate for a short-term selling or short-selling scalp."
    | NO_TRADE =>
        "The system does not see a clear short-term scalping opportunity at this moment."
    end in
  let part2 :=
    "Trend alignment score is " ++ format_2f trend_component
    ++ ", volume confirmation score is " ++ format_2f volume_component ++ ", "
    ++ "news sentiment support score is " ++ format_2f sentiment_component
    ++ ", and volatility suitability score is " ++ format_2f volatility_component ++ "." in
  let part3 :=
    "The overall confidence score is " ++ format_2f overall_confidence
    ++ ", classified as '" ++ label_text confidence_level_label ++ "'." in
  let regime_part :=
    if regime_eqb market_regime UNKNOWN then []
    else [MARKET_REGIME_DESCRIPTIONS market_regime] in
  let risk_part :=
    match news_risk_flag with
    | EVENT_RISK =>
        [ "There is an important scheduled or structural news event around this stock (for example earnings, "
          ++ "policy decisions, corporate actions, or legal developments). Signals around such events can be more volatile." ]
    | BREAKING =>
        [ "There appears to be very fresh or urgent news for this stock. This can create sharp and unpredictable "
          ++ "moves, so you should treat any signal with extra caution and possibly reduce position size." ]
    | NONE => []
    end in
  Text.join " " ([part1; part2; part3] ++ regime_part ++ risk_part).

(** The body of the loop over the watchlist: the prediction row of one
    instrument. *)
Definition predict_row (now_ist : datetime) (status_code : StatusCode)
  (nifty_trend : NiftyTrend) (market_regime : MarketRegime) (actionable : bool)
  (market_data_provider : MarketDataProvider) (news_provider : NewsProvider)
  (strategy_version : string) (row : WatchRow) : Prediction :=
  let ticker := w_ticker row in
  let data_symbol := w_data_symbol row in
  let index_bucket := w_index_bucket row in
  let intraday :=
    match get_intraday_history market_data_provider data_symbol with
    | Some df => df
    | None => []
    end in
  let '(last_price, stock_trend, volume_signal, volatility_label) :=
    instrument_features intraday in
  (* News, sentiment, and news risk *)
  let headlines := get_headlines_for_symbol news_provider ticker 5 in
  let '(sentiment_score, sentiment_label, news_summary) :=
    simple_sentiment_from_headlines headlines in
  let news_risk_flag := determine_news_risk headlines in
  let '(mk_scores prediction_action trend_component volume_component
         sentiment_component volatility_component overall_confidence
         confidence_level_label) :=
    score_instrument actionable market_regime nifty_trend last_price stock_trend
      volume_signal volatility_label sentiment_label news_risk_flag in
  let confidence_explanation :=
    confidence_explanation_of prediction_action trend_component volume_component
      sentiment_component volatility_component overall_confidence
      confidence_level_label market_regime news_risk_flag in
  let time_bucket := floor_time_to_bucket now_ist PREDICTION_TIME_BUCKET_MINUTES in
  let prediction_id :=
    Text.zfill 4 (year now_ist) ++ Text.zfill 2 (month now_ist)
    ++ Text.zfill 2 (day now_ist) ++ "_" ++ time_bucket ++ "_" ++ ticker in
  {| prediction_id := prediction_id;
     datetime_ist := now_ist;
     date := date_of now_ist;
     time_bucket := time_bucket;
     ticker := ticker;
     data_symbol := data_symbol;
     index_bucket := index_bucket;
     nifty_trend := nifty_trend;
     stock_short_trend := stock_trend;
     market_regime := market_regime;
     prediction_action := prediction_action;
     confidence_score := overall_confidence;
     confidence_level_label := confidence_level_label;
     confidence_trend := Num.py_round trend_component 2;
     confidence_volume := Num.py_round volume_component 2;
     confidence_sentiment := Num.py_round sentiment_component 2;
     confidence_volatility := Num.py_round volatility_component 2;
     confidence_explanation := confidence_explanation;
     valid_for_minutes := SCALP_VALID_MINUTES;
     price_at_prediction := last_price;
     volume_signal := volume_signal;
     sentiment_score := Num.py_round sentiment_score 3;
     sentiment_label := sentiment_label;
     news_summary := news_summary;
     news_risk_flag := news_risk_flag;
     status_code := status_code;
     strategy_version := strategy_version |}.

(** Generate prediction rows for current time for all stocks in the active
    watchlist.  Only produces actionable scalping suggestions in the two
    prime scalping windows.  [now_ist] is the reading of [get_ist_now()]. *)
Definition generate_predictions_for_watchlist (now_ist : datetime)
  (watchlist_df : list WatchRow) (market_data_provider : MarketDataProvider)
  (news_provider : NewsProvider) (strategy_version : string)
  : list Prediction :=
  match watchlist_df with
  | [] => []
  | _ =>
      let status := get_time_status now_ist in
      let status_code := code status in
      (* Determine NIFTY daily trend *)
      let nifty_trend := get_nifty_trend_daily market_data_provider in
      (* Determine NIFTY intraday regime *)
      let nifty_intraday :=
        match get_intraday_history market_data_provider NIFTY_SYMBOL_YF with
        | Some df => df
        | None => []
        end in
      let market_regime := compute_market_regime nifty_intraday in
      let actionable := is_actionable status_code market_regime in
      map (predict_row now_ist status_code nifty_trend market_regime actionable
             market_data_provider news_provider strategy_version)
          watchlist_df
  end.

End PredictionEngine.

(* ------------------------------------------------------------------ *)
(** ** [journal.py] *)

Module Journal.

Import Config PredictionEngine.

(** The journal file is the list of its rows; reading and writing the CSV
    file are the identity on that list. *)
Definition JournalDf := list Prediction.

(** The mask of [upsert_predictions] at one journal row: equal [date],
    [time_bucket] and [ticker]. *)
Definition key_mask (row j : Prediction) : bool :=
  date_eqb (date j) (date row)
  && String.eqb (time_bucket j) (time_bucket row)
  && String.eqb (ticker j) (ticker row).

(** Every column of the first row selected by the mask is set from [row]. *)
Fixpoint overwrite_first (row : Prediction) (journal_df : JournalDf) : JournalDf :=
  match journal_df with
  | [] => []
  | j :: rest =>
      if key_mask row j then row :: rest else j :: overwrite_first row rest
  end.

(** One turn of the loop over [new_preds]. *)
Definition upsert_row (journal_df : JournalDf) (row : Prediction) : JournalDf :=
  if existsb (key_mask row) journal_df
  then overwrite_first row journal_df
  else journal_df ++ [row].

(** [drop_duplicates(subset=["date", "time_bucket", "ticker"], keep="last")]:
    a row goes when a later row has the same key. *)
Fixpoint drop_duplicates (journal_df : JournalDf) : JournalDf :=
  match journal_df with
  | [] => []
  | j :: rest =>
      if existsb (key_mask j) rest then drop_duplicates rest
      else j :: drop_duplicates rest
  end.

(** Merge new predictions into journal, updating items with same
    (date, time_bucket, ticker).  Takes the stored journal and returns the
    journal that is stored afterwards. *)
Definition upsert_predictions (new_preds : list Prediction) (stored : JournalDf)
  : JournalDf :=
  match new_preds with
  | [] => stored
  | _ =>
      let journal_df := fold_left upsert_row new_preds stored in
      drop_duplicates journal_df
  end.

End Journal.


(* ------------------------------------------------------------------ *)
(** ** [data_providers.py] *)

(** The methods of [YahooMarketDataProvider] that compute.  What
    [yf.download] answers is an input: a frame is the list of its rows after
    [dropna()], [None] is a symbol absent from the downloaded data. *)
Module YahooMarketDataProvider.

Import PredictionEngine.

(** [closes.rolling(window).mean().iloc[-1]]: the mean of the last [window]
    closes, [nan] ([None]) while there are fewer. *)
Definition rolling_mean_last (window : nat) (closes : list Q) : option Q :=
  if (List.length closes <? window)%nat then None
  else Some (Num.mean (Num.lastn window closes)).

(** [get_last_price], on the one-minute frame of the symbol. *)
Definition get_last_price (df : list Bar) : option Q :=
  match df with
  | [] => None
  | b :: _ => Some (Close (last df b))
  end.

(** Simple NIFTY trend based on last close vs 50-day SMA; [data] is the
    entry of the benchmark in the end-of-day history. *)
Definition get_nifty_trend_daily (data : option (list Bar)) : NiftyTrend :=
  match data with
  | None | Some [] => N_NEUTRAL
  | Some ((b :: _) as df) =>
      let closes := map Close df in
      let last_close := last closes (Close b) in
      match rolling_mean_last 50 closes with
      | None => N_NEUTRAL
      | Some last_sma =>
          if Num.Qeqb last_sma 0 then N_NEUTRAL
          else if Num.Qltb last_sma last_close then BULLISH
          else BEARISH
      end
  end.

(** The provider as the engine sees it, over the downloaded intraday frames
    ([None]: the download raises) and the benchmark's end-of-day entry. *)
Definition provider (intraday : string -> option (list Bar))
  (nifty_eod : option (list Bar)) : MarketDataProvider :=
  mk_market_provider intraday (get_nifty_trend_daily nifty_eod).

End YahooMarketDataProvider.

(* ------------------------------------------------------------------ *)
(** ** [watchlist.py] *)

Module Watchlist.

Import Config.

(** A row of the active watchlist and of the watchlist history. *)
Record WatchlistRow := mk_watchlist_row {
  ticker : string;
  data_symbol : string;
  index_bucket : string;
  beta : Q;
  avg_volume : Z;
  score : Q;
  selection_date : Config.date;
  usable_for_date : Config.date
}.

(** What [pd.read_csv] finds in the active watchlist file: a frame without
    the column [usable_for_date], or the rows of a frame that has it. *)
Inductive CsvFrame :=
| WithoutUsableForDate
| WithRows (rows : list WatchlistRow).

(** Load active watchlist for given usable_for_date; [file] is [None] when
    the file does not exist. *)
Definition load_active_watchlist_for_date (file : option CsvFrame) (d : Config.date)
  : list WatchlistRow :=
  match file with
  | None => []
  | Some WithoutUsableForDate => []
  | Some (WithRows rows) => filter (fun r => date_eqb (usable_for_date r) d) rows
  end.

Definition load_today_watchlist (file : option CsvFrame) (now_ist : datetime)
  : list WatchlistRow :=
  let today := date_of now_ist in
  load_active_watchlist_for_date file today.

Definition save_active_watchlist (df : list WatchlistRow) : option CsvFrame :=
  Some (WithRows df).

(** The columns of a watchlist row that the prediction engine reads. *)
Definition engine_row (r : WatchlistRow) : PredictionEngine.WatchRow :=
  PredictionEngine.mk_watch (ticker r) (data_symbol r) (index_bucket r).

End Watchlist.

(* ------------------------------------------------------------------ *)
(** ** [nightly_screener.py] *)

Module NightlyScreener.

Import Config PredictionEngine.

(* Nightly screener config ([config.py]) *)
Definition MIN_PRICE : Q := 100.0.
Definition MAX_PRICE : Q := 5000.0.
Definition MIN_BETA : Q := 1.5.
Definition MIN_AVG_VOLUME : Q := 500000.

Definition NUM_LARGE_CAP : nat := 10.
Definition NUM_MID_CAP : nat := 5.

(** A pandas series of returns: (index, value) rows. *)
Definition Series : Type := list (Z * Num.pct).

(** [df["Close"].pct_change()], with the index of the frame. *)
Definition close_returns (df : list Bar) : Series :=
  combine (map index df) (Num.pct_change (map Close df)).

(** [pd.concat([a, b], axis=1, join="inner")]: the rows of [a] whose index
    occurs in [b], with the two values.  The index of a downloaded frame
    holds every date once. *)
Fixpoint inner_join (a b : Series) : list (Num.pct * Num.pct) :=
  match a with
  | [] => []
  | (i, x) :: rest =>
      match find (fun jy => (fst jy =? i)%Z) b with
      | Some (_, y) => (x, y) :: inner_join rest b
      | None => inner_join rest b
      end
  end.

Definition is_nan (x : Num.pct) : bool :=
  match x with Num.NaN => true | _ => false end.

(** [.dropna()] on the two-column frame. *)
Definition dropna_rows (rows : list (Num.pct * Num.pct)) : list (Num.pct * Num.pct) :=
  filter (fun r => negb (is_nan (fst r)) && negb (is_nan (snd r))) rows.

(** The rows as rationals, or [None] when an infinity is among them. *)
Fixpoint finite_rows (rows : list (Num.pct * Num.pct)) : option (list (Q * Q)) :=
  match rows with
  | [] => Some []
  | (Num.Fin x, Num.Fin y) :: rest => option_map (cons (x, y)) (finite_rows rest)
  | _ :: _ => None
  end.

(** [Series.var()]: unbiased, [nan] below two rows. *)
Definition pandas_var (xs : list Q) : option Q :=
  if (2 <=? List.length xs)%nat then Some (Num.sample_variance xs) else None.

(** [np.cov(s, m)[0, 1]]: unbiased, [nan] below two rows. *)
Definition np_cov (s m : list Q) : option Q :=
  if (2 <=? List.length s)%nat then
    let ms := Num.mean s in
    let mm := Num.mean m in
    Some (Num.sum (map (fun p => (fst p - ms) * (snd p - mm)) (combine s m))
          / inject_Z (Z.of_nat (List.length s) - 1))%Q
  else None.

(** [np.var(m)]: the population variance. *)
Definition np_var (m : list Q) : Q :=
  let mm := Num.mean m in
  (Num.sum (map (fun x => (x - mm) * (x - mm)) m)
   / inject_Z (Z.of_nat (List.length m)))%Q.

(** [None] is [nan].  With an infinity among the joined returns the
    covariance, and with it the quotient, is [nan]. *)
Definition compute_beta (stock_returns index_returns : Series) : option Q :=
  let df := dropna_rows (inner_join stock_returns index_returns) in
  match df with
  | [] => None
  | _ =>
      match finite_rows df with
      | None => None
      | Some rows =>
          let s := map fst rows in
          let m := map snd rows in
          if match pandas_var m with Some v => Num.Qeqb v 0 | None => false end
          then None
          else
            let cov := np_cov s m in
            let var := np_var m in
            if Num.Qeqb var 0 then None
            else option_map (fun c => (c / var)%Q) cov
      end
  end.

(** A row of the universe file: [ticker], [data_symbol], [index_bucket]. *)
Record UniverseRow := mk_universe_row {
  u_ticker : string;
  u_data_symbol : string;
  u_index_bucket : string
}.

(** The universe file as [pd.read_csv] returns it, with the cells of its
    column [is_active] when it has one. *)
Inductive UniverseFrame :=
| WithIsActive (rows : list (UniverseRow * Z))
| WithoutIsActive (rows : list UniverseRow).

(** A record of [candidates_df]. *)
Record Candidate := mk_candidate {
  c_ticker : string;
  c_data_symbol : string;
  c_index_bucket : string;
  c_beta : Q;
  c_avg_volume : Z;
  c_score : Q
}.

(** The two files the screener writes; [None] is a file that does not
    exist. *)
Record Files := mk_files {
  active_watchlist_file : option Watchlist.CsvFrame;
  watchlist_history_file : option (list Watchlist.WatchlistRow)
}.

Inductive Outcome :=
| FileNotFoundError
| KeyError
| Returned (files : Files).

(** [int(x)]: truncation towards zero. *)
Definition int (x : Q) : Z := Z.quot (Qnum x) (Zpos (Qden x)).

Definition large_mask (c : Candidate) : bool :=
  String.eqb (c_index_bucket c) "NIFTY50" || String.eqb (c_index_bucket c) "NIFTY100".

Definition mid_mask (c : Candidate) : bool :=
  String.eqb (c_index_bucket c) "NIFTY-MIDCAP".

Definition date_ltb (a b : Config.date) : bool :=
  if (d_year a <? d_year b)%Z then true
  else if (d_year b <? d_year a)%Z then false
  else if (d_month a <? d_month b)%Z then true
  else if (d_month b <? d_month a)%Z then false
  else (d_day a <? d_day b)%Z.

(** [a] sorts strictly before [b] under
    [sort_values(["usable_for_date", "score"], ascending=False)]. *)
Definition history_before (a b : Watchlist.WatchlistRow) : bool :=
  if date_ltb (Watchlist.usable_for_date b) (Watchlist.usable_for_date a) then true
  else if date_ltb (Watchlist.usable_for_date a) (Watchlist.usable_for_date b) then false
  else Num.Qltb (Watchlist.score b) (Watchlist.score a).

(** The sort on two columns is stable: rows that agree on both keep their
    order. *)
Fixpoint insert_history (r : Watchlist.WatchlistRow) (l : list Watchlist.WatchlistRow)
  : list Watchlist.WatchlistRow :=
  match l with
  | [] => [r]
  | x :: rest => if history_before x r then x :: insert_history r rest else r :: l
  end.

Definition sort_history (l : list Watchlist.WatchlistRow) : list Watchlist.WatchlistRow :=
  fold_right insert_history [] l.

Definition same_history_key (a b : Watchlist.WatchlistRow) : bool :=
  String.eqb (Watchlist.ticker a) (Watchlist.ticker b)
  && date_eqb (Watchlist.usable_for_date a) (Watchlist.usable_for_date b).

(** [drop_duplicates(subset=["ticker", "usable_for_date"], keep="first")]. *)
Fixpoint drop_duplicates (l : list Watchlist.WatchlistRow) : list Watchlist.WatchlistRow :=
  match l with
  | [] => []
  | r :: rest => r :: filter (fun x => negb (same_history_key r x)) (drop_duplicates rest)
  end.

(** The columns [selection_date] and [usable_for_date] set on [final_df]. *)
Definition dated (today : Config.date) (c : Candidate) : Watchlist.WatchlistRow :=
  Watchlist.mk_watchlist_row (c_ticker c) (c_data_symbol c) (c_index_bucket c)
    (c_beta c) (c_avg_volume c) (c_score c) today today.

Section RunScreener.

(** [np.log1p] on floats. *)
Variable log1p : Q -> Q.

(** [sort_values("score", ascending=False)] on the candidates; the order it
    gives to rows of equal score is left to the sorting routine. *)
Variable sort_values_score : list Candidate -> list Candidate.

(** The body of the loop over the universe: the record appended for [row],
    [None] when the loop continues without one. *)
Definition screen_row (eod_data : string -> option (list Bar)) (nifty_returns : Series)
  (row : UniverseRow) : option Candidate :=
  let ticker := u_ticker row in
  let sym := u_data_symbol row in
  let idx_bucket := u_index_bucket row in
  match eod_data sym with
  | None | Some [] => None
  | Some ((b :: _) as df) =>
      let closes := map Close df in
      let close_today := last closes (Close b) in
      if negb (Num.Qleb MIN_PRICE close_today && Num.Qleb close_today MAX_PRICE) then None
      else
        let avg_volume := Num.mean (Num.lastn 20 (map Volume df)) in
        if Num.Qltb avg_volume MIN_AVG_VOLUME then None
        else
          let stock_returns := close_returns df in
          match compute_beta stock_returns nifty_returns with
          | None => None
          | Some beta =>
              if Num.Qltb beta MIN_BETA then None
              else
                let momentum :=
                  match YahooMarketDataProvider.rolling_mean_last 20 closes with
                  | Some ma20 =>
                      if Num.Qeqb ma20 0 then 0%Q else ((close_today - ma20) / ma20)%Q
                  | None => 0%Q
                  end in
                let score := (beta * log1p avg_volume + 50 * momentum)%Q in
                Some (mk_candidate ticker sym idx_bucket
                        (Num.py_round beta 3) (int avg_volume) score)
          end
  end.

Fixpoint screen_rows (eod_data : string -> option (list Bar)) (nifty_returns : Series)
  (universe_df : list UniverseRow) : list Candidate :=
  match universe_df with
  | [] => []
  | row :: rest =>
      match screen_row eod_data nifty_returns row with
      | Some record => record :: screen_rows eod_data nifty_returns rest
      | None => screen_rows eod_data nifty_returns rest
      end
  end.

Definition large_df (records : list Candidate) : list Candidate :=
  firstn NUM_LARGE_CAP (sort_values_score (filter large_mask records)).

Definition mid_df (records : list Candidate) : list Candidate :=
  firstn NUM_MID_CAP (sort_values_score (filter mid_mask records)).

(** [run_screener]: [universe_file] is the universe file ([None]: it does not
    exist), [eod_data] the downloaded end-of-day history, [today] the IST
    date, [files] the two files before the run.  A run that returns early
    leaves the files as they were. *)
Definition run_screener (universe_file : option UniverseFrame)
  (eod_data : string -> option (list Bar)) (today : Config.date) (files : Files)
  : Outcome :=
  match universe_file with
  | None => FileNotFoundError
  | Some (WithoutIsActive _) => KeyError
  | Some (WithIsActive rows) =>
      let universe_df := map fst (filter (fun r => (snd r =? 1)%Z) rows) in
      match universe_df with
      | [] => Returned files
      | _ :: _ =>
          match eod_data NIFTY_SYMBOL_YF with
          | None | Some [] => Returned files
          | Some ((_ :: _) as nifty_df) =>
              let nifty_returns := close_returns nifty_df in
              let records := screen_rows eod_data nifty_returns universe_df in
              match records with
              | [] => Returned files
              | _ :: _ =>
                  let final_df := map (dated today) (large_df records ++ mid_df records) in
                  let hist_df :=
                    match watchlist_history_file files with
                    | Some h => h
                    | None => []
                    end in
                  let hist_df := hist_df ++ final_df in
                  let hist_df := sort_history hist_df in
                  let hist_df := drop_duplicates hist_df in
                  Returned (mk_files (Watchlist.save_active_watchlist final_df)
                                     (Some hist_df))
              end
          end
      end
  end.

End RunScreener.

End NightlyScreener.

(* ------------------------------------------------------------------ *)
(** * Properties *)

Import Config SentimentEngine PredictionEngine Journal.

(** ** Vocabulary of the statements *)

(** A reading of a 24 hour clock. *)
Definition valid_time (t : time) : Prop :=
  0 <= hour t < 24 /\ 0 <= minute t < 60 /\ 0 <= second t < 60
  /\ 0 <= microsecond t < 1000000.

(** Microseconds since midnight. *)
Definition us_of_day (t : time) : Z :=
  ((hour t * 60 + minute t) * 60 + second t) * 1000000 + microsecond t.

(** The instant [h:m] on the same scale. *)
Definition at_hm (h m : Z) : Z := us_of_day (time_hm h m).

(** The status code as a function of the clock reading alone. *)
Definition code_of_time (t : time) : StatusCode :=
  if time_ltb t MARKET_OPEN || time_ltb MARKET_CLOSE t then CLOSED
  else if time_leb MARKET_OPEN t && time_ltb t STUDY_END then STUDY
  else if time_leb SCALP_1_START t && time_ltb t SCALP_1_END then SCALP_1
  else if time_leb NO_NEW_1_START t && time_ltb t NO_NEW_1_END then NO_NEW_1
  else if time_leb SCALP_2_START t && time_ltb t SCALP_2_END then SCALP_2
  else if time_leb NO_NEW_2_START t && time_leb t MARKET_CLOSE then NO_NEW_2
  else OPEN.

(** The status code at [h:m] o'clock sharp, whatever the day. *)
Definition phase_at (h m : Z) (c : StatusCode) : Prop :=
  forall y mo d, code (get_time_status (mk_datetime y mo d (time_hm h m))) = c.

(** A prediction row that some evaluation cycle produces. *)
Definition generated (p : Prediction) : Prop :=
  exists now_ist watchlist_df market_data_provider news_provider strategy_version,
    In p (generate_predictions_for_watchlist now_ist watchlist_df
            market_data_provider news_provider strategy_version).

(** Sample collaborators, used to run the engine on concrete data:
    thirty five-minute bars whose close rises by one each bar, thirty bars
    with a constant close, a provider that answers the flat bars for the
    index and the rising bars for every other symbol, and a news feed
    without headlines. *)
Definition rising_bars : list Bar :=
  map (fun i => let z := Z.of_nat i in
                mk_bar z (inject_Z (100 + z)) (inject_Z (101 + z))
                  (inject_Z (99 + z)) (inject_Z (100 + z)) 1000%Q)
      (seq 0 30).

Definition flat_bars : list Bar :=
  map (fun i => mk_bar (Z.of_nat i) 22000%Q 22000%Q 22000%Q 22000%Q 0%Q)
      (seq 0 30).

Definition sample_provider : MarketDataProvider :=
  mk_market_provider
    (fun symbol => if String.eqb symbol NIFTY_SYMBOL_YF
                   then Some flat_bars else Some rising_bars)
    BULLISH.

Definition failing_provider : MarketDataProvider :=
  mk_market_provider (fun _ => None) BULLISH.

Definition quiet_news : NewsProvider := mk_news_provider (fun _ _ => []).

Definition sample_now : datetime := mk_datetime 2024 1 15 (time_hm 10 5).

Definition sample_batch : list Prediction :=
  generate_predictions_for_watchlist sample_now
    [mk_watch "RELIANCE" "RELIANCE.NS" "LARGE"]
    sample_provider quiet_news "v1.0".

Definition sample_row : Prediction :=
  predict_row sample_now SCALP_1 BULLISH LOW_VOLATILITY true
    sample_provider quiet_news "v1.0" (mk_watch "RELIANCE" "RELIANCE.NS" "LARGE").

(** The bounds claimed of the overall score of a row. *)
Definition score_bounds (action : Action) (risk : NewsRiskFlag) (score : Q) : Prop :=
  (0 <= score <= 1)%Q
  /\ (action = NO_TRADE -> (score == 0.0)%Q)
  /\ (risk = EVENT_RISK \/ risk = BREAKING -> (score <= 0.6)%Q).

(** The conditions under which no signal may be produced. *)
Definition gated (status_code : StatusCode) (market_regime : MarketRegime)
  (last_price : option Q) : Prop :=
  (status_code <> SCALP_1 /\ status_code <> SCALP_2)
  \/ (status_code = SCALP_2 /\ market_regime = LOW_VOLATILITY)
  \/ last_price = None.

(** The trend component of a row is 1.0 on a trade, 0.0 otherwise. *)
Definition binary_trend (action : Action) (trend : Q) : Prop :=
  ((action = LONG_BIAS \/ action = SHORT_BIAS -> trend == 1.0)
   /\ (action = NO_TRADE -> trend == 0.0)
   /\ (trend == 0.0 \/ trend == 1.0))%Q.

Definition midday_now : datetime := mk_datetime 2024 1 15 (time_hm 12 0).

Definition midday_row : Prediction :=
  predict_row midday_now NO_NEW_1 BULLISH LOW_VOLATILITY false
    sample_provider quiet_news "v1.0" (mk_watch "RELIANCE" "RELIANCE.NS" "LARGE").

(** ** The market regime of the specification

    The reference definition, following the wording of the specification,
    on the closes of a benchmark series in time order.  The standard
    deviation enters through its square (the sample variance), compared with
    the squares of the thresholds. *)

(** The pct-changes of the closes: [c(i) / c(i-1) - 1]. *)
Fixpoint ref_pct_from (prev : Q) (rest : list Q) : list Q :=
  match rest with
  | [] => []
  | c :: rest' => Qred (c / prev - 1) :: ref_pct_from c rest'
  end.

(** trend_ratio = |last_close - first_close| / (max(close) - min(close)),
    0 when the range is 0. *)
Definition ref_trend_ratio (first_close : Q) (closes : list Q) : Q :=
  let day_range := (list_max closes first_close - list_min closes first_close)%Q in
  if Num.Qeqb day_range 0 then 0%Q
  else (Qabs (last closes first_close - first_close) / day_range)%Q.

(** HIGH iff vol >= 0.004, LOW iff vol <= 0.0015, else MEDIUM. *)
Definition ref_vol_bucket (variance : Q) : Level :=
  if Num.Qleb (0.004 * 0.004) variance then HIGH
  else if Num.Qleb variance (0.0015 * 0.0015) then LOW
  else MEDIUM.

(** TREND iff trend_ratio >= 0.6. *)
Definition ref_trend_bucket (trend_ratio : Q) : TrendTag :=
  if Num.Qleb 0.6 trend_ratio then TREND else RANGE.

(** The combination rule, in priority order. *)
Definition ref_combine (t : TrendTag) (v : Level) : MarketRegime :=
  match t, v with
  | TREND, (HIGH | MEDIUM) => TREND_DAY
  | RANGE, HIGH => HIGH_VOLATILITY
  | _, LOW => LOW_VOLATILITY
  | _, _ => RANGE_DAY
  end.

Definition regime_reference (closes : list Q) : MarketRegime :=
  match closes with
  | [] => UNKNOWN
  | first_close :: rest =>
      if (List.length closes <? 30)%nat then UNKNOWN
      else ref_combine
             (ref_trend_bucket (ref_trend_ratio first_close closes))
             (ref_vol_bucket (Num.sample_variance (ref_pct_from first_close rest)))
  end.

(** A price series: no close is zero, so every pct-change is defined. *)
Definition prices (series : list Bar) : Prop :=
  Forall (fun b => ~ (Close b == 0)%Q) series.

(** Rows in time order. *)
Fixpoint ordered_from (i : Z) (series : list Bar) : Prop :=
  match series with
  | [] => True
  | b :: rest => i <= index b /\ ordered_from (index b) rest
  end.

Definition ordered (series : list Bar) : Prop :=
  match series with
  | [] => True
  | b :: rest => ordered_from (index b) rest
  end.

(** ** The journal as a keyed store *)

(** The identity of a prediction: (date, time_bucket, ticker). *)
Definition Key : Type := Config.date * string * string.

Definition key_of (p : Prediction) : Key := (date p, time_bucket p, ticker p).

Definition keys (journal_df : JournalDf) : list Key := map key_of journal_df.

(** At most one row per key. *)
Definition unique_keys (journal_df : JournalDf) : Prop := NoDup (keys journal_df).

(** The first row stored under the key of [row]. *)
Definition lookup (row : Prediction) (journal_df : JournalDf) : option Prediction :=
  find (key_mask row) journal_df.

(** The last row of a batch with the key of [row]: the last write. *)
Definition last_write (row : Prediction) (batch : list Prediction) : option Prediction :=
  find (key_mask row) (rev batch).

(** Upserting [row] has overwritten its key: every row stored under the
    key of [row] afterwards is [row] itself, in all its columns, and there is
    exactly one such row. *)
Definition overwritten (stored : JournalDf) (row : Prediction) : Prop :=
  let after := upsert_predictions [row] stored in
  (forall j, In j after -> key_of j = key_of row -> j = row)
  /\ List.length (filter (key_mask row) after) = 1%nat.

(** Three evaluations of RELIANCE in the 10:00 bucket of one day, under a
    bullish, a bearish and a neutral benchmark: one key, three different
    rows; and a journal file holding the first two of them. *)
Definition row_bearish : Prediction :=
  predict_row sample_now SCALP_1 BEARISH LOW_VOLATILITY true
    sample_provider quiet_news "v1.0" (mk_watch "RELIANCE" "RELIANCE.NS" "LARGE").

Definition row_neutral : Prediction :=
  predict_row sample_now SCALP_1 N_NEUTRAL LOW_VOLATILITY true
    sample_provider quiet_news "v1.0" (mk_watch "RELIANCE" "RELIANCE.NS" "LARGE").

Definition duplicated_store : JournalDf := [sample_row; row_bearish].

(** ** One regime per (date, time_bucket) *)

(** The benchmark frame an evaluation cycle works on: empty when the
    provider raises. *)
Definition nifty_frame (market_data_provider : MarketDataProvider) : list Bar :=
  match get_intraday_history market_data_provider NIFTY_SYMBOL_YF with
  | Some df => df
  | None => []
  end.

(** No two rows with equal (date, time_bucket) differ in [market_regime]. *)
Definition regime_consistent (rows : list Prediction) : Prop :=
  forall p q, In p rows -> In q rows ->
    date p = date q -> time_bucket p = time_bucket q ->
    market_regime p = market_regime q.

(** The batch has a row for every stored key of its (date, time_bucket). *)
Definition covers (batch : list Prediction) (stored : JournalDf) : Prop :=
  forall p q, In p batch -> In q stored ->
    date p = date q -> time_bucket p = time_bucket q ->
    In (key_of q) (keys batch).

(** The journals the application can build: the empty journal, and the
    upsert of the batch of an evaluation cycle into such a journal. *)
Inductive journal_reachable : JournalDf -> Prop :=
| reachable_empty : journal_reachable []
| reachable_upsert stored now_ist watchlist_df market_data_provider
    news_provider strategy_version :
    journal_reachable stored ->
    journal_reachable
      (upsert_predictions
         (generate_predictions_for_watchlist now_ist watchlist_df
            market_data_provider news_provider strategy_version)
         stored).

(** Two cycles in the 10:00 bucket of one day: at 10:01 on a watchlist
    holding TCS while the provider fails, at 10:05 on a watchlist holding
    RELIANCE with the sample provider. *)
Definition early_now : datetime := mk_datetime 2024 1 15 (time_hm 10 1).

Definition early_batch : list Prediction :=
  generate_predictions_for_watchlist early_now
    [mk_watch "TCS" "TCS.NS" "LARGE"] failing_provider quiet_news "v1.0".

Definition tcs_row : Prediction :=
  predict_row early_now SCALP_1 BULLISH UNKNOWN true
    failing_provider quiet_news "v1.0" (mk_watch "TCS" "TCS.NS" "LARGE").

Definition two_cycle_journal : JournalDf :=
  upsert_predictions sample_batch (upsert_predictions early_batch []).

(** ** Vocabulary of the further properties *)

(** The intraday frame an evaluation cycle works on for a symbol: empty
    when the provider raises. *)
Definition provider_frame (market_data_provider : MarketDataProvider)
  (symbol : string) : list Bar :=
  match get_intraday_history market_data_provider symbol with
  | Some df => df
  | None => []
  end.

(** What the loop body derives for one watchlist row. *)
Definition row_features (mp : MarketDataProvider) (row : WatchRow)
  : option Q * StockTrend * VolumeSignal * Level :=
  instrument_features (provider_frame mp (w_data_symbol row)).

Definition row_headlines (np : NewsProvider) (row : WatchRow) : list Headline :=
  get_headlines_for_symbol np (w_ticker row) 5.

Definition row_scores (actionable : bool) (regime : MarketRegime)
  (nifty : NiftyTrend) (mp : MarketDataProvider) (np : NewsProvider)
  (row : WatchRow) : Scores :=
  let '(last_price, stock_trend, volume_signal, volatility_label) :=
    row_features mp row in
  score_instrument actionable regime nifty last_price stock_trend volume_signal
    volatility_label
    (snd (fst (simple_sentiment_from_headlines (row_headlines np row))))
    (determine_news_risk (row_headlines np row)).

(** The market windows in which a cycle may produce signals, read off a
    row: its status code and regime. *)
Definition row_actionable (p : Prediction) : bool :=
  is_actionable (status_code p) (market_regime p).

(** A watchlist of two instruments. *)
Definition two_row_watchlist : list WatchRow :=
  [mk_watch "RELIANCE" "RELIANCE.NS" "NIFTY50"; mk_watch "TCS" "TCS.NS" "NIFTY50"].

(** The order of the news risk flags: NONE, EVENT_RISK, BREAKING. *)
Definition risk_max (a b : NewsRiskFlag) : NewsRiskFlag :=
  match a, b with
  | BREAKING, _ | _, BREAKING => BREAKING
  | EVENT_RISK, _ | _, EVENT_RISK => EVENT_RISK
  | NONE, NONE => NONE
  end.

(** A headline whose text holds a keyword of the list. *)
Definition mentions (ws : list string) (h : Headline) : bool :=
  any_keyword ws (headline_text h).

(** Two headlines for the examples: good news, and urgent news about
    earnings. *)
Definition good_headline : Headline :=
  mk_headline (Some "Company posts record profit"%string)
    (Some "Strong growth in all units"%string)
    "2024-01-15T09:00:00Z" "Wire" "https://example.org/a".

Definition urgent_headline : Headline :=
  mk_headline (Some "BREAKING: earnings call moved"%string) None
    "2024-01-15T09:30:00Z" "Wire" "https://example.org/b".

(** *** The nightly screener *)

(** The records of [candidates_df] of a run: the active universe rows that
    pass the filters, in universe order; none when the run stops before the
    loop. *)
Definition candidates (log1p : Q -> Q)
  (universe_file : option NightlyScreener.UniverseFrame)
  (eod_data : string -> option (list Bar)) : list NightlyScreener.Candidate :=
  match universe_file, eod_data NIFTY_SYMBOL_YF with
  | Some (NightlyScreener.WithIsActive rows), Some ((_ :: _) as nifty_df) =>
      NightlyScreener.screen_rows log1p eod_data
        (NightlyScreener.close_returns nifty_df)
        (map fst (filter (fun r => (snd r =? 1)%Z) rows))
  | _, _ => []
  end.

(** What is asked of the routine behind [sort_values]: it returns the rows
    it is given, by falling score. *)
Definition keeps_rows
  (sort : list NightlyScreener.Candidate -> list NightlyScreener.Candidate) : Prop :=
  forall l x, In x (sort l) <-> In x l.

Definition by_falling_score (l : list NightlyScreener.Candidate) : Prop :=
  ForallOrdPairs
    (fun a b => (NightlyScreener.c_score b <= NightlyScreener.c_score a)%Q) l.

Definition sorts_by_falling_score
  (sort : list NightlyScreener.Candidate -> list NightlyScreener.Candidate) : Prop :=
  forall l, by_falling_score (sort l).

(** A sorting routine for the examples: insertion by falling score. *)
Fixpoint insert_by_score (c : NightlyScreener.Candidate)
  (l : list NightlyScreener.Candidate) : list NightlyScreener.Candidate :=
  match l with
  | [] => [c]
  | x :: rest =>
      if Num.Qltb (NightlyScreener.c_score x) (NightlyScreener.c_score c)
      then c :: l else x :: insert_by_score c rest
  end.

Definition sort_by_score (l : list NightlyScreener.Candidate)
  : list NightlyScreener.Candidate :=
  fold_right insert_by_score [] l.

(** A coarse stand-in for [np.log1p] in the examples: [ln 2] times the
    binary logarithm of the integer part of [1 + x]. *)
Definition log1p_coarse (x : Q) : Q :=
  ((693 # 1000) * inject_Z (Z.log2 (Qfloor (1 + x))))%Q.

(** Daily bars with the given closes, numbered from 1, of one volume. *)
Definition daily_frame (closes : list Q) (volume : Q) : list Bar :=
  map (fun ic => mk_bar (Z.of_nat (fst ic)) (snd ic) (snd ic) (snd ic) (snd ic) volume)
      (combine (seq 1 (List.length closes)) closes).

(** A universe of four rows, one of them inactive, and its end-of-day
    history: the benchmark moves +2% and -1%, the first stock twice and the
    second three times as much, the last stock half as much. *)
Definition sample_universe : NightlyScreener.UniverseFrame :=
  NightlyScreener.WithIsActive
    [(NightlyScreener.mk_universe_row "TCS" "TCS.NS" "NIFTY50", 1);
     (NightlyScreener.mk_universe_row "INFY" "INFY.NS" "NIFTY50", 0);
     (NightlyScreener.mk_universe_row "VOLTAS" "VOLTAS.NS" "NIFTY-MIDCAP", 1);
     (NightlyScreener.mk_universe_row "ITC" "ITC.NS" "NIFTY100", 1)].

Definition sample_eod (symbol : string) : option (list Bar) :=
  if String.eqb symbol NIFTY_SYMBOL_YF
  then Some (daily_frame [100; 102; 100.98]%Q 0%Q)
  else if String.eqb symbol "TCS.NS"
  then Some (daily_frame [1000; 1040; 1019.2]%Q 600000%Q)
  else if String.eqb symbol "INFY.NS"
  then Some (daily_frame [1000; 1040; 1019.2]%Q 600000%Q)
  else if String.eqb symbol "VOLTAS.NS"
  then Some (daily_frame [200; 212; 205.64]%Q 800000%Q)
  else if String.eqb symbol "ITC.NS"
  then Some (daily_frame [400; 404; 401.98]%Q 900000%Q)
  else None.

Definition sample_today : Config.date := date_of sample_now.

Definition no_files : NightlyScreener.Files := NightlyScreener.mk_files None None.

Definition sample_run : NightlyScreener.Outcome :=
  NightlyScreener.run_screener log1p_coarse sort_by_score (Some sample_universe)
    sample_eod sample_today no_files.

(** The index buckets of the two segments of the watchlist. *)
Definition large_bucket (r : Watchlist.WatchlistRow) : bool :=
  String.eqb (Watchlist.index_bucket r) "NIFTY50"
  || String.eqb (Watchlist.index_bucket r) "NIFTY100".

Definition mid_bucket (r : Watchlist.WatchlistRow) : bool :=
  String.eqb (Watchlist.index_bucket r) "NIFTY-MIDCAP".

(** What the filters of the loop leave of a universe row: it is marked
    active, its symbol has at least three daily bars, the last close lies
    within the price band, and the columns written clear the thresholds. *)
Definition passed_filters (rows : list (NightlyScreener.UniverseRow * Z))
  (eod_data : string -> option (list Bar)) (r : Watchlist.WatchlistRow) : Prop :=
  In (NightlyScreener.mk_universe_row (Watchlist.ticker r) (Watchlist.data_symbol r)
        (Watchlist.index_bucket r), 1%Z) rows
  /\ (1.5 <= Watchlist.beta r)%Q
  /\ (500000 <= Watchlist.avg_volume r)%Z
  /\ exists df close_today,
       eod_data (Watchlist.data_symbol r) = Some df
       /\ (3 <= List.length df)%nat
       /\ YahooMarketDataProvider.get_last_price df = Some close_today
       /\ (100 <= close_today <= 5000)%Q.

(** The same history with a benchmark that does not move. *)
Definition flat_eod (symbol : string) : option (list Bar) :=
  if String.eqb symbol NIFTY_SYMBOL_YF
  then Some (daily_frame [100; 100; 100]%Q 0%Q)
  else sample_eod symbol.

(** The key on which the history keeps one row. *)
Definition history_key (r : Watchlist.WatchlistRow) : string * Config.date :=
  (Watchlist.ticker r, Watchlist.usable_for_date r).

(** The rows of the history file before a run. *)
Definition history_rows (files : NightlyScreener.Files) : list Watchlist.WatchlistRow :=
  match NightlyScreener.watchlist_history_file files with
  | Some h => h
  | None => []
  end.

(** Files of an earlier run of the same day, whose history row for TCS has
    a higher score than the sample run gives it. *)
Definition earlier_files : NightlyScreener.Files :=
  NightlyScreener.mk_files None
    (Some [Watchlist.mk_watchlist_row "TCS" "TCS.NS" "NIFTY50" 4%Q 600000 90%Q
             sample_today sample_today]).

(** A series of finite returns over the given (index, value) rows. *)
Definition finite_series (rows : list (Z * Q)) : NightlyScreener.Series :=
  map (fun r => (fst r, Num.Fin (snd r))) rows.

(* ------------------------------------------------------------------ *)
(** ** Session clock *)

Lemma time_ltb_us (a b : time) :
  valid_time a -> valid_time b -> time_ltb a b = (us_of_day a <? us_of_day b).
Proof.
  unfold valid_time, time_ltb, us_of_day.
  intros (Ha1 & Ha2 & Ha3 & Ha4) (Hb1 & Hb2 & Hb3 & Hb4).
  repeat match goal with
         | |- context [?x <? ?y] => destruct (Z.ltb_spec x y)
         end; try reflexivity; lia.
Qed.

Lemma time_leb_us (a b : time) :
  valid_time a -> valid_time b -> time_leb a b = (us_of_day a <=? us_of_day b).
Proof.
  intros Ha Hb. unfold time_leb. rewrite (time_ltb_us b a Hb Ha).
  destruct (Z.ltb_spec (us_of_day b) (us_of_day a));
    destruct (Z.leb_spec (us_of_day a) (us_of_day b)); simpl; try reflexivity; lia.
Qed.

Lemma valid_time_hm (h m : Z) :
  0 <= h < 24 -> 0 <= m < 60 -> valid_time (time_hm h m).
Proof. unfold valid_time, time_hm; simpl; lia. Qed.

Lemma get_time_status_code (now_ist : datetime) :
  code (get_time_status now_ist) = code_of_time (clock now_ist).
Proof.
  unfold get_time_status, code_of_time.
  repeat match goal with
         | |- context [if ?c then _ else _] => destruct c
         end; reflexivity.
Qed.

(** C2: on every reading of a 24 hour clock [get_time_status] answers the
    phase of the partition: CLOSED before 09:15 and after 15:30, STUDY on
    [09:15, 10:00), SCALP_1 on [10:00, 11:30), NO_NEW_1 on [11:30, 13:30),
    SCALP_2 on [13:30, 14:45), NO_NEW_2 on [14:45, 15:30]; OPEN is never
    answered; and the nine boundary readings 09:14, 09:15, 09:59, 10:00,
    11:30, 13:30, 14:45, 15:30, 15:31 get CLOSED, STUDY, STUDY, SCALP_1,
    NO_NEW_1, SCALP_2, NO_NEW_2, NO_NEW_2, CLOSED. *)
Theorem get_time_status_partition :
  (forall now_ist : datetime,
      valid_time (clock now_ist) ->
      let t := us_of_day (clock now_ist) in
      let c := code (get_time_status now_ist) in
      (t < at_hm 9 15 \/ at_hm 15 30 < t -> c = CLOSED)
      /\ (at_hm 9 15 <= t < at_hm 10 0 -> c = STUDY)
      /\ (at_hm 10 0 <= t < at_hm 11 30 -> c = SCALP_1)
      /\ (at_hm 11 30 <= t < at_hm 13 30 -> c = NO_NEW_1)
      /\ (at_hm 13 30 <= t < at_hm 14 45 -> c = SCALP_2)
      /\ (at_hm 14 45 <= t <= at_hm 15 30 -> c = NO_NEW_2)
      /\ c <> OPEN)
  /\ phase_at 9 14 CLOSED /\ phase_at 9 15 STUDY /\ phase_at 9 59 STUDY
  /\ phase_at 10 0 SCALP_1 /\ phase_at 11 30 NO_NEW_1
  /\ phase_at 13 30 SCALP_2 /\ phase_at 14 45 NO_NEW_2
  /\ phase_at 15 30 NO_NEW_2 /\ phase_at 15 31 CLOSED.
Proof.
  split.
  - intros now_ist Hv t c. subst c. rewrite get_time_status_code.
    unfold code_of_time, MARKET_OPEN, MARKET_CLOSE, STUDY_END, SCALP_1_START,
      NO_NEW_1_START, NO_NEW_1_END, SCALP_2_START, NO_NEW_2_START,
      SCALP_1_END, SCALP_2_END.
    repeat first
      [ rewrite (time_ltb_us (clock now_ist)) by (auto using valid_time_hm with zarith)
      | rewrite (time_ltb_us _ (clock now_ist)) by (auto using valid_time_hm with zarith)
      | rewrite (time_leb_us (clock now_ist)) by (auto using valid_time_hm with zarith)
      | rewrite (time_leb_us _ (clock now_ist)) by (auto using valid_time_hm with zarith) ].
    fold t. unfold at_hm.
    repeat match goal with
           | |- context [us_of_day (time_hm ?h ?m)] =>
               let v := eval vm_compute in (us_of_day (time_hm h m)) in
               change (us_of_day (time_hm h m)) with v
           end.
    clearbody t. clear Hv.
    repeat (match goal with
            | |- context [?x <? ?y] => destruct (Z.ltb_spec x y)
            | |- context [?x <=? ?y] => destruct (Z.leb_spec x y)
            end; try lia); simpl;
      repeat split; intros; try reflexivity; try discriminate; lia.
  - repeat split; intros y mo d; reflexivity.
Qed.

(** The partition at 10:00:00.000000 on 15 January 2024. *)
Lemma get_time_status_partition_witness :
  valid_time (time_hm 10 0)
  /\ code (get_time_status (mk_datetime 2024 1 15 (time_hm 10 0))) = SCALP_1.
Proof.
  assert (Hv : valid_time (clock (mk_datetime 2024 1 15 (time_hm 10 0)))).
  { unfold valid_time; simpl; lia. }
  split; [exact Hv|].
  destruct (proj1 get_time_status_partition _ Hv) as (_ & _ & H & _).
  apply H. unfold at_hm, us_of_day; simpl; lia.
Defined.

(* ------------------------------------------------------------------ *)
(** ** Confidence scoring model *)

Lemma generated_inv (p : Prediction) :
  generated p ->
  exists now_ist market_data_provider news_provider strategy_version row nifty_intraday,
    let status_code := code (get_time_status now_ist) in
    let market_regime := compute_market_regime nifty_intraday in
    p = predict_row now_ist status_code
          (get_nifty_trend_daily market_data_provider) market_regime
          (is_actionable status_code market_regime)
          market_data_provider news_provider strategy_version row.
Proof.
  intros (now_ist & wl & mp & np & sv & Hin).
  unfold generate_predictions_for_watchlist in Hin.
  destruct wl as [|w wl]; [contradiction|].
  apply in_map_iff in Hin. destruct Hin as (row & Hrow & _).
  exists now_ist, mp, np, sv, row.
  eexists. cbv zeta. symmetry. exact Hrow.
Qed.

(** The columns of a row in terms of the scores of its instrument. *)
Lemma predict_row_scores now_ist status nifty regime actionable mp np sv row :
  let p := predict_row now_ist status nifty regime actionable mp np sv row in
  exists last_price stock_trend volume_signal volatility_label sentiment_label risk,
    let s := score_instrument actionable regime nifty last_price stock_trend
               volume_signal volatility_label sentiment_label risk in
    prediction_action p = sc_action s
    /\ confidence_score p = sc_overall s
    /\ confidence_trend p = Num.py_round (sc_trend s) 2
    /\ price_at_prediction p = last_price
    /\ news_risk_flag p = risk
    /\ market_regime p = regime
    /\ status_code p = status.
Proof.
  unfold predict_row.
  destruct (instrument_features _) as [[[last_price stock_trend] volume_signal] volatility_label].
  destruct (simple_sentiment_from_headlines _) as [[sentiment_score sentiment_label] news_summary].
  exists last_price, stock_trend, volume_signal, volatility_label, sentiment_label.
  exists (determine_news_risk (get_headlines_for_symbol np (w_ticker row) 5)).
  cbv zeta.
  destruct (score_instrument _ _ _ _ _ _ _ _ _).
  repeat split; reflexivity.
Qed.

(** *** Rounding *)

Lemma round_half_even_bounds (x : Q) (A B : Z) :
  (inject_Z A <= x)%Q -> (x <= inject_Z B)%Q ->
  A <= Num.round_half_even x <= B.
Proof.
  intros HA HB.
  assert (HfA : A <= Qfloor x).
  { rewrite <- (Qfloor_Z A). apply Qfloor_resp_le. exact HA. }
  assert (HfB : Qfloor x <= B).
  { rewrite <- (Qfloor_Z B). apply Qfloor_resp_le. exact HB. }
  unfold Num.round_half_even, Num.Qltb.
  destruct (Qle_bool (1 # 2) (x - inject_Z (Qfloor x))) eqn:E; simpl; [|lia].
  apply Qle_bool_iff in E.
  assert (Hlt : Qfloor x < B).
  { destruct (Z.eq_dec (Qfloor x) B) as [Heq | Hne]; [|lia].
    exfalso. rewrite Heq in E. lra. }
  destruct (Qle_bool _ _); simpl; [destruct (Z.even _)|]; lia.
Qed.

Lemma py_round_2_bounds (x : Q) (A B : Z) :
  (inject_Z A <= x * 100)%Q -> (x * 100 <= inject_Z B)%Q ->
  (A # 100 <= Num.py_round x 2 <= B # 100)%Q.
Proof.
  intros HA HB. unfold Num.py_round.
  change (inject_Z (Num.pow10 2)) with 100%Q.
  change (Z.to_pos (Num.pow10 2)) with 100%positive.
  destruct (round_half_even_bounds _ _ _ HA HB) as [H1 H2].
  unfold Qle; simpl. lia.
Qed.

(** *** Components and overall score *)

Lemma min_spec (a b : Q) :
  (Num.min a b <= a /\ Num.min a b <= b
   /\ (Num.min a b == a \/ Num.min a b == b))%Q.
Proof.
  unfold Num.min, Num.Qltb.
  destruct (Qle_bool a b) eqn:E; simpl.
  - apply Qle_bool_iff in E. split; [lra | split; [lra | left; reflexivity]].
  - assert (E' : ~ (a <= b)%Q).
    { intros H. apply Qle_bool_iff in H. congruence. }
    split; [lra | split; [lra | right; reflexivity]].
Qed.

Ltac q_const := unfold Qle; simpl; lia.

Lemma trend_component_range a n s :
  (0 <= trend_component_of a n s <= 1)%Q.
Proof. destruct a, n, s; split; q_const. Qed.

Lemma volume_component_range v : (0 <= volume_component_of v <= 1)%Q.
Proof. destruct v; split; q_const. Qed.

Lemma sentiment_component_range a se :
  (0 <= sentiment_component_of a se <= 1)%Q.
Proof. destruct a, se; split; q_const. Qed.

Lemma volatility_component_range l : (0 <= volatility_component_of l <= 1)%Q.
Proof. destruct l; split; q_const. Qed.

Lemma overall_confidence_bounds action actionable tc vc sc volc regime risk :
  (0 <= tc <= 1)%Q -> (0 <= vc <= 1)%Q -> (0 <= sc <= 1)%Q -> (0 <= volc <= 1)%Q ->
  score_bounds action risk
    (overall_confidence_of action actionable tc vc sc volc regime risk).
Proof.
  intros Ht Hv Hs Hvo. unfold overall_confidence_of, score_bounds.
  set (w := if action_eqb action NO_TRADE || negb actionable then 0.0%Q
            else (0.30 * tc + 0.25 * vc + 0.20 * sc + 0.25 * volc)%Q).
  assert (Hw : (0 <= w <= 1)%Q /\ (action = NO_TRADE -> w == 0)%Q).
  { subst w. split.
    - destruct (action_eqb action NO_TRADE || negb actionable); lra.
    - intros ->. simpl. reflexivity. }
  destruct Hw as [Hw Hw0].
  set (w2 := match regime with
             | RANGE_DAY => (w * 0.7)%Q
             | LOW_VOLATILITY => (w * 0.6)%Q
             | _ => w
             end).
  assert (Hw2 : (0 <= w2 <= 1)%Q /\ (action = NO_TRADE -> w2 == 0)%Q).
  { subst w2. split.
    - destruct regime; lra.
    - intros Ha. specialize (Hw0 Ha). destruct regime; lra. }
  clearbody w2. clear w Hw Hw0. destruct Hw2 as [Hw2 Hw20].
  set (w3 := match risk with
             | EVENT_RISK | BREAKING => Num.min w2 0.6
             | NONE => w2
             end).
  assert (Hw3 : (0 <= w3 <= 1)%Q /\ (action = NO_TRADE -> w3 == 0)%Q
                /\ (risk = EVENT_RISK \/ risk = BREAKING -> w3 <= 0.6)%Q).
  { subst w3. pose proof (min_spec w2 0.6) as (M1 & M2 & M3).
    split; [|split].
    - destruct risk; destruct M3; lra.
    - intros Ha. specialize (Hw20 Ha). destruct risk; destruct M3; lra.
    - intros [-> | ->]; lra. }
  clearbody w3. destruct Hw3 as (Hw3 & Hw30 & Hw3r).
  destruct (py_round_2_bounds w3 0 100) as [P0 P1]; [unfold inject_Z; lra | unfold inject_Z; lra |].
  split; [lra | split].
  - intros Ha. specialize (Hw30 Ha).
    destruct (py_round_2_bounds w3 0 0) as [H1 H2]; [unfold inject_Z; lra | unfold inject_Z; lra |].
    lra.
  - intros Hr. specialize (Hw3r Hr).
    destruct (py_round_2_bounds w3 0 60) as [H1 H2]; [unfold inject_Z; lra | unfold inject_Z; lra |].
    lra.
Qed.

Lemma score_instrument_bounds a r n p s v l se ri :
  let sc := score_instrument a r n p s v l se ri in
  score_bounds (sc_action sc) ri (sc_overall sc).
Proof.
  unfold score_instrument. cbv zeta. cbn [sc_action sc_overall].
  apply overall_confidence_bounds;
    auto using trend_component_range, volume_component_range,
      sentiment_component_range, volatility_component_range.
Qed.

Lemma generated_sample_row : generated sample_row.
Proof.
  exists sample_now, [mk_watch "RELIANCE" "RELIANCE.NS" "LARGE"],
    sample_provider, quiet_news, "v1.0"%string.
  left. vm_compute. reflexivity.
Defined.

(** C1: for every combination of session phase, market regime, instrument
    features, sentiment label and news risk flag the overall confidence score
    lies in [0,1], is 0.0 whenever the action is NO_TRADE, and is at most 0.6
    whenever the news risk flag is EVENT_RISK or BREAKING; the same holds of
    the [confidence_score] column of every generated prediction. *)
Theorem confidence_score_bounds :
  (forall status_code market_regime nifty_trend last_price stock_trend
          volume_signal volatility_label sentiment_label news_risk_flag,
      let s := score_instrument (is_actionable status_code market_regime)
                 market_regime nifty_trend last_price stock_trend volume_signal
                 volatility_label sentiment_label news_risk_flag in
      score_bounds (sc_action s) news_risk_flag (sc_overall s))
  /\ (forall p, generated p ->
        score_bounds (prediction_action p) (news_risk_flag p) (confidence_score p)).
Proof.
  split.
  - intros. apply score_instrument_bounds.
  - intros p Hp.
    destruct (generated_inv p Hp) as (now_ist & mp & np & sv & row & nf & Hrow).
    cbv zeta in Hrow. subst p.
    destruct (predict_row_scores now_ist (code (get_time_status now_ist))
                (get_nifty_trend_daily mp) (compute_market_regime nf)
                (is_actionable (code (get_time_status now_ist)) (compute_market_regime nf))
                mp np sv row)
      as (lp & st & vs & vl & sl & ri & Ha & Hs & _ & _ & Hr & _).
    rewrite Ha, Hs, Hr. apply score_instrument_bounds.
Qed.

(** The bounds at the prediction for RELIANCE at 10:05 on rising bars. *)
Lemma confidence_score_bounds_witness :
  generated sample_row
  /\ score_bounds (prediction_action sample_row) (news_risk_flag sample_row)
       (confidence_score sample_row).
Proof.
  split; [exact generated_sample_row|].
  exact (proj2 confidence_score_bounds sample_row generated_sample_row).
Defined.

(** *** Gating *)

Lemma gated_not_actionable status_code market_regime :
  (status_code <> SCALP_1 /\ status_code <> SCALP_2)
  \/ (status_code = SCALP_2 /\ market_regime = LOW_VOLATILITY) ->
  is_actionable status_code market_regime = false.
Proof.
  intros [[H1 H2] | [-> ->]]; [|reflexivity].
  destruct status_code; try reflexivity; congruence.
Qed.

Lemma decide_action_gated status_code market_regime last_price n s se :
  gated status_code market_regime last_price ->
  decide_action (is_actionable status_code market_regime) last_price n s se
  = NO_TRADE.
Proof.
  unfold gated, decide_action. intros [H | [H | ->]].
  - rewrite gated_not_actionable by (left; exact H). reflexivity.
  - rewrite gated_not_actionable by (right; exact H). reflexivity.
  - simpl. rewrite andb_false_r. reflexivity.
Qed.

Lemma instrument_features_price (intraday : list Bar) :
  fst (fst (fst (instrument_features intraday))) = None <-> intraday = [].
Proof.
  destruct intraday as [|b rest]; simpl; split; intros H;
    try reflexivity; discriminate.
Qed.

(** C3: the action of an evaluated instrument is NO_TRADE whenever the
    session phase is outside {SCALP_1, SCALP_2}, or the phase is SCALP_2 on a
    LOW_VOLATILITY day, or the last price is unknown, whatever the other
    inputs are; this holds of the scoring model on every combination of
    inputs and of every generated prediction; and the last price is unknown
    exactly when the intraday series is empty. *)
Theorem no_trade_when_gated :
  (forall status_code market_regime nifty_trend last_price stock_trend
          volume_signal volatility_label sentiment_label news_risk_flag,
      gated status_code market_regime last_price ->
      sc_action (score_instrument (is_actionable status_code market_regime)
                   market_regime nifty_trend last_price stock_trend
                   volume_signal volatility_label sentiment_label
                   news_risk_flag) = NO_TRADE)
  /\ (forall p, generated p ->
        gated (status_code p) (market_regime p) (price_at_prediction p) ->
        prediction_action p = NO_TRADE)
  /\ (forall intraday,
        fst (fst (fst (instrument_features intraday))) = None <-> intraday = []).
Proof.
  split; [|split].
  - intros. unfold score_instrument. cbn [sc_action].
    apply decide_action_gated. assumption.
  - intros p Hp Hg.
    destruct (generated_inv p Hp) as (now_ist & mp & np & sv & row & nf & Hrow).
    cbv zeta in Hrow. subst p.
    destruct (predict_row_scores now_ist (code (get_time_status now_ist))
                (get_nifty_trend_daily mp) (compute_market_regime nf)
                (is_actionable (code (get_time_status now_ist)) (compute_market_regime nf))
                mp np sv row)
      as (lp & st & vs & vl & sl & ri & Ha & _ & _ & Hp' & _ & Hr & Hs).
    rewrite Hp', Hr, Hs in Hg. rewrite Ha.
    unfold score_instrument. cbn [sc_action].
    apply decide_action_gated. exact Hg.
  - exact instrument_features_price.
Qed.

Lemma generated_midday_row : generated midday_row.
Proof.
  exists midday_now, [mk_watch "RELIANCE" "RELIANCE.NS" "LARGE"],
    sample_provider, quiet_news, "v1.0"%string.
  left. vm_compute. reflexivity.
Defined.

(** The gate at the prediction for RELIANCE at 12:00, in the midday pause. *)
Lemma no_trade_when_gated_witness :
  generated midday_row
  /\ gated (status_code midday_row) (market_regime midday_row)
       (price_at_prediction midday_row)
  /\ prediction_action midday_row = NO_TRADE.
Proof.
  assert (Hg : gated (status_code midday_row) (market_regime midday_row)
                 (price_at_prediction midday_row)).
  { left. split; discriminate. }
  split; [exact generated_midday_row | split; [exact Hg|]].
  exact (proj1 (proj2 no_trade_when_gated) midday_row generated_midday_row Hg).
Defined.

(** *** The end-to-end scenario *)

(** C8: with benchmark trend BULLISH, instrument trend UP, sentiment
    NEUTRAL, volume signal HIGH, volatility HIGH, phase SCALP_1, regime
    TREND_DAY and no news risk (and a known price) the model gives action
    LONG_BIAS, trend component 1.0, volume component 1.0, sentiment
    component 0.7, volatility component 1.0, overall score
    round(0.30 + 0.25 + 0.14 + 0.25, 2) = 0.94 and the label High. *)
Theorem end_to_end_long_bias :
  (forall price : Q,
      score_instrument (is_actionable SCALP_1 TREND_DAY) TREND_DAY BULLISH
        (Some price) UP V_HIGH HIGH NEUTRAL NONE
      = mk_scores LONG_BIAS 1.0 1.0 0.7 1.0 0.94 L_High)
  /\ Num.py_round (0.30 + 0.25 + 0.14 + 0.25) 2 = 0.94%Q.
Proof.
  split; [intros price|]; vm_compute; reflexivity.
Qed.

(** *** The trend component *)

Lemma decide_action_aligned actionable last_price n s se :
  match decide_action actionable last_price n s se with
  | LONG_BIAS => n = BULLISH /\ s = UP
  | SHORT_BIAS => n = BEARISH /\ s = DOWN
  | NO_TRADE => True
  end.
Proof.
  unfold decide_action.
  destruct actionable, last_price, n, s, se; simpl; auto.
Qed.

Lemma score_instrument_binary_trend a r n p s v l se ri :
  let sc := score_instrument a r n p s v l se ri in
  binary_trend (sc_action sc) (sc_trend sc)
  /\ binary_trend (sc_action sc) (Num.py_round (sc_trend sc) 2).
Proof.
  unfold score_instrument. cbv zeta. cbn [sc_action sc_trend].
  pose proof (decide_action_aligned a p n s se) as H.
  destruct (decide_action a p n s se).
  - destruct H as [-> ->].
    split; (split; [intros _; reflexivity
                   | split; [intros; discriminate | right; reflexivity]]).
  - destruct H as [-> ->].
    split; (split; [intros _; reflexivity
                   | split; [intros; discriminate | right; reflexivity]]).
  - split; (split; [intros [?|?]; discriminate
                   | split; [intros _; reflexivity | left; reflexivity]]).
Qed.

(** C10: the trend component is exactly 1.0 whenever the action is
    LONG_BIAS or SHORT_BIAS, because the action is only chosen under full
    alignment of benchmark and instrument trend, and it is 0.0 whenever the
    action is NO_TRADE; so it only takes the values 0.0 and 1.0 and the tiers
    0.7 and 0.3 are never produced.  This holds of the scoring model on every
    input and of the [confidence_trend] column of every generated row. *)
Theorem trend_component_binary :
  (forall status_code market_regime nifty_trend last_price stock_trend
          volume_signal volatility_label sentiment_label news_risk_flag,
      let s := score_instrument (is_actionable status_code market_regime)
                 market_regime nifty_trend last_price stock_trend volume_signal
                 volatility_label sentiment_label news_risk_flag in
      binary_trend (sc_action s) (sc_trend s)
      /\ ~ (sc_trend s == 0.7)%Q /\ ~ (sc_trend s == 0.3)%Q)
  /\ (forall p, generated p ->
        binary_trend (prediction_action p) (confidence_trend p)).
Proof.
  split.
  - intros st rg nt lp stt vs vl sl ri s. subst s.
    destruct (score_instrument_binary_trend (is_actionable st rg) rg nt lp stt
                vs vl sl ri) as [H _].
    cbv zeta in H. split; [exact H|].
    destruct H as (_ & _ & [H | H]); rewrite H; split; intros C; discriminate C.
  - intros p Hp.
    destruct (generated_inv p Hp) as (now_ist & mp & np & sv & row & nf & Hrow).
    cbv zeta in Hrow. subst p.
    destruct (predict_row_scores now_ist (code (get_time_status now_ist))
                (get_nifty_trend_daily mp) (compute_market_regime nf)
                (is_actionable (code (get_time_status now_ist)) (compute_market_regime nf))
                mp np sv row)
      as (lp & st & vs & vl & sl & ri & Ha & _ & Ht & _).
    rewrite Ha, Ht. apply score_instrument_binary_trend.
Qed.

(** The trend component of the prediction for RELIANCE at 10:05. *)
Lemma trend_component_binary_witness :
  generated sample_row
  /\ binary_trend (prediction_action sample_row) (confidence_trend sample_row).
Proof.
  split; [exact generated_sample_row|].
  exact (proj2 trend_component_binary sample_row generated_sample_row).
Defined.

(* ------------------------------------------------------------------ *)
(** ** Sentiment and news risk on an empty headline list *)

(** C9, as stated: on the empty headline list the classifier answers score
    0.0, label NEUTRAL and the summary text "no headlines found", and the
    risk classifier answers NONE.  This fails: the summary the code returns
    is another text. *)
Lemma empty_headlines_claimed_text_differs :
  ~ (simple_sentiment_from_headlines []
     = (0.0%Q, NEUTRAL, "no headlines found"%string)
     /\ determine_news_risk [] = NONE).
Proof.
  intros [H _]. unfold simple_sentiment_from_headlines in H.
  inversion H.
Qed.

(** C9, amended: on the empty headline list the sentiment classifier answers
    score 0.0, label NEUTRAL and the fixed fallback summary
    "No recent news found for this stock.", and the risk classifier answers
    NONE. *)
Theorem empty_headlines_defaults :
  simple_sentiment_from_headlines []
  = (0.0%Q, NEUTRAL, "No recent news found for this stock."%string)
  /\ determine_news_risk [] = NONE.
Proof. split; reflexivity. Qed.

(* ------------------------------------------------------------------ *)
(** ** Market regime classifier *)

Section SortIndex.

Lemma insert_bar_length b l : List.length (insert_bar b l) = S (List.length l).
Proof.
  induction l as [|x l IH]; simpl; [reflexivity|].
  destruct (index b <? index x); simpl; [reflexivity | now rewrite IH].
Qed.

Lemma fold_insert_length df acc :
  List.length (fold_left (fun a b => insert_bar b a) df acc)
  = (List.length df + List.length acc)%nat.
Proof.
  revert acc. induction df as [|b df IH]; intros acc; simpl; [reflexivity|].
  rewrite IH, insert_bar_length. lia.
Qed.

Lemma sort_index_length df : List.length (sort_index df) = List.length df.
Proof. unfold sort_index. rewrite fold_insert_length. simpl. lia. Qed.

Variable P : Bar -> Prop.

Lemma insert_bar_Forall b l : P b -> Forall P l -> Forall P (insert_bar b l).
Proof.
  intros Hb Hl. induction Hl as [|x l Hx Hl IH]; simpl.
  - constructor; [exact Hb | constructor].
  - destruct (index b <? index x); repeat constructor; assumption.
Qed.

Lemma fold_insert_Forall df acc :
  Forall P df -> Forall P acc ->
  Forall P (fold_left (fun a b => insert_bar b a) df acc).
Proof.
  intros Hdf. revert acc. induction Hdf as [|b df Hb Hdf IH]; intros acc Hacc; simpl.
  - exact Hacc.
  - apply IH. apply insert_bar_Forall; assumption.
Qed.

Lemma sort_index_Forall df : Forall P df -> Forall P (sort_index df).
Proof. intros H. apply fold_insert_Forall; [exact H | constructor]. Qed.

End SortIndex.

(** An already ordered frame is left as it is. *)
Lemma insert_bar_last b acc :
  Forall (fun x => index x <= index b) acc -> insert_bar b acc = acc ++ [b].
Proof.
  induction 1 as [|x acc Hx Hacc IH]; simpl; [reflexivity|].
  destruct (Z.ltb_spec (index b) (index x)); [lia|]. now rewrite IH.
Qed.

Lemma ordered_from_weaken i j series :
  i <= j -> ordered_from j series -> ordered_from i series.
Proof. destruct series; simpl; [trivial|]. intros Hij [H1 H2]. split; [lia | exact H2]. Qed.

Lemma fold_insert_ordered rest : forall acc i,
  Forall (fun x => index x <= i) acc -> ordered_from i rest ->
  fold_left (fun a b => insert_bar b a) rest acc = acc ++ rest.
Proof.
  induction rest as [|b rest IH]; intros acc i Hacc Hord; simpl.
  - now rewrite app_nil_r.
  - destruct Hord as [Hib Hrest].
    assert (Hacc' : Forall (fun x => index x <= index b) acc).
    { eapply Forall_impl; [|exact Hacc]. simpl. intros; lia. }
    rewrite (insert_bar_last b acc Hacc').
    rewrite (IH (acc ++ [b]) (index b)).
    + now rewrite <- app_assoc.
    + apply Forall_app. split; [exact Hacc'|]. constructor; [lia | constructor].
    + exact Hrest.
Qed.

Lemma sort_index_ordered series : ordered series -> sort_index series = series.
Proof.
  unfold sort_index, ordered. destruct series as [|b rest]; [reflexivity|].
  intros H. simpl.
  rewrite (fold_insert_ordered rest [b] (index b)); [reflexivity | | exact H].
  constructor; [lia | constructor].
Qed.

(** On a price series the pct-changes of pandas are the quotients of the
    reference definition, all finite. *)
Lemma pct_pairs_prices prev rest :
  ~ (prev == 0)%Q -> Forall (fun c => ~ (c == 0)%Q) rest ->
  Num.pct_pairs prev rest = map Num.Fin (ref_pct_from prev rest).
Proof.
  intros Hprev Hrest. revert prev Hprev.
  induction Hrest as [|c rest Hc Hrest IH]; intros prev Hprev; simpl; [reflexivity|].
  unfold Num.pct_of, Num.Qeqb.
  destruct (Qeq_bool prev 0) eqn:E.
  - apply Qeq_bool_iff in E. contradiction.
  - f_equal. apply IH. exact Hc.
Qed.

Lemma dropna_finite xs : Num.dropna (map Num.Fin xs) = map Num.Fin xs.
Proof. induction xs as [|x xs IH]; simpl; [reflexivity | now rewrite IH]. Qed.

Lemma finite_values_finite xs : Num.finite_values (map Num.Fin xs) = Some xs.
Proof. induction xs as [|x xs IH]; simpl; [reflexivity | now rewrite IH]. Qed.

Lemma ref_pct_from_length prev rest :
  List.length (ref_pct_from prev rest) = List.length rest.
Proof.
  revert prev. induction rest as [|c rest IH]; intros prev; simpl;
    [reflexivity | now rewrite IH].
Qed.

Lemma std_squared_finite xs :
  (2 <= List.length xs)%nat ->
  Num.std_squared (map Num.Fin xs) = Some (Num.sample_variance xs).
Proof.
  intros H. unfold Num.std_squared. rewrite finite_values_finite.
  destruct (Nat.leb_spec 2 (List.length xs)); [reflexivity | lia].
Qed.

(** The chain of tests of the code is the priority rule. *)
Lemma combination_rule (t : TrendTag) (v : Level) :
  (if trend_tag_eqb t TREND && (level_eqb v HIGH || level_eqb v MEDIUM)
   then TREND_DAY
   else if trend_tag_eqb t RANGE && level_eqb v HIGH then HIGH_VOLATILITY
   else if level_eqb v LOW then LOW_VOLATILITY
   else RANGE_DAY)
  = ref_combine t v.
Proof. destruct t, v; reflexivity. Qed.

Lemma compute_market_regime_short series :
  (List.length series < 30)%nat -> compute_market_regime series = UNKNOWN.
Proof.
  intros H. unfold compute_market_regime.
  destruct (Nat.ltb_spec (List.length series) 30); [|lia].
  now rewrite orb_true_r.
Qed.

Lemma compute_market_regime_reference series :
  (30 <= List.length series)%nat -> prices series ->
  compute_market_regime series = regime_reference (map Close (sort_index series)).
Proof.
  intros Hlen Hp. unfold compute_market_regime.
  destruct series as [|b0 series0] eqn:Es; [simpl in Hlen; lia|].
  rewrite <- Es in *. clear Es b0 series0.
  destruct (Nat.ltb_spec (List.length series) 30) as [|_]; [lia|].
  simpl orb. cbv iota.
  pose proof (sort_index_length series) as Hsl.
  pose proof (sort_index_Forall _ series Hp) as Hsp.
  set (df := sort_index series) in *. clearbody df.
  unfold regime_reference.
  destruct df as [|b df]; [simpl in Hsl; lia|].
  cbn [map]. inversion Hsp as [|? ? Hb Hdf]; subst.
  change (map Close (b :: df)) with (Close b :: map Close df).
  assert (Hl : (List.length (Close b :: map Close df) <? 30)%nat = false).
  { apply Nat.ltb_ge. simpl. rewrite length_map. simpl in Hsl. lia. }
  rewrite Hl.
  assert (Hret : Num.dropna (Num.pct_change (Close b :: map Close df))
                 = map Num.Fin (ref_pct_from (Close b) (map Close df))).
  { unfold Num.pct_change. cbn [Num.dropna filter].
    rewrite pct_pairs_prices.
    - apply dropna_finite.
    - exact Hb.
    - apply Forall_map. exact Hdf. }
  cbv zeta. rewrite Hret.
  assert (Hn : (2 <= List.length (ref_pct_from (Close b) (map Close df)))%nat).
  { rewrite ref_pct_from_length, length_map. simpl in Hsl. lia. }
  rewrite (std_squared_finite _ Hn).
  destruct (ref_pct_from (Close b) (map Close df)) as [|r rs] eqn:Er;
    [simpl in Hn; lia|].
  cbn [map]. rewrite <- Er.
  rewrite combination_rule.
  unfold ref_trend_bucket, ref_trend_ratio, ref_vol_bucket, Num.std_geb, Num.std_leb.
  reflexivity.
Qed.

(** C7: [compute_market_regime] answers UNKNOWN on every benchmark series
    with fewer than 30 observations; on every price series with at least 30
    observations it answers the value of the reference definition (trend
    ratio, volatility bucket with thresholds 0.004 and 0.0015, trend bucket
    with threshold 0.6, combined in priority order) on the closes in time
    order; and the time order of a series whose rows are already ordered is
    the series itself. *)
Theorem compute_market_regime_spec :
  (forall series,
      (List.length series < 30)%nat -> compute_market_regime series = UNKNOWN)
  /\ (forall series,
        (30 <= List.length series)%nat -> prices series ->
        compute_market_regime series
        = regime_reference (map Close (sort_index series)))
  /\ (forall series, ordered series -> sort_index series = series).
Proof.
  split; [|split].
  - exact compute_market_regime_short.
  - exact compute_market_regime_reference.
  - exact sort_index_ordered.
Qed.

Lemma prices_flat_bars : prices flat_bars.
Proof.
  apply Forall_forall. intros b Hb. unfold flat_bars in Hb.
  apply in_map_iff in Hb. destruct Hb as (i & <- & _).
  simpl. intros H. discriminate H.
Defined.

(** The classifier on the empty series and on thirty flat bars. *)
Lemma compute_market_regime_spec_witness :
  ((List.length (@nil Bar) < 30)%nat /\ compute_market_regime [] = UNKNOWN)
  /\ ((30 <= List.length flat_bars)%nat /\ prices flat_bars
      /\ compute_market_regime flat_bars
         = regime_reference (map Close (sort_index flat_bars))).
Proof.
  assert (H0 : (List.length (@nil Bar) < 30)%nat) by (simpl; lia).
  assert (H30 : (30 <= List.length flat_bars)%nat) by (vm_compute; lia).
  split.
  - split; [exact H0|].
    exact (proj1 compute_market_regime_spec [] H0).
  - split; [exact H30 | split; [exact prices_flat_bars|]].
    exact (proj1 (proj2 compute_market_regime_spec) flat_bars H30 prices_flat_bars).
Defined.

(* ------------------------------------------------------------------ *)
(** ** Prediction journal *)

Lemma date_eqb_eq (a b : Config.date) : date_eqb a b = true <-> a = b.
Proof.
  destruct a as [y1 m1 d1], b as [y2 m2 d2]. unfold date_eqb; simpl.
  rewrite !andb_true_iff, !Z.eqb_eq. split.
  - intros [[-> ->] ->]. reflexivity.
  - intros H; inversion H; auto.
Qed.

Lemma key_mask_iff (row j : Prediction) :
  key_mask row j = true <-> key_of j = key_of row.
Proof.
  unfold key_mask, key_of.
  rewrite !andb_true_iff, date_eqb_eq, !String.eqb_eq. split.
  - intros [[-> ->] ->]. reflexivity.
  - intros H; inversion H; auto.
Qed.

Lemma key_mask_refl (row : Prediction) : key_mask row row = true.
Proof. apply key_mask_iff. reflexivity. Qed.

Lemma key_mask_false_iff (row j : Prediction) :
  key_mask row j = false <-> key_of j <> key_of row.
Proof.
  rewrite <- key_mask_iff. destruct (key_mask row j); split; congruence.
Qed.

(** The mask only reads the key of the incoming row. *)
Lemma key_mask_ext (r1 r2 j : Prediction) :
  key_of r1 = key_of r2 -> key_mask r1 j = key_mask r2 j.
Proof.
  intros H. destruct (key_mask r2 j) eqn:E.
  - apply key_mask_iff. apply key_mask_iff in E. congruence.
  - apply key_mask_false_iff. apply key_mask_false_iff in E. congruence.
Qed.

Lemma existsb_key_mask (row : Prediction) (l : JournalDf) :
  existsb (key_mask row) l = true <-> In (key_of row) (keys l).
Proof.
  unfold keys. rewrite existsb_exists, in_map_iff. split.
  - intros (j & Hj & Hm). exists j. split; [now apply key_mask_iff | exact Hj].
  - intros (j & Hk & Hj). exists j. split; [exact Hj | now apply key_mask_iff].
Qed.

Lemma existsb_key_mask_false (row : Prediction) (l : JournalDf) :
  existsb (key_mask row) l = false <-> ~ In (key_of row) (keys l).
Proof.
  rewrite <- existsb_key_mask. destruct (existsb (key_mask row) l); split; congruence.
Qed.

(** *** Keys and rows after one turn of the loop *)

Lemma keys_overwrite_first (row : Prediction) (l : JournalDf) :
  keys (overwrite_first row l) = keys l.
Proof.
  induction l as [|j l IH]; simpl; [reflexivity|].
  destruct (key_mask row j) eqn:E; simpl.
  - apply key_mask_iff in E. now rewrite E.
  - now rewrite IH.
Qed.

Lemma keys_upsert_row (l : JournalDf) (row : Prediction) :
  keys (upsert_row l row)
  = if existsb (key_mask row) l then keys l else keys l ++ [key_of row].
Proof.
  unfold upsert_row. destruct (existsb (key_mask row) l).
  - apply keys_overwrite_first.
  - unfold keys. now rewrite map_app.
Qed.

Lemma lookup_overwrite_first (k row : Prediction) (l : JournalDf) :
  lookup k (overwrite_first row l)
  = if key_mask k row && existsb (key_mask row) l then Some row else lookup k l.
Proof.
  unfold lookup. induction l as [|j l IH]; simpl.
  - now rewrite andb_false_r.
  - destruct (key_mask row j) eqn:Erj; simpl.
    + rewrite andb_true_r. destruct (key_mask k row) eqn:Ekr; [reflexivity|].
      assert (key_mask k j = false) as ->; [|reflexivity].
      apply key_mask_false_iff. apply key_mask_false_iff in Ekr.
      apply key_mask_iff in Erj. congruence.
    + rewrite IH. destruct (key_mask k j) eqn:Ekj; [|reflexivity].
      destruct (key_mask k row) eqn:Ekr; [|reflexivity].
      apply key_mask_iff in Ekj. apply key_mask_iff in Ekr.
      apply key_mask_false_iff in Erj. congruence.
Qed.

Lemma lookup_app_absent (k : Prediction) (l1 l2 : JournalDf) :
  existsb (key_mask k) l1 = false -> lookup k (l1 ++ l2) = lookup k l2.
Proof.
  unfold lookup. induction l1 as [|j l1 IH]; simpl; [reflexivity|].
  intros H. apply orb_false_iff in H. destruct H as [-> H]. now apply IH.
Qed.

Lemma lookup_app_present (k : Prediction) (l1 l2 : JournalDf) :
  existsb (key_mask k) l1 = true -> lookup k (l1 ++ l2) = lookup k l1.
Proof.
  unfold lookup. induction l1 as [|j l1 IH]; simpl; [discriminate|].
  destruct (key_mask k j); [reflexivity|]. simpl. exact IH.
Qed.

Lemma lookup_none (k : Prediction) (l : JournalDf) :
  lookup k l = None <-> existsb (key_mask k) l = false.
Proof.
  unfold lookup. induction l as [|j l IH]; simpl; [tauto|].
  destruct (key_mask k j); simpl; [split; discriminate | exact IH].
Qed.

(** After the turn for [row], its key holds [row]; other keys are as before. *)
Lemma lookup_upsert_row (k row : Prediction) (l : JournalDf) :
  lookup k (upsert_row l row)
  = if key_mask k row then Some row else lookup k l.
Proof.
  unfold upsert_row. destruct (existsb (key_mask row) l) eqn:E.
  - rewrite lookup_overwrite_first, E, andb_true_r. reflexivity.
  - destruct (key_mask k row) eqn:Ekr.
    + rewrite lookup_app_absent.
      * unfold lookup; simpl. now rewrite Ekr.
      * rewrite <- E. apply eq_true_iff_eq. rewrite !existsb_key_mask.
        apply key_mask_iff in Ekr. now rewrite Ekr.
    + destruct (existsb (key_mask k) l) eqn:Ek.
      * now apply lookup_app_present.
      * rewrite lookup_app_absent by exact Ek.
        unfold lookup; simpl. rewrite Ekr.
        symmetry. apply lookup_none. exact Ek.
Qed.

(** *** The whole loop *)

Lemma find_app {A : Type} (f : A -> bool) (l1 l2 : list A) :
  find f (l1 ++ l2) = match find f l1 with Some x => Some x | None => find f l2 end.
Proof.
  induction l1 as [|a l1 IH]; simpl; [reflexivity|].
  destruct (f a); [reflexivity | exact IH].
Qed.

Lemma last_write_cons (k r : Prediction) (batch : list Prediction) :
  last_write k (r :: batch)
  = match last_write k batch with
    | Some x => Some x
    | None => if key_mask k r then Some r else None
    end.
Proof. unfold last_write. simpl. rewrite find_app. simpl. reflexivity. Qed.

(** After the loop a key holds its last write, or what it held before. *)
Lemma lookup_fold_upsert (k : Prediction) (batch : list Prediction) :
  forall l : JournalDf,
    lookup k (fold_left upsert_row batch l)
    = match last_write k batch with
      | Some x => Some x
      | None => lookup k l
      end.
Proof.
  induction batch as [|r batch IH]; intros l; simpl; [reflexivity|].
  rewrite IH, last_write_cons, lookup_upsert_row.
  destruct (last_write k batch); [reflexivity|].
  destruct (key_mask k r); reflexivity.
Qed.

Lemma unique_keys_upsert_row (l : JournalDf) (row : Prediction) :
  unique_keys l -> unique_keys (upsert_row l row).
Proof.
  unfold unique_keys. intros H. rewrite keys_upsert_row.
  destruct (existsb (key_mask row) l) eqn:E; [exact H|].
  apply existsb_key_mask_false in E.
  apply NoDup_rev in H. rewrite <- (rev_involutive (keys l ++ [key_of row])).
  apply NoDup_rev. rewrite rev_app_distr. simpl.
  constructor; [|exact H]. rewrite <- in_rev. exact E.
Qed.

Lemma unique_keys_fold_upsert (batch : list Prediction) :
  forall l, unique_keys l -> unique_keys (fold_left upsert_row batch l).
Proof.
  induction batch as [|r batch IH]; intros l H; simpl; [exact H|].
  apply IH. apply unique_keys_upsert_row. exact H.
Qed.

Lemma keys_upsert_row_incl (l : JournalDf) (row : Prediction) (k : Key) :
  In k (keys l) -> In k (keys (upsert_row l row)).
Proof.
  intros H. rewrite keys_upsert_row.
  destruct (existsb (key_mask row) l); [exact H|].
  apply in_or_app. left. exact H.
Qed.

Lemma keys_upsert_row_self (l : JournalDf) (row : Prediction) :
  In (key_of row) (keys (upsert_row l row)).
Proof.
  rewrite keys_upsert_row.
  destruct (existsb (key_mask row) l) eqn:E.
  - now apply existsb_key_mask.
  - apply in_or_app. right. left. reflexivity.
Qed.

Lemma keys_fold_upsert_incl (batch : list Prediction) :
  forall l k, In k (keys l) -> In k (keys (fold_left upsert_row batch l)).
Proof.
  induction batch as [|r batch IH]; intros l k H; simpl; [exact H|].
  apply IH. apply keys_upsert_row_incl. exact H.
Qed.

Lemma keys_fold_upsert_batch (batch : list Prediction) :
  forall l r, In r batch -> In (key_of r) (keys (fold_left upsert_row batch l)).
Proof.
  induction batch as [|r0 batch IH]; intros l r Hin; simpl; [contradiction|].
  destruct Hin as [-> | Hin].
  - apply keys_fold_upsert_incl. apply keys_upsert_row_self.
  - apply IH. exact Hin.
Qed.

(** When every key of the batch is stored already, no row is appended. *)
Lemma keys_fold_upsert_present (batch : list Prediction) :
  forall l, (forall r, In r batch -> In (key_of r) (keys l)) ->
            keys (fold_left upsert_row batch l) = keys l.
Proof.
  induction batch as [|r batch IH]; intros l H; simpl; [reflexivity|].
  assert (Hk : keys (upsert_row l r) = keys l).
  { rewrite keys_upsert_row.
    assert (existsb (key_mask r) l = true) as ->; [|reflexivity].
    apply existsb_key_mask. apply H. left. reflexivity. }
  rewrite IH; [exact Hk|].
  intros r' Hr'. rewrite Hk. apply H. right. exact Hr'.
Qed.

(** [drop_duplicates] leaves a store with one row per key as it is, and
    always answers such a store. *)
Lemma drop_duplicates_unique (l : JournalDf) :
  unique_keys l -> drop_duplicates l = l.
Proof.
  unfold unique_keys. induction l as [|j l IH]; simpl; intros H; [reflexivity|].
  inversion H as [|? ? Hnotin Hnodup]; subst.
  assert (existsb (key_mask j) l = false) as ->.
  { apply existsb_key_mask_false. exact Hnotin. }
  now rewrite IH.
Qed.

Lemma drop_duplicates_incl (l : JournalDf) (j : Prediction) :
  In j (drop_duplicates l) -> In j l.
Proof.
  induction l as [|x l IH]; simpl; [trivial|].
  destruct (existsb (key_mask x) l); simpl; intuition.
Qed.

Lemma unique_keys_drop_duplicates (l : JournalDf) :
  unique_keys (drop_duplicates l).
Proof.
  unfold unique_keys. induction l as [|j l IH]; simpl; [constructor|].
  destruct (existsb (key_mask j) l) eqn:E; [exact IH|].
  simpl. constructor; [|exact IH].
  apply existsb_key_mask_false in E. intros Hin. apply E.
  unfold keys in *. apply in_map_iff in Hin. destruct Hin as (x & Hk & Hx).
  apply in_map_iff. exists x. split; [exact Hk|].
  apply drop_duplicates_incl. exact Hx.
Qed.

(** Two stores with one row per key, the same keys in the same order and
    the same row under every key are the same store. *)
Lemma store_ext (l1 l2 : JournalDf) :
  unique_keys l1 -> keys l1 = keys l2 ->
  (forall k, In k l1 -> lookup k l1 = lookup k l2) ->
  l1 = l2.
Proof.
  unfold unique_keys. revert l2.
  induction l1 as [|a l1 IH]; intros l2 Hu Hk Hl; destruct l2 as [|b l2];
    try discriminate; [reflexivity|].
  assert (Hab : key_of a = key_of b) by (unfold keys in Hk; simpl in Hk; congruence).
  assert (Hk' : keys l1 = keys l2) by (unfold keys in *; simpl in Hk; congruence).
  clear Hk. rename Hk' into Hk.
  inversion Hu as [|? ? Hnotin Hnodup]; subst.
  assert (Heq : a = b).
  { specialize (Hl a (or_introl eq_refl)). unfold lookup in Hl. simpl in Hl.
    rewrite key_mask_refl in Hl.
    assert (key_mask a b = true) as E by (apply key_mask_iff; congruence).
    rewrite E in Hl. congruence. }
  subst b. f_equal. apply IH; [exact Hnodup | exact Hk |].
  intros k Hkin. specialize (Hl k (or_intror Hkin)).
  unfold lookup in Hl. simpl in Hl.
  assert (key_mask k a = false) as E.
  { apply key_mask_false_iff. intros Heq. apply Hnotin.
    rewrite Heq. unfold keys. apply in_map. exact Hkin. }
  rewrite E in Hl. exact Hl.
Qed.

(** *** Idempotence *)

Lemma upsert_predictions_unique (batch : list Prediction) (stored : JournalDf) :
  unique_keys stored ->
  upsert_predictions batch stored = fold_left upsert_row batch stored.
Proof.
  intros H. unfold upsert_predictions. destruct batch as [|r batch]; [reflexivity|].
  apply drop_duplicates_unique. apply unique_keys_fold_upsert. exact H.
Qed.

Lemma unique_keys_upsert_predictions (batch : list Prediction) (stored : JournalDf) :
  unique_keys stored -> unique_keys (upsert_predictions batch stored).
Proof.
  intros H. rewrite (upsert_predictions_unique batch stored H).
  apply unique_keys_fold_upsert. exact H.
Qed.

(** Whatever the journal file held, a non-empty upsert leaves one row per
    key. *)
Lemma upsert_predictions_establishes_unique_keys
  (batch : list Prediction) (stored : JournalDf) :
  batch <> [] -> unique_keys (upsert_predictions batch stored).
Proof.
  intros H. unfold upsert_predictions. destruct batch as [|r batch]; [congruence|].
  apply unique_keys_drop_duplicates.
Qed.

Lemma fold_upsert_twice (batch : list Prediction) (stored : JournalDf) :
  unique_keys stored ->
  fold_left upsert_row batch (fold_left upsert_row batch stored)
  = fold_left upsert_row batch stored.
Proof.
  intros H. set (once := fold_left upsert_row batch stored).
  assert (Hu : unique_keys once) by (apply unique_keys_fold_upsert; exact H).
  apply store_ext.
  - apply unique_keys_fold_upsert. exact Hu.
  - apply keys_fold_upsert_present. intros r Hr.
    apply keys_fold_upsert_batch. exact Hr.
  - intros k _. rewrite lookup_fold_upsert. subst once.
    rewrite lookup_fold_upsert.
    destruct (last_write k batch); reflexivity.
Qed.

(** *** A journal file with two rows under one key

    [upsert_predictions] announces that it updates the items with the same
    (date, time_bucket, ticker).  On a file that holds two rows under the
    key of the incoming row, the loop writes the incoming row over the first
    of them ([index[0]]) and [drop_duplicates(keep="last")] then keeps the
    second: the update is lost. *)

Lemma upsert_on_duplicated_store :
  upsert_predictions [row_neutral] duplicated_store = [row_bearish].
Proof. vm_compute. reflexivity. Qed.

Lemma upsert_on_stale_row :
  upsert_predictions [row_neutral] [row_bearish] = [row_neutral].
Proof. vm_compute. reflexivity. Qed.

Lemma stale_row_differs : row_bearish <> row_neutral.
Proof.
  intros H. apply (f_equal nifty_trend) in H. vm_compute in H. discriminate H.
Qed.

(** C4, at the failing input: the journal file holds the bullish and the
    bearish evaluation of RELIANCE under one key, the batch is the neutral
    re-evaluation.  The first upsert leaves the bearish row and drops the
    incoming one; upserting the same batch again replaces that row by the
    incoming one.  Twice is not once. *)
Theorem upsert_twice_on_duplicated_store :
  upsert_predictions [row_neutral] duplicated_store = [row_bearish]
  /\ upsert_predictions [row_neutral]
       (upsert_predictions [row_neutral] duplicated_store) = [row_neutral]
  /\ row_bearish <> row_neutral.
Proof.
  rewrite upsert_on_duplicated_store.
  split; [reflexivity | split; [exact upsert_on_stale_row | exact stale_row_differs]].
Qed.

(** On that file, upserting the batch twice is not upserting it once. *)
Lemma upsert_twice_differs_on_duplicated_store :
  upsert_predictions [row_neutral]
    (upsert_predictions [row_neutral] duplicated_store)
  <> upsert_predictions [row_neutral] duplicated_store.
Proof.
  intros H. apply (f_equal (map nifty_trend)) in H.
  vm_compute in H. discriminate H.
Qed.

(** Idempotence where the journal holds at most one row per key, which is
    what every upsert leaves behind: upserting a batch twice in succession
    leaves the journal identical to upserting it once, and that journal has
    at most one row per key. *)
Theorem upsert_predictions_idempotent (batch : list Prediction) (stored : JournalDf) :
  unique_keys stored ->
  upsert_predictions batch (upsert_predictions batch stored)
  = upsert_predictions batch stored
  /\ unique_keys (upsert_predictions batch stored).
Proof.
  intros H.
  assert (Hu : unique_keys (fold_left upsert_row batch stored))
    by (apply unique_keys_fold_upsert; exact H).
  rewrite (upsert_predictions_unique batch stored H).
  rewrite (upsert_predictions_unique batch _ Hu).
  split; [apply fold_upsert_twice; exact H | exact Hu].
Qed.

Lemma unique_keys_one (row : Prediction) : unique_keys [row].
Proof. unfold unique_keys. simpl. constructor; [intros [] | constructor]. Defined.

(** Idempotence on the journal holding the 10:05 prediction for RELIANCE,
    with the re-evaluation under a neutral benchmark as the batch. *)
Lemma upsert_predictions_idempotent_witness :
  unique_keys [sample_row]
  /\ upsert_predictions [row_neutral] (upsert_predictions [row_neutral] [sample_row])
     = upsert_predictions [row_neutral] [sample_row].
Proof.
  split; [exact (unique_keys_one sample_row)|].
  exact (proj1 (upsert_predictions_idempotent [row_neutral] [sample_row]
                  (unique_keys_one sample_row))).
Defined.

(** *** Replacement *)

Lemma overwrite_first_split (row : Prediction) (l : JournalDf) :
  existsb (key_mask row) l = true ->
  exists before old rest,
    l = before ++ old :: rest
    /\ key_of old = key_of row
    /\ overwrite_first row l = before ++ row :: rest.
Proof.
  induction l as [|j l IH]; simpl; [discriminate|].
  destruct (key_mask row j) eqn:E; simpl.
  - intros _. exists [], j, l. repeat split. now apply key_mask_iff.
  - intros H. destruct (IH H) as (before & old & rest & -> & Hk & Ho).
    exists (j :: before), old, rest. simpl. rewrite Ho. repeat split. exact Hk.
Qed.

Lemma filter_key_mask_absent (row : Prediction) (l : JournalDf) :
  ~ In (key_of row) (keys l) -> filter (key_mask row) l = [].
Proof.
  induction l as [|j l IH]; simpl; intros H; [reflexivity|].
  destruct (key_mask row j) eqn:E.
  - exfalso. apply H. left. now apply key_mask_iff.
  - apply IH. intros Hin. apply H. right. exact Hin.
Qed.

(** C5, at the failing input: the key of the incoming row exists in the
    journal file, twice.  After the upsert the one row under the key is the
    second of the prior rows, with its bearish benchmark trend; no column of
    the incoming row is stored. *)
Theorem upsert_drops_incoming_on_duplicated_store :
  In (key_of row_neutral) (keys duplicated_store)
  /\ upsert_predictions [row_neutral] duplicated_store = [row_bearish]
  /\ key_of row_bearish = key_of row_neutral
  /\ nifty_trend row_bearish = BEARISH
  /\ nifty_trend row_neutral = N_NEUTRAL
  /\ ~ In row_neutral (upsert_predictions [row_neutral] duplicated_store).
Proof.
  rewrite upsert_on_duplicated_store.
  split; [left; vm_compute; reflexivity|].
  split; [reflexivity|].
  split; [vm_compute; reflexivity|].
  split; [vm_compute; reflexivity|].
  split; [vm_compute; reflexivity|].
  intros [H | []]. exact (stale_row_differs H).
Qed.

(** On that file the incoming row has not overwritten its key. *)
Lemma upsert_keeps_prior_row_on_duplicated_store :
  ~ (In (key_of row_neutral) (keys duplicated_store) ->
     overwritten duplicated_store row_neutral).
Proof.
  intros H.
  assert (Hin : In (key_of row_neutral) (keys duplicated_store)).
  { left. vm_compute. reflexivity. }
  destruct (H Hin) as [Hall _].
  assert (Hrow : row_bearish = row_neutral).
  { apply Hall; [left|]; vm_compute; reflexivity. }
  apply (f_equal nifty_trend) in Hrow. vm_compute in Hrow. discriminate Hrow.
Qed.

(** Replacement where the journal holds at most one row per key: upserting
    a prediction whose key exists replaces the prior record in place by the
    incoming one, in all its columns: the rows before and after it stay as
    they were, exactly one row carries the key afterwards, and that row is
    the incoming one. *)
Theorem upsert_replaces_existing (stored : JournalDf) (row : Prediction) :
  unique_keys stored ->
  In (key_of row) (keys stored) ->
  overwritten stored row
  /\ exists before old rest,
       stored = before ++ old :: rest
       /\ key_of old = key_of row
       /\ upsert_predictions [row] stored = before ++ row :: rest.
Proof.
  intros Hu Hin.
  assert (Hex : existsb (key_mask row) stored = true) by (now apply existsb_key_mask).
  destruct (overwrite_first_split row stored Hex)
    as (before & old & rest & Hs & Hk & Ho).
  assert (Hup : upsert_predictions [row] stored = before ++ row :: rest).
  { rewrite (upsert_predictions_unique [row] stored Hu). simpl.
    unfold upsert_row. rewrite Hex. exact Ho. }
  assert (Hnot : ~ In (key_of row) (keys before) /\ ~ In (key_of row) (keys rest)).
  { unfold unique_keys in Hu. rewrite Hs in Hu. unfold keys in Hu.
    rewrite map_app in Hu. simpl in Hu. apply NoDup_remove_2 in Hu.
    rewrite Hk in Hu. split; intros Hc; apply Hu; apply in_or_app;
      [left | right]; exact Hc. }
  destruct Hnot as [Hnb Hnr].
  split.
  - unfold overwritten. cbv zeta. rewrite Hup. split.
    + intros j Hj Hkj. apply in_app_or in Hj. destruct Hj as [Hj | [Hj | Hj]].
      * exfalso. apply Hnb. rewrite <- Hkj. unfold keys. now apply in_map.
      * now symmetry.
      * exfalso. apply Hnr. rewrite <- Hkj. unfold keys. now apply in_map.
    + rewrite filter_app. simpl. rewrite key_mask_refl.
      rewrite (filter_key_mask_absent row before Hnb).
      rewrite (filter_key_mask_absent row rest Hnr). reflexivity.
  - exists before, old, rest. repeat split; assumption.
Qed.

(** Replacement of the 10:05 prediction for RELIANCE by its re-evaluation
    under a neutral benchmark. *)
Lemma upsert_replaces_existing_witness :
  unique_keys [sample_row]
  /\ In (key_of row_neutral) (keys [sample_row])
  /\ overwritten [sample_row] row_neutral.
Proof.
  assert (Hin : In (key_of row_neutral) (keys [sample_row])).
  { left. vm_compute. reflexivity. }
  split; [exact (unique_keys_one sample_row) | split; [exact Hin|]].
  exact (proj1 (upsert_replaces_existing [sample_row] row_neutral
                  (unique_keys_one sample_row) Hin)).
Defined.

(* ------------------------------------------------------------------ *)
(** ** One regime per evaluation cycle *)

Lemma predict_row_key now_ist status nifty regime actionable mp np sv row :
  let p := predict_row now_ist status nifty regime actionable mp np sv row in
  market_regime p = regime
  /\ date p = date_of now_ist
  /\ time_bucket p = floor_time_to_bucket now_ist PREDICTION_TIME_BUCKET_MINUTES.
Proof.
  unfold predict_row.
  destruct (instrument_features _) as [[[last_price stock_trend] volume_signal] volatility_label].
  destruct (simple_sentiment_from_headlines _) as [[sentiment_score sentiment_label] news_summary].
  destruct (score_instrument _ _ _ _ _ _ _ _ _).
  repeat split; reflexivity.
Qed.

Lemma generated_batch_fields now_ist wl mp np sv p :
  In p (generate_predictions_for_watchlist now_ist wl mp np sv) ->
  market_regime p = compute_market_regime (nifty_frame mp)
  /\ date p = date_of now_ist
  /\ time_bucket p = floor_time_to_bucket now_ist PREDICTION_TIME_BUCKET_MINUTES.
Proof.
  unfold generate_predictions_for_watchlist. intros Hin.
  destruct wl as [|w wl]; [contradiction|].
  apply in_map_iff in Hin. destruct Hin as (row & <- & _).
  apply predict_row_key.
Qed.

Lemma generated_batch_consistent now_ist wl mp np sv :
  regime_consistent (generate_predictions_for_watchlist now_ist wl mp np sv).
Proof.
  intros p q Hp Hq _ _.
  destruct (generated_batch_fields _ _ _ _ _ _ Hp) as (-> & _).
  destruct (generated_batch_fields _ _ _ _ _ _ Hq) as (-> & _).
  reflexivity.
Qed.

Lemma lookup_in_unique (l : JournalDf) (j : Prediction) :
  unique_keys l -> In j l -> lookup j l = Some j.
Proof.
  unfold unique_keys, lookup. induction l as [|x l IH]; simpl; intros Hu Hin;
    [contradiction|].
  inversion Hu as [|? ? Hnotin Hnodup]; subst.
  destruct Hin as [-> | Hin].
  - now rewrite key_mask_refl.
  - destruct (key_mask j x) eqn:E; [|now apply IH].
    exfalso. apply Hnotin. apply key_mask_iff in E. rewrite E.
    unfold keys. now apply in_map.
Qed.

Lemma last_write_some (k x : Prediction) (batch : list Prediction) :
  last_write k batch = Some x -> In x batch /\ key_of x = key_of k.
Proof.
  unfold last_write. intros H. apply find_some in H. destruct H as [Hin Hm].
  split; [now apply in_rev | now apply key_mask_iff].
Qed.

Lemma last_write_none (k : Prediction) (batch : list Prediction) :
  last_write k batch = None -> ~ In (key_of k) (keys batch).
Proof.
  unfold last_write. intros H Hin. unfold keys in Hin.
  apply in_map_iff in Hin. destruct Hin as (x & Hk & Hx).
  apply in_rev in Hx. pose proof (find_none _ _ H x Hx) as Hf.
  apply key_mask_false_iff in Hf. contradiction.
Qed.

(** Where the rows of the journal come from after an upsert. *)
Lemma upsert_predictions_rows (batch : list Prediction) (stored : JournalDf) (j : Prediction) :
  unique_keys stored ->
  In j (upsert_predictions batch stored) ->
  In j batch \/ (In j stored /\ ~ In (key_of j) (keys batch)).
Proof.
  intros Hu Hin. rewrite (upsert_predictions_unique batch stored Hu) in Hin.
  pose proof (lookup_in_unique _ j (unique_keys_fold_upsert batch stored Hu) Hin) as Hl.
  rewrite lookup_fold_upsert in Hl.
  destruct (last_write j batch) as [x|] eqn:E.
  - injection Hl as ->. left. apply (last_write_some j j batch E).
  - right. split.
    + unfold lookup in Hl. apply find_some in Hl. tauto.
    + now apply last_write_none.
Qed.

Lemma upsert_preserves_regime_consistent (batch : list Prediction) (stored : JournalDf) :
  unique_keys stored -> regime_consistent batch -> regime_consistent stored ->
  covers batch stored ->
  regime_consistent (upsert_predictions batch stored).
Proof.
  intros Hu Hb Hs Hc p q Hp Hq Hd Ht.
  destruct (upsert_predictions_rows batch stored p Hu Hp) as [Hpb | [Hps Hpn]];
    destruct (upsert_predictions_rows batch stored q Hu Hq) as [Hqb | [Hqs Hqn]].
  - now apply Hb.
  - exfalso. apply Hqn. now apply (Hc p q).
  - exfalso. apply Hpn. apply (Hc q p); auto.
  - now apply Hs.
Qed.

Lemma two_cycle_journal_reachable : journal_reachable two_cycle_journal.
Proof.
  unfold two_cycle_journal, sample_batch, early_batch.
  repeat apply reachable_upsert. apply reachable_empty.
Qed.

(** C6, as stated: among the records of the journal no two with equal
    (date, time_bucket) differ in market_regime.  This fails for a journal
    built by two cycles of the same time bucket that evaluate different
    watchlists under different regimes: the row of the first cycle stays,
    with its regime, next to the row of the second. *)
Lemma journal_regime_differs_within_bucket :
  ~ (forall journal_df, journal_reachable journal_df -> regime_consistent journal_df).
Proof.
  intros H.
  pose proof (H two_cycle_journal two_cycle_journal_reachable tcs_row sample_row) as Hr.
  assert (H1 : In tcs_row two_cycle_journal) by (left; vm_compute; reflexivity).
  assert (H2 : In sample_row two_cycle_journal) by (right; left; vm_compute; reflexivity).
  specialize (Hr H1 H2 eq_refl eq_refl).
  vm_compute in Hr. discriminate Hr.
Qed.

(** C6, amended: every record of an evaluation batch carries the one regime
    computed for that cycle, together with the date and time bucket of the
    cycle, so the records of a batch agree on market_regime; and upserting a
    batch into a journal with one row per key in which records of equal
    (date, time_bucket) agree on market_regime gives such a journal again,
    provided the batch has a row for every stored key of its
    (date, time_bucket). *)
Theorem regime_shared_per_cycle :
  (forall now_ist watchlist_df market_data_provider news_provider
          strategy_version p,
      In p (generate_predictions_for_watchlist now_ist watchlist_df
              market_data_provider news_provider strategy_version) ->
      market_regime p = compute_market_regime (nifty_frame market_data_provider)
      /\ date p = date_of now_ist
      /\ time_bucket p
         = floor_time_to_bucket now_ist PREDICTION_TIME_BUCKET_MINUTES)
  /\ (forall now_ist watchlist_df market_data_provider news_provider
             strategy_version,
        regime_consistent
          (generate_predictions_for_watchlist now_ist watchlist_df
             market_data_provider news_provider strategy_version))
  /\ (forall stored now_ist watchlist_df market_data_provider news_provider
             strategy_version,
        let batch :=
          generate_predictions_for_watchlist now_ist watchlist_df
            market_data_provider news_provider strategy_version in
        unique_keys stored -> regime_consistent stored -> covers batch stored ->
        regime_consistent (upsert_predictions batch stored)
        /\ unique_keys (upsert_predictions batch stored)).
Proof.
  split; [|split].
  - intros. eapply generated_batch_fields; eassumption.
  - intros. apply generated_batch_consistent.
  - intros stored now_ist wl mp np sv batch Hu Hs Hc. split.
    + apply upsert_preserves_regime_consistent; try assumption.
      apply generated_batch_consistent.
    + apply unique_keys_upsert_predictions. exact Hu.
Qed.

Lemma regime_consistent_one (row : Prediction) : regime_consistent [row].
Proof.
  intros p q [<- | []] [<- | []] _ _. reflexivity.
Defined.

Lemma sample_batch_covers_sample_row : covers sample_batch [sample_row].
Proof.
  intros p q _ [<- | []] _ _. left. vm_compute. reflexivity.
Defined.

(** The 10:05 cycle upserted into the journal that holds its own row. *)
Lemma regime_shared_per_cycle_witness :
  unique_keys [sample_row] /\ regime_consistent [sample_row]
  /\ covers sample_batch [sample_row]
  /\ regime_consistent (upsert_predictions sample_batch [sample_row]).
Proof.
  split; [exact (unique_keys_one sample_row)|].
  split; [exact (regime_consistent_one sample_row)|].
  split; [exact sample_batch_covers_sample_row|].
  exact (proj1 (proj2 (proj2 regime_shared_per_cycle) [sample_row] sample_now
                  [mk_watch "RELIANCE" "RELIANCE.NS" "LARGE"] sample_provider
                  quiet_news "v1.0"%string (unique_keys_one sample_row)
                  (regime_consistent_one sample_row)
                  sample_batch_covers_sample_row)).
Defined.

(* ------------------------------------------------------------------ *)
(** * Further properties *)

(** ** The batch of an evaluation cycle *)

(** Every column of a prediction row in terms of what the loop body derives
    for its watchlist row. *)
Lemma predict_row_columns now_ist status nifty regime actionable mp np sv row :
  let p := predict_row now_ist status nifty regime actionable mp np sv row in
  let f := row_features mp row in
  let sent := simple_sentiment_from_headlines (row_headlines np row) in
  let s := row_scores actionable regime nifty mp np row in
  (ticker p = w_ticker row /\ data_symbol p = w_data_symbol row
   /\ index_bucket p = w_index_bucket row)
  /\ (datetime_ist p = now_ist /\ status_code p = status /\ nifty_trend p = nifty
      /\ strategy_version p = sv /\ valid_for_minutes p = SCALP_VALID_MINUTES)
  /\ (price_at_prediction p = fst (fst (fst f))
      /\ stock_short_trend p = snd (fst (fst f))
      /\ volume_signal p = snd (fst f))
  /\ (sentiment_label p = snd (fst sent) /\ news_summary p = snd sent
      /\ sentiment_score p = Num.py_round (fst (fst sent)) 3
      /\ news_risk_flag p = determine_news_risk (row_headlines np row))
  /\ (prediction_action p = sc_action s /\ confidence_score p = sc_overall s
      /\ confidence_level_label p = sc_label s
      /\ confidence_trend p = Num.py_round (sc_trend s) 2
      /\ confidence_volume p = Num.py_round (sc_volume s) 2
      /\ confidence_sentiment p = Num.py_round (sc_sentiment s) 2
      /\ confidence_volatility p = Num.py_round (sc_volatility s) 2)
  /\ confidence_explanation p
     = confidence_explanation_of (sc_action s) (sc_trend s) (sc_volume s)
         (sc_sentiment s) (sc_volatility s) (sc_overall s) (sc_label s) regime
         (determine_news_risk (row_headlines np row)).
Proof.
  unfold predict_row, row_scores, row_features, row_headlines, provider_frame.
  destruct (instrument_features _) as [[[last_price stock_trend] volume_signal] volatility_label].
  destruct (simple_sentiment_from_headlines _) as [[sentiment_score sentiment_label] news_summary].
  cbv zeta. cbn [fst snd].
  destruct (score_instrument _ _ _ _ _ _ _ _ _).
  repeat split; reflexivity.
Qed.

Lemma generate_in_inv now_ist wl mp np sv p :
  In p (generate_predictions_for_watchlist now_ist wl mp np sv) ->
  exists row,
    In row wl
    /\ p = predict_row now_ist (code (get_time_status now_ist))
             (get_nifty_trend_daily mp) (compute_market_regime (nifty_frame mp))
             (is_actionable (code (get_time_status now_ist))
                (compute_market_regime (nifty_frame mp)))
             mp np sv row.
Proof.
  unfold generate_predictions_for_watchlist. intros Hin.
  destruct wl as [|w wl]; [contradiction|].
  apply in_map_iff in Hin. destruct Hin as (row & <- & Hrow).
  exists row. split; [exact Hrow | reflexivity].
Qed.

Lemma generate_as_map now_ist wl mp np sv :
  generate_predictions_for_watchlist now_ist wl mp np sv
  = map (predict_row now_ist (code (get_time_status now_ist))
           (get_nifty_trend_daily mp) (compute_market_regime (nifty_frame mp))
           (is_actionable (code (get_time_status now_ist))
              (compute_market_regime (nifty_frame mp)))
           mp np sv) wl.
Proof. destruct wl; reflexivity. Qed.

(** One prediction per watchlist row, in watchlist order, carrying the
    row's ticker, data symbol and index bucket; every prediction of the batch
    carries the timestamp, status code, benchmark trend and strategy version
    of the cycle and is valid for 15 minutes. *)
Theorem batch_follows_watchlist now_ist wl mp np sv :
  let batch := generate_predictions_for_watchlist now_ist wl mp np sv in
  map ticker batch = map w_ticker wl
  /\ map data_symbol batch = map w_data_symbol wl
  /\ map index_bucket batch = map w_index_bucket wl
  /\ Forall (fun p => datetime_ist p = now_ist
                      /\ status_code p = code (get_time_status now_ist)
                      /\ nifty_trend p = get_nifty_trend_daily mp
                      /\ strategy_version p = sv
                      /\ valid_for_minutes p = 15) batch.
Proof.
  cbv zeta. rewrite generate_as_map.
  set (f := predict_row _ _ _ _ _ _ _ _).
  assert (H : forall row, (ticker (f row) = w_ticker row
                           /\ data_symbol (f row) = w_data_symbol row
                           /\ index_bucket (f row) = w_index_bucket row)
                          /\ (datetime_ist (f row) = now_ist
                              /\ status_code (f row) = code (get_time_status now_ist)
                              /\ nifty_trend (f row) = get_nifty_trend_daily mp
                              /\ strategy_version (f row) = sv
                              /\ valid_for_minutes (f row) = 15)).
  { intros row. subst f.
    pose proof (predict_row_columns now_ist (code (get_time_status now_ist))
                  (get_nifty_trend_daily mp) (compute_market_regime (nifty_frame mp))
                  (is_actionable (code (get_time_status now_ist))
                     (compute_market_regime (nifty_frame mp))) mp np sv row) as Hc.
    cbv zeta in Hc. destruct Hc as (H1 & H2 & _). split; assumption. }
  rewrite !map_map. repeat split.
  - apply map_ext. intros row. apply (H row).
  - apply map_ext. intros row. apply (H row).
  - apply map_ext. intros row. apply (H row).
  - apply Forall_forall. intros p Hp. apply in_map_iff in Hp.
    destruct Hp as (row & <- & _). apply (H row).
Qed.

Lemma batch_row_cycle_columns now_ist wl mp np sv p :
  In p (generate_predictions_for_watchlist now_ist wl mp np sv) ->
  datetime_ist p = now_ist
  /\ status_code p = code (get_time_status now_ist)
  /\ nifty_trend p = get_nifty_trend_daily mp
  /\ strategy_version p = sv
  /\ valid_for_minutes p = 15.
Proof.
  intros Hin. destruct (generate_in_inv _ _ _ _ _ _ Hin) as (row & _ & ->).
  pose proof (predict_row_columns now_ist (code (get_time_status now_ist))
                (get_nifty_trend_daily mp) (compute_market_regime (nifty_frame mp))
                (is_actionable (code (get_time_status now_ist))
                   (compute_market_regime (nifty_frame mp))) mp np sv row) as Hc.
  cbv zeta in Hc. destruct Hc as (_ & H2 & _). exact H2.
Qed.

(** *** Keys of a batch and its first upsert *)

Lemma keys_generate now_ist wl mp np sv :
  keys (generate_predictions_for_watchlist now_ist wl mp np sv)
  = map (fun t => (date_of now_ist,
                   floor_time_to_bucket now_ist PREDICTION_TIME_BUCKET_MINUTES, t))
        (map w_ticker wl).
Proof.
  rewrite generate_as_map. unfold keys. rewrite !map_map.
  apply map_ext. intros row. unfold key_of.
  pose proof (predict_row_key now_ist (code (get_time_status now_ist))
                (get_nifty_trend_daily mp) (compute_market_regime (nifty_frame mp))
                (is_actionable (code (get_time_status now_ist))
                   (compute_market_regime (nifty_frame mp))) mp np sv row) as Hk.
  pose proof (predict_row_columns now_ist (code (get_time_status now_ist))
                (get_nifty_trend_daily mp) (compute_market_regime (nifty_frame mp))
                (is_actionable (code (get_time_status now_ist))
                   (compute_market_regime (nifty_frame mp))) mp np sv row) as Hc.
  cbv zeta in Hk, Hc.
  destruct Hk as (_ & -> & ->). destruct Hc as ((-> & _) & _). reflexivity.
Qed.

Lemma fold_upsert_fresh (batch : list Prediction) :
  forall stored,
    unique_keys batch ->
    (forall r, In r batch -> ~ In (key_of r) (keys stored)) ->
    fold_left upsert_row batch stored = stored ++ batch.
Proof.
  unfold unique_keys.
  induction batch as [|r batch IH]; intros stored Hu Hfresh; simpl.
  - now rewrite app_nil_r.
  - unfold keys in Hu. simpl in Hu. inversion Hu as [|? ? Hnotin Hnodup]; subst.
    assert (Hrow : upsert_row stored r = stored ++ [r]).
    { unfold upsert_row.
      assert (existsb (key_mask r) stored = false) as ->; [|reflexivity].
      apply existsb_key_mask_false. apply Hfresh. left. reflexivity. }
    rewrite Hrow, IH.
    + rewrite <- app_assoc. reflexivity.
    + exact Hnodup.
    + intros r' Hr' Hin. unfold keys in Hin. rewrite map_app in Hin.
      apply in_app_or in Hin. destruct Hin as [Hin | [Heq | []]].
      * apply (Hfresh r' (or_intror Hr')). exact Hin.
      * apply Hnotin. rewrite Heq. now apply in_map.
Qed.

(** Upserting a batch of distinct keys none of which is stored appends the
    batch to the journal, rows and order unchanged. *)
Theorem upsert_fresh_batch_appends (batch : list Prediction) (stored : JournalDf) :
  unique_keys stored -> unique_keys batch ->
  (forall r, In r batch -> ~ In (key_of r) (keys stored)) ->
  upsert_predictions batch stored = stored ++ batch.
Proof.
  intros Hs Hb Hfresh.
  rewrite (upsert_predictions_unique batch stored Hs).
  apply fold_upsert_fresh; assumption.
Qed.

Lemma unique_keys_two_rows :
  unique_keys [sample_row; tcs_row].
Proof.
  unfold unique_keys. vm_compute.
  constructor; [|constructor; [intros [] | constructor]].
  intros [H | []]. discriminate H.
Defined.

(** Appending the 10:05 row and the 10:01 row of TCS to an empty journal. *)
Lemma upsert_fresh_batch_appends_witness :
  unique_keys [] /\ unique_keys [sample_row; tcs_row]
  /\ upsert_predictions [sample_row; tcs_row] [] = [] ++ [sample_row; tcs_row].
Proof.
  assert (H0 : unique_keys []) by constructor.
  assert (Hf : forall r, In r [sample_row; tcs_row] -> ~ In (key_of r) (keys [])).
  { intros r _ []. }
  split; [exact H0 | split; [exact unique_keys_two_rows|]].
  exact (upsert_fresh_batch_appends _ _ H0 unique_keys_two_rows Hf).
Defined.

Lemma NoDup_map_injective {A B : Type} (f : A -> B) (l : list A) :
  (forall a b, f a = f b -> a = b) -> NoDup l -> NoDup (map f l).
Proof.
  intros Hinj Hnd. induction Hnd as [|a l Hnotin Hnd IH]; simpl; constructor.
  - intros Hin. apply in_map_iff in Hin. destruct Hin as (b & Hb & Hin).
    apply Hinj in Hb. subst b. contradiction.
  - exact IH.
Qed.

(** A watchlist without repeated tickers gives a batch with one row per
    (date, time_bucket, ticker) key, and upserting that batch into an empty
    journal stores exactly the batch. *)
Theorem distinct_tickers_distinct_keys now_ist wl mp np sv :
  NoDup (map w_ticker wl) ->
  let batch := generate_predictions_for_watchlist now_ist wl mp np sv in
  unique_keys batch /\ upsert_predictions batch [] = batch.
Proof.
  intros Hnd batch.
  assert (Hu : unique_keys batch).
  { unfold unique_keys. subst batch. rewrite keys_generate.
    apply NoDup_map_injective; [|exact Hnd].
    intros a b H. congruence. }
  split; [exact Hu|].
  change batch with ([] ++ batch) at 2.
  apply upsert_fresh_batch_appends; [constructor | exact Hu |].
  intros r _ [].
Qed.

Lemma two_row_watchlist_distinct : NoDup (map w_ticker two_row_watchlist).
Proof.
  simpl. constructor; [|constructor; [intros [] | constructor]].
  intros [H | []]. discriminate H.
Defined.

(** The 10:05 cycle on RELIANCE and TCS. *)
Lemma distinct_tickers_distinct_keys_witness :
  NoDup (map w_ticker two_row_watchlist)
  /\ unique_keys (generate_predictions_for_watchlist sample_now two_row_watchlist
                    sample_provider quiet_news "v1.0").
Proof.
  split; [exact two_row_watchlist_distinct|].
  exact (proj1 (distinct_tickers_distinct_keys sample_now two_row_watchlist
                  sample_provider quiet_news "v1.0"%string
                  two_row_watchlist_distinct)).
Defined.

(* ------------------------------------------------------------------ *)
(** ** Signals of a generated row *)

Lemma row_scores_eq a r n mp np row :
  row_scores a r n mp np row
  = score_instrument a r n
      (fst (fst (fst (row_features mp row)))) (snd (fst (fst (row_features mp row))))
      (snd (fst (row_features mp row))) (snd (row_features mp row))
      (snd (fst (simple_sentiment_from_headlines (row_headlines np row))))
      (determine_news_risk (row_headlines np row)).
Proof.
  unfold row_scores. destruct (row_features mp row) as [[[lp st] vs] vl]. reflexivity.
Qed.

(** The columns of a row of a batch in terms of the scores computed from
    its own columns and the features of its frame. *)
Lemma generated_row_scores now_ist wl mp np sv p :
  In p (generate_predictions_for_watchlist now_ist wl mp np sv) ->
  exists volatility_label,
    instrument_features (provider_frame mp (data_symbol p))
    = (price_at_prediction p, stock_short_trend p, volume_signal p, volatility_label)
    /\ let s := score_instrument (row_actionable p) (market_regime p)
                  (nifty_trend p) (price_at_prediction p) (stock_short_trend p)
                  (volume_signal p) volatility_label (sentiment_label p)
                  (news_risk_flag p) in
       prediction_action p = sc_action s
       /\ confidence_score p = sc_overall s
       /\ confidence_level_label p = sc_label s
       /\ confidence_trend p = Num.py_round (sc_trend s) 2
       /\ confidence_volume p = Num.py_round (sc_volume s) 2
       /\ confidence_sentiment p = Num.py_round (sc_sentiment s) 2
       /\ confidence_volatility p = Num.py_round (sc_volatility s) 2
       /\ confidence_explanation p
          = confidence_explanation_of (sc_action s) (sc_trend s) (sc_volume s)
              (sc_sentiment s) (sc_volatility s) (sc_overall s) (sc_label s)
              (market_regime p) (news_risk_flag p).
Proof.
  intros Hin. destruct (generate_in_inv _ _ _ _ _ _ Hin) as (row & _ & Hp).
  set (st := code (get_time_status now_ist)) in *.
  set (rg := compute_market_regime (nifty_frame mp)) in *.
  pose proof (predict_row_columns now_ist st (get_nifty_trend_daily mp) rg
                (is_actionable st rg) mp np sv row) as Hc.
  pose proof (predict_row_key now_ist st (get_nifty_trend_daily mp) rg
                (is_actionable st rg) mp np sv row) as Hk.
  cbv zeta in Hc, Hk. rewrite <- Hp in Hc, Hk.
  destruct Hc as ((_ & Hds & _) & (_ & Hst & Hn & _) & (Hpr & Htr & Hvs)
                  & (Hsl & _ & _ & Hri) & Hsc & Hex).
  destruct Hk as (Hrg & _).
  rewrite row_scores_eq in Hsc, Hex.
  unfold row_features in *. rewrite <- Hds in *.
  exists (snd (instrument_features (provider_frame mp (data_symbol p)))).
  split.
  - rewrite Hpr, Htr, Hvs.
    destruct (instrument_features _) as [[[a b] c] d]. reflexivity.
  - cbv zeta. unfold row_actionable.
    rewrite Hst, Hrg, Hn, Hpr, Htr, Hvs, Hsl, Hri.
    destruct Hsc as (H1 & H2 & H3 & H4 & H5 & H6 & H7).
    repeat split; assumption.
Qed.

Lemma decide_action_long a p n s se :
  decide_action a p n s se = LONG_BIAS
  <-> a = true /\ p <> None /\ n = BULLISH /\ s = UP /\ se <> NEGATIVE.
Proof.
  unfold decide_action. split.
  - destruct a, p, n, s, se; simpl; intros H; try discriminate H;
      repeat split; congruence.
  - intros (-> & Hp & -> & -> & Hse).
    destruct p; [|congruence]. destruct se; simpl; congruence.
Qed.

Lemma decide_action_short a p n s se :
  decide_action a p n s se = SHORT_BIAS
  <-> a = true /\ p <> None /\ n = BEARISH /\ s = DOWN /\ se <> POSITIVE.
Proof.
  unfold decide_action. split.
  - destruct a, p, n, s, se; simpl; intros H; try discriminate H;
      repeat split; congruence.
  - intros (-> & Hp & -> & -> & Hse).
    destruct p; [|congruence]. destruct se; simpl; congruence.
Qed.

(** A row of a batch is LONG_BIAS exactly when the cycle is actionable, the
    price is known, the benchmark is BULLISH, the instrument trend is UP and
    the sentiment is not NEGATIVE; it is SHORT_BIAS exactly when the cycle is
    actionable, the price is known, the benchmark is BEARISH, the instrument
    trend is DOWN and the sentiment is not POSITIVE. *)
Theorem action_selection now_ist wl mp np sv p :
  In p (generate_predictions_for_watchlist now_ist wl mp np sv) ->
  (prediction_action p = LONG_BIAS
   <-> row_actionable p = true /\ price_at_prediction p <> None
       /\ nifty_trend p = BULLISH /\ stock_short_trend p = UP
       /\ sentiment_label p <> NEGATIVE)
  /\ (prediction_action p = SHORT_BIAS
      <-> row_actionable p = true /\ price_at_prediction p <> None
          /\ nifty_trend p = BEARISH /\ stock_short_trend p = DOWN
          /\ sentiment_label p <> POSITIVE).
Proof.
  intros Hin.
  destruct (generated_row_scores _ _ _ _ _ _ Hin) as (vl & _ & Hs).
  cbv zeta in Hs. destruct Hs as (Ha & _). rewrite Ha.
  unfold score_instrument. cbn [sc_action].
  split; [apply decide_action_long | apply decide_action_short].
Qed.

Lemma sample_row_in_sample_batch : In sample_row sample_batch.
Proof. left. vm_compute. reflexivity. Defined.

(** The 10:05 row of RELIANCE is LONG_BIAS. *)
Lemma action_selection_witness :
  In sample_row sample_batch
  /\ (prediction_action sample_row = LONG_BIAS
      <-> row_actionable sample_row = true /\ price_at_prediction sample_row <> None
          /\ nifty_trend sample_row = BULLISH /\ stock_short_trend sample_row = UP
          /\ sentiment_label sample_row <> NEGATIVE).
Proof.
  split; [exact sample_row_in_sample_batch|].
  exact (proj1 (action_selection sample_now _ sample_provider quiet_news
                  "v1.0"%string sample_row sample_row_in_sample_batch)).
Defined.

(** *** Frames that are empty or short *)

Lemma determine_stock_trend_short (df : list Bar) (lookback : nat) :
  (List.length df < lookback)%nat -> determine_stock_trend df lookback = SIDEWAYS.
Proof.
  intros H. unfold determine_stock_trend.
  destruct (Nat.ltb_spec (List.length df) lookback); [|lia].
  now rewrite orb_true_r.
Qed.

Lemma instrument_features_short (intraday : list Bar) :
  (List.length intraday < 20)%nat ->
  snd (fst (fst (instrument_features intraday))) = SIDEWAYS.
Proof.
  intros H. destruct intraday as [|b rest]; [reflexivity|].
  unfold instrument_features. cbn [fst snd].
  apply determine_stock_trend_short. rewrite sort_index_length. exact H.
Qed.

Lemma label_of_zero (x : Q) :
  (x == 0)%Q -> confidence_level_label_of x = L_VeryLowOrNoTrade.
Proof.
  intros H. unfold confidence_level_label_of, Num.Qleb, Num.Qltb.
  destruct (Qle_bool 0.7 x) eqn:E1; [apply Qle_bool_iff in E1; lra|].
  destruct (Qle_bool 0.4 x) eqn:E2; [apply Qle_bool_iff in E2; lra|].
  destruct (Qle_bool x 0) eqn:E3; [reflexivity|].
  assert (E : Qle_bool x 0 = true) by (apply Qle_bool_iff; lra).
  congruence.
Qed.

Lemma no_trade_scores a r n p s v l se ri :
  let sc := score_instrument a r n p s v l se ri in
  sc_action sc = NO_TRADE ->
  (sc_overall sc == 0)%Q /\ sc_label sc = L_VeryLowOrNoTrade.
Proof.
  intros sc Hact.
  pose proof (score_instrument_bounds a r n p s v l se ri) as Hb.
  cbv zeta in Hb. unfold score_bounds in Hb. destruct Hb as (_ & H0 & _).
  specialize (H0 Hact).
  assert (Hz : (sc_overall sc == 0)%Q) by (subst sc; rewrite H0; reflexivity).
  split; [exact Hz|].
  subst sc. unfold score_instrument in *. cbn [sc_label sc_overall] in *.
  apply label_of_zero. exact Hz.
Qed.

(** An instrument whose intraday frame has fewer than 20 bars (the provider
    raised, answered nothing, or the session is young) has instrument trend
    SIDEWAYS and gets no signal: the action is NO_TRADE, the score 0.0 and the
    label "Very Low or No Trade". *)
Theorem no_signal_on_short_frame now_ist wl mp np sv p :
  In p (generate_predictions_for_watchlist now_ist wl mp np sv) ->
  (List.length (provider_frame mp (data_symbol p)) < 20)%nat ->
  stock_short_trend p = SIDEWAYS
  /\ prediction_action p = NO_TRADE
  /\ (confidence_score p == 0)%Q
  /\ confidence_level_label p = L_VeryLowOrNoTrade.
Proof.
  intros Hin Hlen.
  destruct (generated_row_scores _ _ _ _ _ _ Hin) as (vl & Hf & Hs).
  cbv zeta in Hs. destruct Hs as (Ha & Hsc & Hl & _).
  assert (Hst : stock_short_trend p = SIDEWAYS).
  { pose proof (instrument_features_short _ Hlen) as H. rewrite Hf in H. exact H. }
  assert (Hact : prediction_action p = NO_TRADE).
  { rewrite Ha. unfold score_instrument. cbn [sc_action]. rewrite Hst.
    unfold decide_action.
    destruct (row_actionable p), (price_at_prediction p), (nifty_trend p);
      reflexivity. }
  split; [exact Hst | split; [exact Hact|]].
  rewrite Hsc, Hl. rewrite Ha in Hact.
  apply no_trade_scores. exact Hact.
Qed.

Lemma tcs_row_in_early_batch : In tcs_row early_batch.
Proof. left. vm_compute. reflexivity. Defined.

(** The 10:01 row of TCS, whose fetch failed. *)
Lemma no_signal_on_short_frame_witness :
  In tcs_row early_batch
  /\ (List.length (provider_frame failing_provider (data_symbol tcs_row)) < 20)%nat
  /\ prediction_action tcs_row = NO_TRADE.
Proof.
  assert (Hl : (List.length (provider_frame failing_provider (data_symbol tcs_row)) < 20)%nat).
  { vm_compute. lia. }
  split; [exact tcs_row_in_early_batch | split; [exact Hl|]].
  exact (proj1 (proj2 (no_signal_on_short_frame early_now _ failing_provider
                         quiet_news "v1.0"%string tcs_row
                         tcs_row_in_early_batch Hl))).
Defined.

(** When the provider raises or answers an empty frame for an instrument,
    its row takes the neutral defaults: price nan, trend SIDEWAYS, volume
    signal UNKNOWN, and components 0.0 (trend), 0.5 (volume), 0.5 (sentiment)
    and 0.8 (volatility). *)
Theorem degraded_row_defaults now_ist wl mp np sv p :
  In p (generate_predictions_for_watchlist now_ist wl mp np sv) ->
  provider_frame mp (data_symbol p) = [] ->
  price_at_prediction p = None
  /\ stock_short_trend p = SIDEWAYS
  /\ volume_signal p = V_UNKNOWN
  /\ (confidence_trend p == 0.0 /\ confidence_volume p == 0.5
      /\ confidence_sentiment p == 0.5 /\ confidence_volatility p == 0.8)%Q.
Proof.
  intros Hin Hempty.
  destruct (generated_row_scores _ _ _ _ _ _ Hin) as (vl & Hf & Hs).
  cbv zeta in Hs. destruct Hs as (_ & _ & _ & Ht & Hv & Hse & Hvo & _).
  rewrite Hempty in Hf. simpl in Hf. injection Hf as Hp Hst Hvs Hvl.
  split; [now symmetry|]. split; [now symmetry|]. split; [now symmetry|].
  rewrite Ht, Hv, Hse, Hvo. rewrite <- Hp, <- Hst, <- Hvs, <- Hvl.
  split; [|split; [|split]].
  - destruct (row_actionable p), (nifty_trend p), (sentiment_label p); reflexivity.
  - reflexivity.
  - destruct (row_actionable p), (nifty_trend p), (sentiment_label p); reflexivity.
  - reflexivity.
Qed.

(** The defaults at the 10:01 row of TCS. *)
Lemma degraded_row_defaults_witness :
  In tcs_row early_batch
  /\ provider_frame failing_provider (data_symbol tcs_row) = []
  /\ price_at_prediction tcs_row = None.
Proof.
  assert (He : provider_frame failing_provider (data_symbol tcs_row) = [])
    by reflexivity.
  split; [exact tcs_row_in_early_batch | split; [exact He|]].
  exact (proj1 (degraded_row_defaults early_now _ failing_provider quiet_news
                  "v1.0"%string tcs_row tcs_row_in_early_batch He)).
Defined.

(** *** Score and label of a row *)

Lemma round_half_even_lower (y : Q) (A : Z) :
  (inject_Z A - (1 # 2) < y)%Q -> A <= Num.round_half_even y.
Proof.
  intros H. pose proof (Qlt_floor y) as Hup. pose proof (Qfloor_le y) as Hlo.
  rewrite inject_Z_plus in Hup. change (inject_Z 1) with 1%Q in Hup.
  unfold Num.round_half_even, Num.Qltb.
  destruct (Z_le_gt_dec A (Qfloor y)) as [Hle | Hgt].
  - destruct (Qle_bool (1 # 2) (y - inject_Z (Qfloor y))); simpl; [|lia].
    destruct (Qle_bool _ _); simpl; [destruct (Z.even _)|]; lia.
  - assert (HA : A = Qfloor y + 1).
    { destruct (Z_le_gt_dec A (Qfloor y + 1)) as [H1 | H2]; [lia|].
      exfalso. assert (H3 : (Qfloor y + 2 <= A)%Z) by lia.
      rewrite Zle_Qle in H3. rewrite inject_Z_plus in H3.
      change (inject_Z 2) with 2%Q in H3. lra. }
    assert (Hr : ((1 # 2) < y - inject_Z (Qfloor y))%Q).
    { rewrite HA, inject_Z_plus in H. change (inject_Z 1) with 1%Q in H. lra. }
    destruct (Qle_bool (1 # 2) (y - inject_Z (Qfloor y))) eqn:E1; simpl.
    + destruct (Qle_bool (y - inject_Z (Qfloor y)) (1 # 2)) eqn:E2; simpl; [|lia].
      apply Qle_bool_iff in E2. lra.
    + assert (E : Qle_bool (1 # 2) (y - inject_Z (Qfloor y)) = true)
        by (apply Qle_bool_iff; lra).
      congruence.
Qed.

Lemma py_round_2_lower (x : Q) (A : Z) :
  (inject_Z A - (1 # 2) < x * 100)%Q -> (A # 100 <= Num.py_round x 2)%Q.
Proof.
  intros H. unfold Num.py_round.
  change (inject_Z (Num.pow10 2)) with 100%Q.
  change (Z.to_pos (Num.pow10 2)) with 100%positive.
  pose proof (round_half_even_lower _ _ H) as H1.
  unfold Qle; simpl. lia.
Qed.

Lemma trade_components a p n s se :
  decide_action a p n s se <> NO_TRADE ->
  a = true
  /\ (trend_component_of (decide_action a p n s se) n s == 1)%Q
  /\ (0.7 <= sentiment_component_of (decide_action a p n s se) se <= 1)%Q.
Proof.
  unfold decide_action.
  destruct a, p, n, s, se; simpl; intros H; try congruence;
    (split; [reflexivity | split; [reflexivity | split; q_const]]).
Qed.

Lemma volume_component_lower v : (0.3 <= volume_component_of v)%Q.
Proof. destruct v; q_const. Qed.

Lemma volatility_component_lower l : (0.4 <= volatility_component_of l)%Q.
Proof. destruct l; q_const. Qed.

Lemma overall_confidence_trade_lower action tc vc sc volc regime risk :
  action <> NO_TRADE ->
  (tc == 1)%Q -> (0.3 <= vc)%Q -> (0.7 <= sc)%Q -> (0.4 <= volc)%Q ->
  (0.37 <= overall_confidence_of action true tc vc sc volc regime risk)%Q.
Proof.
  intros Ha Ht Hv Hs Hvo. unfold overall_confidence_of.
  assert (action_eqb action NO_TRADE || negb true = false) as ->.
  { destruct action; [reflexivity | reflexivity | congruence]. }
  set (w := (0.30 * tc + 0.25 * vc + 0.20 * sc + 0.25 * volc)%Q).
  assert (Hw : (0.615 <= w)%Q) by (subst w; lra).
  set (w2 := match regime with
             | RANGE_DAY => (w * 0.7)%Q
             | LOW_VOLATILITY => (w * 0.6)%Q
             | _ => w
             end).
  assert (Hw2 : (0.369 <= w2)%Q) by (subst w2; destruct regime; lra).
  clearbody w2. clear w Hw.
  set (w3 := match risk with
             | EVENT_RISK | BREAKING => Num.min w2 0.6
             | NONE => w2
             end).
  assert (Hw3 : (0.369 <= w3)%Q).
  { subst w3. pose proof (min_spec w2 0.6) as (_ & _ & M).
    destruct risk; destruct M; lra. }
  clearbody w3.
  apply (py_round_2_lower w3 37). unfold inject_Z. lra.
Qed.

Lemma trade_score_lower a r n p s v l se ri :
  let sc := score_instrument a r n p s v l se ri in
  sc_action sc <> NO_TRADE -> (0.37 <= sc_overall sc)%Q.
Proof.
  unfold score_instrument. cbv zeta. cbn [sc_action sc_overall]. intros H.
  destruct (trade_components a p n s se H) as (-> & Ht & Hs & _).
  apply overall_confidence_trade_lower;
    auto using volume_component_lower, volatility_component_lower.
Qed.

Lemma label_very_low_iff (x : Q) :
  confidence_level_label_of x = L_VeryLowOrNoTrade <-> (x <= 0)%Q.
Proof.
  unfold confidence_level_label_of, Num.Qleb, Num.Qltb. split.
  - destruct (Qle_bool 0.7 x); [discriminate|].
    destruct (Qle_bool 0.4 x); [discriminate|].
    destruct (Qle_bool x 0) eqn:E; simpl; [|discriminate].
    intros _. now apply Qle_bool_iff.
  - intros H.
    destruct (Qle_bool 0.7 x) eqn:E1; [apply Qle_bool_iff in E1; lra|].
    destruct (Qle_bool 0.4 x) eqn:E2; [apply Qle_bool_iff in E2; lra|].
    assert (Qle_bool x 0 = true) as -> by (now apply Qle_bool_iff).
    reflexivity.
Qed.

Lemma label_high_iff (x : Q) :
  confidence_level_label_of x = L_High <-> (0.7 <= x)%Q.
Proof.
  unfold confidence_level_label_of, Num.Qleb, Num.Qltb. split.
  - destruct (Qle_bool 0.7 x) eqn:E; [intros _; now apply Qle_bool_iff|].
    destruct (Qle_bool 0.4 x); [discriminate|].
    destruct (Qle_bool x 0); discriminate.
  - intros H. assert (Qle_bool 0.7 x = true) as -> by (now apply Qle_bool_iff).
    reflexivity.
Qed.

(** In every row of a batch the label is the one of the score; the label is
    "Very Low or No Trade" exactly when the action is NO_TRADE; a LONG_BIAS or
    SHORT_BIAS row has a score of at least 0.37; and under EVENT_RISK or
    BREAKING news the label is never High. *)
Theorem label_follows_action now_ist wl mp np sv p :
  In p (generate_predictions_for_watchlist now_ist wl mp np sv) ->
  confidence_level_label p = confidence_level_label_of (confidence_score p)
  /\ (confidence_level_label p = L_VeryLowOrNoTrade <-> prediction_action p = NO_TRADE)
  /\ (prediction_action p <> NO_TRADE -> (0.37 <= confidence_score p)%Q)
  /\ (news_risk_flag p = EVENT_RISK \/ news_risk_flag p = BREAKING ->
      confidence_level_label p <> L_High).
Proof.
  intros Hin.
  destruct (generated_row_scores _ _ _ _ _ _ Hin) as (vl & _ & Hs).
  cbv zeta in Hs. destruct Hs as (Ha & Hsc & Hl & _).
  set (s := score_instrument _ _ _ _ _ _ _ _ _) in *.
  assert (Hlab : sc_label s = confidence_level_label_of (sc_overall s)) by reflexivity.
  pose proof (score_instrument_bounds (row_actionable p) (market_regime p)
                (nifty_trend p) (price_at_prediction p) (stock_short_trend p)
                (volume_signal p) vl (sentiment_label p) (news_risk_flag p)) as Hb.
  pose proof (trade_score_lower (row_actionable p) (market_regime p)
                (nifty_trend p) (price_at_prediction p) (stock_short_trend p)
                (volume_signal p) vl (sentiment_label p) (news_risk_flag p)) as Ht.
  cbv zeta in Hb, Ht. fold s in Hb, Ht. unfold score_bounds in Hb.
  destruct Hb as (_ & H0 & Hr).
  rewrite Ha, Hsc, Hl, Hlab.
  split; [reflexivity | split; [|split]].
  - rewrite label_very_low_iff. split.
    + intros Hle. destruct (sc_action s) eqn:E; [| |reflexivity];
        exfalso; assert (Hne : (0.37 <= sc_overall s)%Q) by (apply Ht; discriminate);
        lra.
    + intros Hn. specialize (H0 Hn). lra.
  - exact Ht.
  - intros Hrisk Hhigh. apply label_high_iff in Hhigh. specialize (Hr Hrisk). lra.
Qed.

(** The label of the 10:05 row of RELIANCE. *)
Lemma label_follows_action_witness :
  In sample_row sample_batch
  /\ (prediction_action sample_row <> NO_TRADE -> (0.37 <= confidence_score sample_row)%Q).
Proof.
  split; [exact sample_row_in_sample_batch|].
  exact (proj1 (proj2 (proj2 (label_follows_action sample_now _ sample_provider
                                quiet_news "v1.0"%string sample_row
                                sample_row_in_sample_batch)))).
Defined.

(** *** The sentiment component *)

Lemma sentiment_tiers a p n s se :
  let act := decide_action a p n s se in
  let c := Num.py_round (sentiment_component_of act se) 2 in
  (act = NO_TRADE -> c == 0.5)%Q
  /\ (act = LONG_BIAS -> (se = POSITIVE /\ c == 1.0) \/ (se = NEUTRAL /\ c == 0.7))%Q
  /\ (act = SHORT_BIAS -> (se = NEGATIVE /\ c == 1.0) \/ (se = NEUTRAL /\ c == 0.7))%Q
  /\ ~ (c == 0.3)%Q.
Proof.
  unfold decide_action.
  destruct a, p, n, s, se; simpl;
    (split; [intros H; try discriminate H; reflexivity
            | split; [intros H; try discriminate H;
                      ((left; split; reflexivity) || (right; split; reflexivity))
                     | split; [intros H; try discriminate H;
                               ((left; split; reflexivity) || (right; split; reflexivity))
                              | intros H; discriminate H]]]).
Qed.

(** The sentiment component of a row is 0.5 on NO_TRADE; on a LONG_BIAS row
    it is 1.0 with POSITIVE and 0.7 with NEUTRAL sentiment, on a SHORT_BIAS
    row 1.0 with NEGATIVE and 0.7 with NEUTRAL sentiment; the tier 0.3 is
    never produced, since an opposing sentiment blocks the action. *)
Theorem sentiment_component_tiers now_ist wl mp np sv p :
  In p (generate_predictions_for_watchlist now_ist wl mp np sv) ->
  let c := confidence_sentiment p in
  let se := sentiment_label p in
  ((prediction_action p = NO_TRADE -> c == 0.5)
   /\ (prediction_action p = LONG_BIAS ->
       (se = POSITIVE /\ c == 1.0) \/ (se = NEUTRAL /\ c == 0.7))
   /\ (prediction_action p = SHORT_BIAS ->
       (se = NEGATIVE /\ c == 1.0) \/ (se = NEUTRAL /\ c == 0.7))
   /\ ~ (c == 0.3))%Q.
Proof.
  intros Hin.
  destruct (generated_row_scores _ _ _ _ _ _ Hin) as (vl & _ & Hs).
  cbv zeta in Hs. destruct Hs as (Ha & _ & _ & _ & _ & Hse & _).
  cbv zeta. rewrite Ha, Hse.
  unfold score_instrument. cbn [sc_action sc_sentiment].
  apply sentiment_tiers.
Qed.

(** The sentiment component of the 10:05 row of RELIANCE. *)
Lemma sentiment_component_tiers_witness :
  In sample_row sample_batch /\ ~ (confidence_sentiment sample_row == 0.3)%Q.
Proof.
  split; [exact sample_row_in_sample_batch|].
  exact (proj2 (proj2 (proj2 (sentiment_component_tiers sample_now _ sample_provider
                                quiet_news "v1.0"%string sample_row
                                sample_row_in_sample_batch)))).
Defined.

(** *** The volatility component of a young session *)

Lemma volatility_label_short (df : list Bar) (lookback : nat) :
  (List.length df < lookback)%nat ->
  compute_intraday_volatility_label df lookback = MEDIUM.
Proof.
  intros H. unfold compute_intraday_volatility_label.
  destruct (Nat.ltb_spec (List.length df) lookback); [|lia].
  now rewrite orb_true_r.
Qed.

Lemma instrument_features_volatility_short (intraday : list Bar) :
  (List.length intraday < 40)%nat ->
  snd (instrument_features intraday) = MEDIUM.
Proof.
  intros H. destruct intraday as [|b rest]; [reflexivity|].
  unfold instrument_features. cbn [fst snd].
  apply volatility_label_short. rewrite sort_index_length. exact H.
Qed.

(** An instrument whose intraday frame has fewer than 40 bars is scored
    with the default volatility label MEDIUM: its volatility component is
    0.8. *)
Theorem volatility_default_on_short_frame now_ist wl mp np sv p :
  In p (generate_predictions_for_watchlist now_ist wl mp np sv) ->
  (List.length (provider_frame mp (data_symbol p)) < 40)%nat ->
  (confidence_volatility p == 0.8)%Q.
Proof.
  intros Hin Hlen.
  destruct (generated_row_scores _ _ _ _ _ _ Hin) as (vl & Hf & Hs).
  cbv zeta in Hs. destruct Hs as (_ & _ & _ & _ & _ & _ & Hvo & _).
  pose proof (instrument_features_volatility_short _ Hlen) as H.
  rewrite Hf in H. cbn [snd] in H. subst vl.
  rewrite Hvo. reflexivity.
Qed.

(** The 10:05 row of RELIANCE, on thirty bars. *)
Lemma volatility_default_on_short_frame_witness :
  In sample_row sample_batch
  /\ (List.length (provider_frame sample_provider (data_symbol sample_row)) < 40)%nat
  /\ (confidence_volatility sample_row == 0.8)%Q.
Proof.
  assert (Hl : (List.length (provider_frame sample_provider (data_symbol sample_row)) < 40)%nat).
  { vm_compute. lia. }
  split; [exact sample_row_in_sample_batch | split; [exact Hl|]].
  exact (volatility_default_on_short_frame sample_now _ sample_provider quiet_news
           "v1.0"%string sample_row sample_row_in_sample_batch Hl).
Defined.

(* ------------------------------------------------------------------ *)
(** ** The explanation text *)

Section Contains.

Local Open Scope string_scope.

Lemma prefix_app (w rest : string) : prefix w (w ++ rest) = true.
Proof.
  induction w as [|a w IH]; simpl.
  - destruct rest; reflexivity.
  - destruct (ascii_dec a a); [exact IH | congruence].
Qed.

Lemma contains_eq (w text : string) :
  Text.contains w text
  = if prefix w text then true
    else match text with
         | EmptyString => false
         | String _ rest => Text.contains w rest
         end.
Proof. destruct text; reflexivity. Qed.

Lemma contains_prefix (w text : string) :
  prefix w text = true -> Text.contains w text = true.
Proof. intros H. rewrite contains_eq, H. reflexivity. Qed.

Lemma contains_cons (w : string) (c : ascii) (text : string) :
  Text.contains w text = true -> Text.contains w (String c text) = true.
Proof.
  intros H. rewrite contains_eq.
  destruct (prefix w (String c text)); [reflexivity | exact H].
Qed.

Lemma contains_app_r (w before text : string) :
  Text.contains w text = true -> Text.contains w (before ++ text) = true.
Proof.
  intros H. induction before as [|c before IH]; simpl append; [exact H|].
  apply contains_cons. exact IH.
Qed.

Lemma prefix_app_l (w text rest : string) :
  prefix w text = true -> prefix w (text ++ rest) = true.
Proof.
  revert text. induction w as [|a w IH]; intros text H.
  - destruct (text ++ rest); reflexivity.
  - destruct text as [|b text]; [discriminate H|]. simpl in *.
    destruct (ascii_dec a b); [now apply IH | discriminate H].
Qed.

Lemma contains_app_l (w text rest : string) :
  Text.contains w text = true -> Text.contains w (text ++ rest) = true.
Proof.
  induction text as [|c text IH]; intros H.
  - rewrite contains_eq in H. destruct w; [|discriminate H].
    apply contains_prefix. destruct ("" ++ rest); reflexivity.
  - change (String c text ++ rest) with (String c (text ++ rest)).
    destruct (prefix w (String c text)) eqn:E.
    + apply contains_prefix.
      change (String c (text ++ rest)) with (String c text ++ rest).
      now apply prefix_app_l.
    + apply contains_cons. apply IH.
      rewrite contains_eq, E in H. exact H.
Qed.

Lemma contains_middle (w before rest : string) :
  Text.contains w (before ++ w ++ rest) = true.
Proof. apply contains_app_r, contains_prefix, prefix_app. Qed.

Lemma join_contains (w sep part : string) (parts : list string) :
  In part parts -> Text.contains w part = true ->
  Text.contains w (Text.join sep parts) = true.
Proof.
  intros Hin Hw. induction parts as [|p parts IH]; [contradiction|].
  destruct Hin as [-> | Hin].
  - destruct parts as [|q parts]; simpl; [exact Hw|].
    now apply contains_app_l.
  - specialize (IH Hin). destruct parts as [|q parts]; [contradiction|].
    change (Text.join sep (p :: q :: parts))
      with (p ++ sep ++ Text.join sep (q :: parts)).
    now apply contains_app_r, contains_app_r.
Qed.

End Contains.

Lemma prefix_refl (w : string) : prefix w w = true.
Proof.
  induction w as [|a w IH]; simpl; [reflexivity|].
  destruct (ascii_dec a a); [exact IH | congruence].
Qed.

Lemma explanation_of_contains act tc vc sc volc overall label regime risk :
  let text := confidence_explanation_of act tc vc sc volc overall label regime risk in
  Text.contains (format_2f overall) text = true
  /\ Text.contains (label_text label) text = true
  /\ (regime <> UNKNOWN ->
      Text.contains (MARKET_REGIME_DESCRIPTIONS regime) text = true).
Proof.
  unfold confidence_explanation_of. cbv zeta.
  set (part1 := match act with LONG_BIAS => _ | SHORT_BIAS => _ | NO_TRADE => _ end).
  set (part2 := ("Trend alignment score is " ++ _)%string).
  set (part3 := ("The overall confidence score is " ++ _)%string).
  set (regime_part := if regime_eqb regime UNKNOWN then _ else _).
  set (risk_part := match risk with EVENT_RISK => _ | BREAKING => _ | NONE => _ end).
  assert (H3 : In part3 ([part1; part2; part3] ++ regime_part ++ risk_part)).
  { simpl. auto. }
  split; [|split].
  - apply (join_contains _ _ part3); [exact H3|].
    subst part3. apply contains_middle.
  - apply (join_contains _ _ part3); [exact H3|].
    subst part3. apply contains_app_r, contains_app_r, contains_middle.
  - intros Hr.
    apply (join_contains _ _ (MARKET_REGIME_DESCRIPTIONS regime)).
    + subst regime_part.
      assert (regime_eqb regime UNKNOWN = false) as ->
        by (destruct regime; try reflexivity; congruence).
      simpl. auto.
    + apply contains_prefix, prefix_refl.
Qed.

(** The explanation of every row of a batch states the score of the row
    with two decimals and its confidence label, and, unless the regime is
    UNKNOWN, carries the canonical description of the regime. *)
Theorem explanation_states_score_and_label now_ist wl mp np sv p :
  In p (generate_predictions_for_watchlist now_ist wl mp np sv) ->
  Text.contains (format_2f (confidence_score p)) (confidence_explanation p) = true
  /\ Text.contains (label_text (confidence_level_label p))
       (confidence_explanation p) = true
  /\ (market_regime p <> UNKNOWN ->
      Text.contains (MARKET_REGIME_DESCRIPTIONS (market_regime p))
        (confidence_explanation p) = true).
Proof.
  intros Hin.
  destruct (generated_row_scores _ _ _ _ _ _ Hin) as (vl & _ & Hs).
  cbv zeta in Hs. destruct Hs as (_ & Hsc & Hl & _ & _ & _ & _ & Hex).
  rewrite Hsc, Hl, Hex. apply explanation_of_contains.
Qed.

(** The explanation of the 10:05 row of RELIANCE states 0.49. *)
Lemma explanation_states_score_and_label_witness :
  In sample_row sample_batch
  /\ Text.contains (format_2f (confidence_score sample_row))
       (confidence_explanation sample_row) = true.
Proof.
  split; [exact sample_row_in_sample_batch|].
  exact (proj1 (explanation_states_score_and_label sample_now _ sample_provider
                  quiet_news "v1.0"%string sample_row
                  sample_row_in_sample_batch)).
Defined.

(* ------------------------------------------------------------------ *)
(** ** Sentiment classifier *)

Lemma fold_max_abs_ge (xs : list Z) : forall m,
  m <= fold_left (fun m s => Z.max m (Z.abs s)) xs m.
Proof.
  induction xs as [|x xs IH]; intros m; simpl; [lia|].
  specialize (IH (Z.max m (Z.abs x))). lia.
Qed.

Lemma fold_max_abs_bound (xs : list Z) : forall m x,
  In x xs -> Z.abs x <= fold_left (fun m s => Z.max m (Z.abs s)) xs m.
Proof.
  induction xs as [|y xs IH]; intros m x Hin; simpl; [contradiction|].
  destruct Hin as [-> | Hin].
  - pose proof (fold_max_abs_ge xs (Z.max m (Z.abs x))). lia.
  - now apply IH.
Qed.

Lemma fold_add_shift (xs : list Z) : forall a,
  fold_left Z.add xs a = a + fold_left Z.add xs 0.
Proof.
  induction xs as [|x xs IH]; intros a; simpl; [lia|].
  rewrite (IH (a + x)), (IH x). lia.
Qed.

Lemma sum_abs_bound (M : Z) (xs : list Z) :
  (forall x, In x xs -> Z.abs x <= M) ->
  Z.abs (fold_left Z.add xs 0) <= Z.of_nat (List.length xs) * M.
Proof.
  induction xs as [|x xs IH]; intros H.
  - simpl. lia.
  - cbn [fold_left List.length]. rewrite fold_add_shift.
    assert (Hx : Z.abs x <= M) by (apply H; left; reflexivity).
    assert (Hxs : Z.abs (fold_left Z.add xs 0) <= Z.of_nat (List.length xs) * M).
    { apply IH. intros y Hy. apply H. right. exact Hy. }
    lia.
Qed.

Lemma normalized_mean_range (xs : list Z) :
  xs <> [] ->
  (-1 <= mean_Z xs / inject_Z (max_abs_score xs) <= 1)%Q.
Proof.
  intros Hne. unfold mean_Z, max_abs_score.
  set (S := fold_left Z.add xs 0).
  set (M := fold_left (fun m s => Z.max m (Z.abs s)) xs 1).
  set (n := Z.of_nat (List.length xs)).
  assert (HM : 1 <= M) by apply fold_max_abs_ge.
  assert (Hn : 1 <= n) by (subst n; destruct xs; [congruence | simpl; lia]).
  assert (HS : Z.abs S <= n * M).
  { apply sum_abs_bound. intros x Hx. now apply fold_max_abs_bound. }
  assert (HMq : (0 < inject_Z M)%Q)
    by (change 0%Q with (inject_Z 0); rewrite <- Zlt_Qlt; lia).
  assert (Hnq : (0 < inject_Z n)%Q)
    by (change 0%Q with (inject_Z 0); rewrite <- Zlt_Qlt; lia).
  split.
  - apply Qle_shift_div_l; [exact HMq|]. apply Qle_shift_div_l; [exact Hnq|].
    change (-1)%Q with (inject_Z (-1)). rewrite <- !inject_Z_mult, <- Zle_Qle. lia.
  - apply Qle_shift_div_r; [exact HMq|]. apply Qle_shift_div_r; [exact Hnq|].
    change 1%Q with (inject_Z 1). rewrite <- !inject_Z_mult, <- Zle_Qle. lia.
Qed.

Ltac iff_by_lra :=
  split; intros ?HH; first [discriminate HH | reflexivity | lra].

(** The sentiment score of every headline list lies in [-1, 1], and the
    label reads the score: POSITIVE exactly above 0.2, NEGATIVE exactly below
    -0.2, NEUTRAL in between. *)
Theorem sentiment_score_range (headlines : list Headline) :
  let score := fst (fst (simple_sentiment_from_headlines headlines)) in
  let label := snd (fst (simple_sentiment_from_headlines headlines)) in
  (-1 <= score <= 1)%Q
  /\ (label = POSITIVE <-> (0.2 < score)%Q)
  /\ (label = NEGATIVE <-> (score < -0.2)%Q)
  /\ (label = NEUTRAL <-> (-0.2 <= score <= 0.2)%Q).
Proof.
  destruct headlines as [|h hs].
  - cbv zeta. cbn [simple_sentiment_from_headlines fst snd].
    split; [lra|]. split; [|split]; iff_by_lra.
  - unfold simple_sentiment_from_headlines.
    set (scores := map headline_score (h :: hs)).
    assert (Hne : scores <> []) by (subst scores; simpl; congruence).
    destruct scores as [|s0 rest] eqn:Es; [congruence|]. rewrite <- Es in *.
    cbv zeta. cbn [fst snd].
    set (x := (mean_Z scores / inject_Z (max_abs_score scores))%Q).
    pose proof (normalized_mean_range scores Hne) as Hr. fold x in Hr.
    unfold Num.Qltb.
    split; [exact Hr|].
    destruct (Qle_bool x 0.2) eqn:E1; simpl.
    + apply Qle_bool_iff in E1.
      destruct (Qle_bool (- 0.2) x) eqn:E2; simpl.
      * apply Qle_bool_iff in E2. split; [|split]; iff_by_lra.
      * assert (E2' : ~ (- 0.2 <= x)%Q) by (intros H; apply Qle_bool_iff in H; congruence).
        split; [|split]; iff_by_lra.
    + assert (E1' : ~ (x <= 0.2)%Q) by (intros H; apply Qle_bool_iff in H; congruence).
      split; [|split]; iff_by_lra.
Qed.

Lemma sentiment_score_range_aux (headlines : list Headline) :
  let score := fst (fst (simple_sentiment_from_headlines headlines)) in
  let label := snd (fst (simple_sentiment_from_headlines headlines)) in
  (label = POSITIVE -> (0.2 < score)%Q) /\ (label = NEGATIVE -> (score < -0.2)%Q).
Proof.
  cbv zeta. destruct headlines as [|h hs].
  - cbn [simple_sentiment_from_headlines fst snd]. split; discriminate.
  - unfold simple_sentiment_from_headlines.
    destruct (map headline_score (h :: hs)) as [|s0 rest] eqn:Es;
      [simpl in Es; discriminate Es|].
    rewrite <- Es. cbv zeta. cbn [fst snd].
    set (x := (mean_Z _ / inject_Z _)%Q).
    unfold Num.Qltb.
    destruct (Qle_bool x 0.2) eqn:E1; simpl.
    + destruct (Qle_bool (- 0.2) x) eqn:E2; simpl; split; try discriminate.
      intros _.
      assert (E2' : ~ (- 0.2 <= x)%Q) by (intros H; apply Qle_bool_iff in H; congruence).
      lra.
    + split; [|discriminate]. intros _.
      assert (E1' : ~ (x <= 0.2)%Q) by (intros H; apply Qle_bool_iff in H; congruence).
      lra.
Qed.

Lemma fold_hits_ge (text : string) (ws : list string) : forall acc,
  acc <= fold_left (fun acc w => if Text.contains w text then acc + 1 else acc) ws acc.
Proof.
  induction ws as [|w ws IH]; intros acc; simpl; [lia|].
  destruct (Text.contains w text); [specialize (IH (acc + 1)); lia | apply IH].
Qed.

Lemma fold_hits_none (text : string) (ws : list string) : forall acc,
  any_keyword ws text = false ->
  fold_left (fun acc w => if Text.contains w text then acc + 1 else acc) ws acc = acc.
Proof.
  unfold any_keyword.
  induction ws as [|w ws IH]; intros acc H; simpl in *; [reflexivity|].
  apply orb_false_iff in H. destruct H as [-> H]. now apply IH.
Qed.

Lemma headline_score_nonneg (h : Headline) :
  mentions NEGATIVE_WORDS h = false -> 0 <= headline_score h.
Proof.
  unfold mentions, headline_score, count_hits. intros H. cbv zeta.
  rewrite (fold_hits_none _ NEGATIVE_WORDS 0 H).
  pose proof (fold_hits_ge (headline_text h) POSITIVE_WORDS 0). lia.
Qed.

Lemma headline_score_nonpos (h : Headline) :
  mentions POSITIVE_WORDS h = false -> headline_score h <= 0.
Proof.
  unfold mentions, headline_score, count_hits. intros H. cbv zeta.
  rewrite (fold_hits_none _ POSITIVE_WORDS 0 H).
  pose proof (fold_hits_ge (headline_text h) NEGATIVE_WORDS 0). lia.
Qed.

Lemma sum_nonneg (xs : list Z) :
  Forall (fun x => 0 <= x) xs -> 0 <= fold_left Z.add xs 0.
Proof.
  induction 1 as [|x xs Hx Hxs IH]; simpl; [lia|].
  rewrite fold_add_shift. lia.
Qed.

Lemma sum_nonpos (xs : list Z) :
  Forall (fun x => x <= 0) xs -> fold_left Z.add xs 0 <= 0.
Proof.
  induction 1 as [|x xs Hx Hxs IH]; simpl; [lia|].
  rewrite fold_add_shift. lia.
Qed.

Lemma normalized_mean_sign (xs : list Z) :
  xs <> [] ->
  (Forall (fun x => 0 <= x) xs -> (0 <= mean_Z xs / inject_Z (max_abs_score xs))%Q)
  /\ (Forall (fun x => x <= 0) xs -> (mean_Z xs / inject_Z (max_abs_score xs) <= 0)%Q).
Proof.
  intros Hne. unfold mean_Z, max_abs_score.
  set (S := fold_left Z.add xs 0).
  set (M := fold_left (fun m s => Z.max m (Z.abs s)) xs 1).
  set (n := Z.of_nat (List.length xs)).
  assert (HM : 1 <= M) by apply fold_max_abs_ge.
  assert (Hn : 1 <= n) by (subst n; destruct xs; [congruence | simpl; lia]).
  assert (HMq : (0 < inject_Z M)%Q)
    by (change 0%Q with (inject_Z 0); rewrite <- Zlt_Qlt; lia).
  assert (Hnq : (0 < inject_Z n)%Q)
    by (change 0%Q with (inject_Z 0); rewrite <- Zlt_Qlt; lia).
  split; intros H.
  - apply Qle_shift_div_l; [exact HMq|]. apply Qle_shift_div_l; [exact Hnq|].
    pose proof (sum_nonneg xs H) as HS. fold S in HS.
    rewrite Zle_Qle in HS. change (inject_Z 0) with 0%Q in HS. lra.
  - apply Qle_shift_div_r; [exact HMq|]. apply Qle_shift_div_r; [exact Hnq|].
    pose proof (sum_nonpos xs H) as HS. fold S in HS.
    rewrite Zle_Qle in HS. change (inject_Z 0) with 0%Q in HS. lra.
Qed.

(** Headlines none of which holds a negative keyword get a score of at
    least 0 and are never labelled NEGATIVE; headlines none of which holds a
    positive keyword get a score of at most 0 and are never labelled
    POSITIVE. *)
Theorem sentiment_follows_keywords (headlines : list Headline) :
  let score := fst (fst (simple_sentiment_from_headlines headlines)) in
  let label := snd (fst (simple_sentiment_from_headlines headlines)) in
  (Forall (fun h => mentions NEGATIVE_WORDS h = false) headlines ->
   (0 <= score)%Q /\ label <> NEGATIVE)
  /\ (Forall (fun h => mentions POSITIVE_WORDS h = false) headlines ->
      (score <= 0)%Q /\ label <> POSITIVE).
Proof.
  cbv zeta.
  pose proof (sentiment_score_range_aux headlines) as (Hpos & Hneg).
  destruct headlines as [|h hs].
  - cbn [simple_sentiment_from_headlines fst snd].
    split; intros _; split; try lra; discriminate.
  - assert (Hs : fst (fst (simple_sentiment_from_headlines (h :: hs)))
                 = (mean_Z (map headline_score (h :: hs))
                    / inject_Z (max_abs_score (map headline_score (h :: hs))))%Q)
      by reflexivity.
    destruct (normalized_mean_sign (map headline_score (h :: hs))) as [Hp Hn];
      [simpl; congruence|].
    split; intros H.
    + assert (H0 : (0 <= fst (fst (simple_sentiment_from_headlines (h :: hs))))%Q).
      { rewrite Hs. apply Hp. apply Forall_map.
        eapply Forall_impl; [|exact H]. apply headline_score_nonneg. }
      split; [exact H0|]. intros Hl. apply Hneg in Hl. lra.
    + assert (H0 : (fst (fst (simple_sentiment_from_headlines (h :: hs))) <= 0)%Q).
      { rewrite Hs. apply Hn. apply Forall_map.
        eapply Forall_impl; [|exact H]. apply headline_score_nonpos. }
      split; [exact H0|]. intros Hl. apply Hpos in Hl. lra.
Qed.

(** The good headline holds no negative keyword. *)
Lemma sentiment_follows_keywords_witness :
  Forall (fun h => mentions NEGATIVE_WORDS h = false) [good_headline]
  /\ snd (fst (simple_sentiment_from_headlines [good_headline])) <> NEGATIVE.
Proof.
  assert (H : Forall (fun h => mentions NEGATIVE_WORDS h = false) [good_headline]).
  { constructor; [vm_compute; reflexivity | constructor]. }
  split; [exact H|].
  exact (proj2 (proj1 (sentiment_follows_keywords [good_headline]) H)).
Defined.

(** *** News risk *)

Lemma determine_news_risk_eq (headlines : list Headline) :
  determine_news_risk headlines
  = if existsb (mentions BREAKING_KEYWORDS) headlines then BREAKING
    else if existsb (mentions EVENT_KEYWORDS) headlines then EVENT_RISK
    else NONE.
Proof. destruct headlines; reflexivity. Qed.

(** The risk flag of a headline list is BREAKING exactly when some headline
    holds a breaking keyword, EVENT_RISK exactly when none does and some
    headline holds an event keyword, and NONE otherwise; so the flag of two
    lists put together is the higher of their flags, in the order NONE,
    EVENT_RISK, BREAKING, whatever the order of the headlines. *)
Theorem news_risk_composition :
  (forall headlines,
      (determine_news_risk headlines = BREAKING
       <-> exists h, In h headlines /\ mentions BREAKING_KEYWORDS h = true)
      /\ (determine_news_risk headlines = EVENT_RISK
          <-> (exists h, In h headlines /\ mentions EVENT_KEYWORDS h = true)
              /\ ~ exists h, In h headlines /\ mentions BREAKING_KEYWORDS h = true))
  /\ (forall a b,
        determine_news_risk (a ++ b)
        = risk_max (determine_news_risk a) (determine_news_risk b))
  /\ (forall a b, determine_news_risk (a ++ b) = determine_news_risk (b ++ a)).
Proof.
  assert (Happ : forall a b,
             determine_news_risk (a ++ b)
             = risk_max (determine_news_risk a) (determine_news_risk b)).
  { intros a b. rewrite !determine_news_risk_eq, !existsb_app.
    destruct (existsb (mentions BREAKING_KEYWORDS) a),
      (existsb (mentions BREAKING_KEYWORDS) b),
      (existsb (mentions EVENT_KEYWORDS) a),
      (existsb (mentions EVENT_KEYWORDS) b); reflexivity. }
  split; [|split].
  - intros headlines. rewrite determine_news_risk_eq.
    rewrite <- !existsb_exists.
    destruct (existsb (mentions BREAKING_KEYWORDS) headlines),
      (existsb (mentions EVENT_KEYWORDS) headlines);
      repeat split; try congruence; try tauto; intros H; try discriminate H;
      try (destruct H as [H1 H2]; congruence).
  - exact Happ.
  - intros a b. rewrite !Happ.
    destruct (determine_news_risk a), (determine_news_risk b); reflexivity.
Qed.

(* ------------------------------------------------------------------ *)
(** ** Time buckets *)

Lemma zfill_2 (n : Z) :
  Text.zfill 2 n
  = String (Text.digit_char (n / 10)) (String (Text.digit_char n) EmptyString).
Proof. reflexivity. Qed.

Lemma digit_char_inj (a b : Z) :
  Text.digit_char a = Text.digit_char b -> a mod 10 = b mod 10.
Proof.
  unfold Text.digit_char. intros H.
  pose proof (Z.mod_pos_bound a 10 ltac:(lia)) as Ha.
  pose proof (Z.mod_pos_bound b 10 ltac:(lia)) as Hb.
  apply (f_equal nat_of_ascii) in H.
  rewrite !nat_ascii_embedding in H by lia. lia.
Qed.

Lemma zfill_2_inj (a b : Z) :
  0 <= a < 100 -> 0 <= b < 100 -> Text.zfill 2 a = Text.zfill 2 b -> a = b.
Proof.
  intros Ha Hb H. rewrite !zfill_2 in H. injection H as H1 H2.
  apply digit_char_inj in H1, H2.
  pose proof (Z.div_mod a 10 ltac:(lia)) as Da.
  pose proof (Z.div_mod b 10 ltac:(lia)) as Db.
  pose proof (Z.mod_pos_bound a 10 ltac:(lia)).
  pose proof (Z.mod_pos_bound b 10 ltac:(lia)).
  assert (Hqa : 0 <= a / 10 < 10) by (split; [apply Z.div_pos; lia | apply Z.div_lt_upper_bound; lia]).
  assert (Hqb : 0 <= b / 10 < 10) by (split; [apply Z.div_pos; lia | apply Z.div_lt_upper_bound; lia]).
  rewrite (Z.mod_small (a / 10)) in H1 by exact Hqa.
  rewrite (Z.mod_small (b / 10)) in H1 by exact Hqb.
  lia.
Qed.

Lemma floor_minute_bounds (m minutes : Z) :
  0 <= m < 60 -> 0 < minutes ->
  0 <= m / minutes * minutes <= m /\ m < m / minutes * minutes + minutes.
Proof.
  intros Hm Hpos.
  pose proof (Z.div_mod m minutes ltac:(lia)) as D.
  pose proof (Z.mod_pos_bound m minutes Hpos) as B.
  assert (0 <= m / minutes) by (apply Z.div_pos; lia).
  nia.
Qed.

(** Two evaluation times get the same time bucket exactly when they fall
    in the same hour and the same window of [minutes] minutes; the bucket
    starts at or before the time and less than [minutes] minutes before it. *)
Theorem same_bucket_iff (dt1 dt2 : datetime) (minutes : Z) :
  valid_time (clock dt1) -> valid_time (clock dt2) -> 0 < minutes ->
  (floor_time_to_bucket dt1 minutes = floor_time_to_bucket dt2 minutes
   <-> hour (clock dt1) = hour (clock dt2)
       /\ minute (clock dt1) / minutes = minute (clock dt2) / minutes)
  /\ (let start := minute (clock dt1) / minutes * minutes in
      floor_time_to_bucket dt1 minutes
      = (Text.zfill 2 (hour (clock dt1)) ++ ":" ++ Text.zfill 2 start)%string
      /\ start <= minute (clock dt1) < start + minutes).
Proof.
  intros (Hh1 & Hm1 & _) (Hh2 & Hm2 & _) Hpos.
  destruct (floor_minute_bounds _ _ Hm1 Hpos) as [B1 B1'].
  destruct (floor_minute_bounds _ _ Hm2 Hpos) as [B2 B2'].
  split.
  - unfold floor_time_to_bucket. cbv zeta. split.
    + intros H. rewrite !zfill_2 in H. simpl in H.
      injection H as E1 E2 E3 E4.
      assert (Hhour : hour (clock dt1) = hour (clock dt2)).
      { apply zfill_2_inj; [lia | lia |]. rewrite !zfill_2. congruence. }
      assert (Hmin : minute (clock dt1) / minutes * minutes
                     = minute (clock dt2) / minutes * minutes).
      { apply zfill_2_inj; [lia | lia |]. rewrite !zfill_2. congruence. }
      split; [exact Hhour|]. nia.
    + intros [-> ->]. reflexivity.
  - cbv zeta. split; [reflexivity | lia].
Qed.

(** 10:01 and 10:05 fall in the same quarter of an hour. *)
Lemma same_bucket_iff_witness :
  valid_time (clock early_now) /\ valid_time (clock sample_now)
  /\ floor_time_to_bucket early_now 15 = floor_time_to_bucket sample_now 15.
Proof.
  assert (H1 : valid_time (clock early_now)) by (unfold valid_time; simpl; lia).
  assert (H2 : valid_time (clock sample_now)) by (unfold valid_time; simpl; lia).
  split; [exact H1 | split; [exact H2|]].
  apply (proj1 (same_bucket_iff early_now sample_now 15 H1 H2 ltac:(lia))).
  split; reflexivity.
Defined.

(* ------------------------------------------------------------------ *)
(** ** More on the journal *)

Lemma keys_upsert_row_iff (l : JournalDf) (r : Prediction) (k : Key) :
  In k (keys (upsert_row l r)) <-> In k (keys l) \/ k = key_of r.
Proof.
  rewrite keys_upsert_row. destruct (existsb (key_mask r) l) eqn:E.
  - apply existsb_key_mask in E. split; [tauto|]. intros [H | ->]; assumption.
  - rewrite in_app_iff. simpl. intuition.
Qed.

Lemma keys_fold_upsert_iff (batch : list Prediction) : forall l k,
  In k (keys (fold_left upsert_row batch l)) <-> In k (keys l) \/ In k (keys batch).
Proof.
  induction batch as [|r batch IH]; intros l k; simpl.
  - tauto.
  - rewrite IH, keys_upsert_row_iff. intuition.
Qed.

Lemma keys_drop_duplicates_iff (l : JournalDf) (k : Key) :
  In k (keys (drop_duplicates l)) <-> In k (keys l).
Proof.
  induction l as [|j l IH]; simpl; [tauto|].
  destruct (existsb (key_mask j) l) eqn:E; simpl; rewrite IH.
  - apply existsb_key_mask in E. split; [tauto|]. intros [<- | H]; assumption.
  - tauto.
Qed.

Lemma overwrite_first_incl (r j : Prediction) (l : JournalDf) :
  In j (overwrite_first r l) -> In j l \/ j = r.
Proof.
  induction l as [|x l IH]; simpl; [tauto|].
  destruct (key_mask r x); simpl; intuition.
Qed.

Lemma upsert_row_incl (l : JournalDf) (r j : Prediction) :
  In j (upsert_row l r) -> In j l \/ j = r.
Proof.
  unfold upsert_row. destruct (existsb (key_mask r) l).
  - apply overwrite_first_incl.
  - rewrite in_app_iff. simpl. intuition.
Qed.

Lemma fold_upsert_incl (batch : list Prediction) : forall l j,
  In j (fold_left upsert_row batch l) -> In j l \/ In j batch.
Proof.
  induction batch as [|r batch IH]; intros l j H; simpl in *; [tauto|].
  apply IH in H. destruct H as [H | H]; [|tauto].
  apply upsert_row_incl in H. intuition.
Qed.

(** Whatever rows the journal file holds, a non-empty upsert leaves a
    journal with one row per key, whose keys are exactly the keys stored
    before together with the keys of the batch, and whose rows all come from
    the file or from the batch. *)
Theorem upsert_keeps_every_key (batch : list Prediction) (stored : JournalDf) :
  batch <> [] ->
  let after := upsert_predictions batch stored in
  unique_keys after
  /\ (forall k, In k (keys after) <-> In k (keys stored) \/ In k (keys batch))
  /\ (forall j, In j after -> In j stored \/ In j batch).
Proof.
  intros Hne. cbv zeta. unfold upsert_predictions.
  destruct batch as [|r batch]; [congruence|].
  split; [apply unique_keys_drop_duplicates | split].
  - intros k. rewrite keys_drop_duplicates_iff. apply keys_fold_upsert_iff.
  - intros j Hj. apply drop_duplicates_incl in Hj. now apply fold_upsert_incl.
Qed.

(** The re-evaluation upserted into the journal file with a duplicated key. *)
Lemma upsert_keeps_every_key_witness :
  [row_neutral] <> []
  /\ unique_keys (upsert_predictions [row_neutral] duplicated_store).
Proof.
  assert (H : [row_neutral] <> []) by discriminate.
  split; [exact H|].
  exact (proj1 (upsert_keeps_every_key [row_neutral] duplicated_store H)).
Defined.

(** In a journal with one row per key, after an upsert each key holds the
    last row of the batch written under it, and a key the batch does not
    write holds the row it held before. *)
Theorem upsert_last_write_wins (batch : list Prediction) (stored : JournalDf)
  (k : Prediction) :
  unique_keys stored ->
  lookup k (upsert_predictions batch stored)
  = match last_write k batch with
    | Some row => Some row
    | None => lookup k stored
    end.
Proof.
  intros Hu. rewrite (upsert_predictions_unique batch stored Hu).
  apply lookup_fold_upsert.
Qed.

(** Two writes under the key of the stored row: the second one stays. *)
Lemma upsert_last_write_wins_witness :
  unique_keys [sample_row]
  /\ lookup sample_row (upsert_predictions [row_bearish; row_neutral] [sample_row])
     = Some row_neutral.
Proof.
  split; [exact (unique_keys_one sample_row)|].
  rewrite (upsert_last_write_wins [row_bearish; row_neutral] [sample_row]
             sample_row (unique_keys_one sample_row)).
  vm_compute. reflexivity.
Defined.

(** On a journal with one row per key, upserting two batches one after the
    other is upserting their concatenation. *)
Theorem upsert_batches_compose (b1 b2 : list Prediction) (stored : JournalDf) :
  unique_keys stored ->
  upsert_predictions b2 (upsert_predictions b1 stored)
  = upsert_predictions (b1 ++ b2) stored.
Proof.
  intros Hu.
  rewrite (upsert_predictions_unique b1 stored Hu).
  rewrite (upsert_predictions_unique b2 _ (unique_keys_fold_upsert b1 stored Hu)).
  rewrite (upsert_predictions_unique (b1 ++ b2) stored Hu).
  rewrite fold_left_app. reflexivity.
Qed.

(** The two cycles of the 10:00 bucket as one batch. *)
Lemma upsert_batches_compose_witness :
  unique_keys []
  /\ upsert_predictions sample_batch (upsert_predictions early_batch [])
     = upsert_predictions (early_batch ++ sample_batch) [].
Proof.
  assert (H : unique_keys []) by constructor.
  split; [exact H|].
  exact (upsert_batches_compose early_batch sample_batch [] H).
Defined.

Lemma keys_fold_upsert_extend (batch : list Prediction) : forall l,
  exists added,
    keys (fold_left upsert_row batch l) = keys l ++ added
    /\ forall k, In k added -> In k (keys batch) /\ ~ In k (keys l).
Proof.
  induction batch as [|r batch IH]; intros l; simpl.
  - exists []. split; [now rewrite app_nil_r | intros k []].
  - destruct (IH (upsert_row l r)) as (added & Hk & Hadd).
    rewrite keys_upsert_row in Hk, Hadd.
    destruct (existsb (key_mask r) l) eqn:E.
    + exists added. split; [exact Hk|].
      intros k Hin. destruct (Hadd k Hin) as [H1 H2]. split; [right; exact H1 | exact H2].
    + exists (key_of r :: added). split.
      * rewrite Hk, <- app_assoc. reflexivity.
      * apply existsb_key_mask_false in E.
        intros k [<- | Hin]; [split; [left; reflexivity | exact E]|].
        destruct (Hadd k Hin) as [H1 H2]. split; [right; exact H1|].
        intros Hl. apply H2. apply in_or_app. left. exact Hl.
Qed.

(** On a journal with one row per key an upsert leaves the stored keys in
    their places and order, and puts the keys that are new after them. *)
Theorem upsert_keeps_key_order (batch : list Prediction) (stored : JournalDf) :
  unique_keys stored ->
  exists added,
    keys (upsert_predictions batch stored) = keys stored ++ added
    /\ forall k, In k added -> In k (keys batch) /\ ~ In k (keys stored).
Proof.
  intros Hu. rewrite (upsert_predictions_unique batch stored Hu).
  apply keys_fold_upsert_extend.
Qed.

(** The 10:01 row of TCS upserted after the 10:05 row of RELIANCE. *)
Lemma upsert_keeps_key_order_witness :
  unique_keys [sample_row]
  /\ exists added,
       keys (upsert_predictions early_batch [sample_row])
       = keys [sample_row] ++ added.
Proof.
  split; [exact (unique_keys_one sample_row)|].
  destruct (upsert_keeps_key_order early_batch [sample_row]
              (unique_keys_one sample_row)) as (added & H & _).
  exists added. exact H.
Defined.

(* ------------------------------------------------------------------ *)
(** ** More on the market regime *)

Lemma compute_market_regime_long series :
  (30 <= List.length series)%nat -> compute_market_regime series <> UNKNOWN.
Proof.
  intros Hlen. unfold compute_market_regime.
  destruct series as [|b0 series0] eqn:Es; [simpl in Hlen; lia|].
  rewrite <- Es in *. clear Es b0 series0.
  destruct (Nat.ltb_spec (List.length series) 30) as [|_]; [lia|].
  simpl orb. cbv iota.
  pose proof (sort_index_length series) as Hsl.
  destruct (sort_index series) as [|b df]; [simpl in Hsl; lia|].
  cbn [map]. cbv zeta.
  match goal with
  | |- (if ?c1 then _ else if ?c2 then _ else if ?c3 then _ else _) <> _ =>
      destruct c1; [discriminate|]; destruct c2; [discriminate|];
      destruct c3; discriminate
  end.
Qed.

(** The regime is UNKNOWN exactly when the benchmark frame has fewer than
    30 rows; from 30 rows on it is one of TREND_DAY, RANGE_DAY,
    HIGH_VOLATILITY and LOW_VOLATILITY. *)
Theorem regime_unknown_iff_short (series : list Bar) :
  compute_market_regime series = UNKNOWN <-> (List.length series < 30)%nat.
Proof.
  split.
  - intros H. destruct (Nat.lt_ge_cases (List.length series) 30) as [Hlt | Hge];
      [exact Hlt|].
    exfalso. exact (compute_market_regime_long series Hge H).
  - apply compute_market_regime_short.
Qed.

(** *** A flat benchmark *)

Lemma Qltb_irrefl (c : Q) : Num.Qltb c c = false.
Proof.
  unfold Num.Qltb.
  assert (Qle_bool c c = true) as -> by (apply Qle_bool_iff; apply Qle_refl).
  reflexivity.
Qed.

Lemma list_max_flat (c : Q) (cs : list Q) :
  Forall (eq c) cs -> list_max (c :: cs) c = c.
Proof.
  unfold list_max. simpl. rewrite Qltb_irrefl.
  induction 1 as [|x cs <- _ IH]; simpl; [reflexivity|].
  rewrite Qltb_irrefl. exact IH.
Qed.

Lemma list_min_flat (c : Q) (cs : list Q) :
  Forall (eq c) cs -> list_min (c :: cs) c = c.
Proof.
  unfold list_min. simpl. rewrite Qltb_irrefl.
  induction 1 as [|x cs <- _ IH]; simpl; [reflexivity|].
  rewrite Qltb_irrefl. exact IH.
Qed.

Lemma Qred_zero (x : Q) : (x == 0)%Q -> Qred x = 0%Q.
Proof. intros H. rewrite (Qred_complete x 0 H). reflexivity. Qed.

Lemma pct_pairs_flat (c : Q) (cs : list Q) :
  Forall (eq c) cs ->
  Num.dropna (Num.pct_pairs c cs)
  = if Num.Qeqb c 0 then [] else map Num.Fin (repeat 0%Q (List.length cs)).
Proof.
  unfold Num.dropna.
  induction 1 as [|x cs <- _ IH].
  - destruct (Num.Qeqb c 0); reflexivity.
  - cbn [Num.pct_pairs List.length repeat map]. unfold Num.pct_of.
    destruct (Num.Qeqb c 0) eqn:E; cbn [filter].
    + exact IH.
    + rewrite IH. f_equal. f_equal. apply Qred_zero.
      unfold Num.Qeqb in E. apply Qeq_bool_neq in E. field. exact E.
Qed.

Lemma sum_zero (xs : list Q) :
  Forall (fun x => x == 0)%Q xs -> Num.sum xs = 0%Q.
Proof.
  unfold Num.sum. induction 1 as [|x xs Hx _ IH]; cbn [fold_left]; [reflexivity|].
  rewrite (Qred_zero (0 + x)); [exact IH | rewrite Hx; reflexivity].
Qed.

Lemma sample_variance_zeros (k : nat) :
  (Num.sample_variance (repeat 0%Q k) == 0)%Q.
Proof.
  unfold Num.sample_variance, Num.mean.
  rewrite (sum_zero (repeat 0%Q k)).
  - rewrite sum_zero.
    + unfold Qdiv. rewrite Qmult_0_l. reflexivity.
    + apply Forall_map. apply Forall_forall. intros x Hx.
      apply repeat_spec in Hx. subst x. unfold Qdiv. rewrite Qmult_0_l. reflexivity.
  - apply Forall_forall. intros x Hx. apply repeat_spec in Hx. subst x. reflexivity.
Qed.

Lemma flat_volatility (c : Q) (cs : list Q) :
  Forall (eq c) cs -> (2 <= List.length cs)%nat ->
  exists v,
    match Num.dropna (Num.pct_change (c :: cs)) with
    | [] => Some 0%Q
    | _ :: _ => Num.std_squared (Num.dropna (Num.pct_change (c :: cs)))
    end = Some v
    /\ (v == 0)%Q.
Proof.
  intros Hflat Hlen. unfold Num.pct_change. cbn [Num.dropna filter].
  change (filter _ (Num.pct_pairs c cs)) with (Num.dropna (Num.pct_pairs c cs)).
  rewrite (pct_pairs_flat c cs Hflat).
  destruct (Num.Qeqb c 0).
  - exists 0%Q. split; reflexivity.
  - destruct cs as [|x cs]; [simpl in Hlen; lia|].
    cbn [List.length repeat map].
    change (Num.Fin 0 :: map Num.Fin (repeat 0%Q (List.length cs)))
      with (map Num.Fin (repeat 0%Q (S (List.length cs)))).
    rewrite std_squared_finite by (rewrite repeat_length; simpl in Hlen; lia).
    eexists. split; [reflexivity | apply sample_variance_zeros].
Qed.

(** A benchmark frame of at least 30 rows that all carry the same close is
    classified LOW_VOLATILITY. *)
Theorem flat_benchmark_is_low_volatility (series : list Bar) (c : Q) :
  (30 <= List.length series)%nat ->
  Forall (fun b => c = Close b) series ->
  compute_market_regime series = LOW_VOLATILITY.
Proof.
  intros Hlen Hflat. unfold compute_market_regime.
  destruct series as [|b0 series0] eqn:Es; [simpl in Hlen; lia|].
  rewrite <- Es in *. clear Es b0 series0.
  destruct (Nat.ltb_spec (List.length series) 30) as [|_]; [lia|].
  simpl orb. cbv iota.
  pose proof (sort_index_length series) as Hsl.
  pose proof (sort_index_Forall _ series Hflat) as Hsf.
  destruct (sort_index series) as [|b df]; [simpl in Hsl; lia|].
  inversion Hsf as [|? ? Hb Hdf]; subst.
  cbn [map]. cbv zeta.
  assert (Hcs : Forall (eq (Close b)) (map Close df)).
  { apply Forall_map. exact Hdf. }
  rewrite (list_max_flat _ _ Hcs), (list_min_flat _ _ Hcs).
  assert (Hrange : Num.Qeqb (Close b - Close b) 0 = true).
  { unfold Num.Qeqb. apply Qeq_bool_iff. ring. }
  rewrite Hrange.
  destruct (flat_volatility (Close b) (map Close df) Hcs) as (v & -> & Hv).
  { rewrite length_map. simpl in Hsl. lia. }
  assert (Hgeb : Num.std_geb (Some v) 0.004 = false).
  { unfold Num.std_geb, Num.Qleb. destruct (Qle_bool _ v) eqn:E; [|reflexivity].
    apply Qle_bool_iff in E. lra. }
  assert (Hleb : Num.std_leb (Some v) 0.0015 = true).
  { unfold Num.std_leb, Num.Qleb. apply Qle_bool_iff. lra. }
  rewrite Hgeb, Hleb. reflexivity.
Qed.

Lemma flat_bars_flat : Forall (fun b => 22000%Q = Close b) flat_bars.
Proof.
  apply Forall_forall. intros b Hb. unfold flat_bars in Hb.
  apply in_map_iff in Hb. destruct Hb as (i & <- & _). reflexivity.
Defined.

(** Thirty bars at 22000. *)
Lemma flat_benchmark_is_low_volatility_witness :
  (30 <= List.length flat_bars)%nat
  /\ Forall (fun b => 22000%Q = Close b) flat_bars
  /\ compute_market_regime flat_bars = LOW_VOLATILITY.
Proof.
  assert (H30 : (30 <= List.length flat_bars)%nat) by (vm_compute; lia).
  split; [exact H30 | split; [exact flat_bars_flat|]].
  exact (flat_benchmark_is_low_volatility flat_bars 22000 H30 flat_bars_flat).
Defined.

(* ------------------------------------------------------------------ *)
(** ** The Yahoo provider's benchmark trend *)

Lemma nifty_trend_short (data : option (list Bar)) :
  match data with
  | Some df => (List.length df < 50)%nat
  | None => True
  end ->
  YahooMarketDataProvider.get_nifty_trend_daily data = N_NEUTRAL.
Proof.
  destruct data as [[|b df]|]; try reflexivity.
  intros H. unfold YahooMarketDataProvider.get_nifty_trend_daily,
    YahooMarketDataProvider.rolling_mean_last.
  cbv zeta. rewrite length_map.
  destruct (Nat.ltb_spec (List.length (b :: df)) 50); [reflexivity | lia].
Qed.

(** While the end-of-day history of the benchmark is missing or has fewer
    than 50 rows, the provider's daily trend is NEUTRAL and no instrument
    gets a signal: every row of every batch is NO_TRADE. *)
Theorem no_signal_without_benchmark_history
  (intraday : string -> option (list Bar)) (nifty_eod : option (list Bar))
  now_ist wl np sv :
  match nifty_eod with
  | Some df => (List.length df < 50)%nat
  | None => True
  end ->
  Forall (fun p => nifty_trend p = N_NEUTRAL /\ prediction_action p = NO_TRADE)
    (generate_predictions_for_watchlist now_ist wl
       (YahooMarketDataProvider.provider intraday nifty_eod) np sv).
Proof.
  intros Hshort. apply Forall_forall. intros p Hin.
  assert (Hn : nifty_trend p = N_NEUTRAL).
  { pose proof (batch_row_cycle_columns _ _ _ _ _ _ Hin) as (_ & _ & Hn & _).
    rewrite Hn. simpl. now apply nifty_trend_short. }
  split; [exact Hn|].
  destruct (generated_row_scores _ _ _ _ _ _ Hin) as (vl & _ & Hs).
  cbv zeta in Hs. destruct Hs as (Ha & _). rewrite Ha, Hn.
  unfold score_instrument. cbn [sc_action]. unfold decide_action.
  destruct (row_actionable p), (price_at_prediction p); reflexivity.
Qed.

(** A cycle at 10:05 with no end-of-day history. *)
Lemma no_signal_without_benchmark_history_witness :
  Forall (fun p => nifty_trend p = N_NEUTRAL /\ prediction_action p = NO_TRADE)
    (generate_predictions_for_watchlist sample_now two_row_watchlist
       (YahooMarketDataProvider.provider (fun _ => Some rising_bars) None)
       quiet_news "v1.0").
Proof.
  exact (no_signal_without_benchmark_history (fun _ => Some rising_bars) None
           sample_now two_row_watchlist quiet_news "v1.0"%string I).
Defined.

(* ------------------------------------------------------------------ *)
(** ** The nightly screener and the watchlist files *)

Lemma run_screener_written lg sort uf eod today files :
  candidates lg uf eod <> [] ->
  NightlyScreener.run_screener lg sort uf eod today files
  = let records := candidates lg uf eod in
    let final_df :=
      map (NightlyScreener.dated today)
        (NightlyScreener.large_df sort records ++ NightlyScreener.mid_df sort records) in
    NightlyScreener.Returned
      (NightlyScreener.mk_files (Some (Watchlist.WithRows final_df))
         (Some (NightlyScreener.drop_duplicates
                  (NightlyScreener.sort_history
                     (match NightlyScreener.watchlist_history_file files with
                      | Some h => h
                      | None => []
                      end ++ final_df))))).
Proof.
  unfold candidates, NightlyScreener.run_screener.
  destruct uf as [[rows|rows]|]; try (intros H; now contradiction H).
  destruct (eod NIFTY_SYMBOL_YF) as [[|b nifty_df]|]; try (intros H; now contradiction H).
  destruct (map fst (filter _ rows)) as [|u us] eqn:Hu;
    [intros H; now contradiction H|].
  destruct (NightlyScreener.screen_rows lg eod _ (u :: us)) as [|c cs] eqn:Hc;
    [intros H; now contradiction H|].
  intros _. reflexivity.
Qed.

Lemma run_screener_untouched lg sort rows eod today files :
  candidates lg (Some (NightlyScreener.WithIsActive rows)) eod = [] ->
  NightlyScreener.run_screener lg sort (Some (NightlyScreener.WithIsActive rows))
    eod today files = NightlyScreener.Returned files.
Proof.
  unfold candidates, NightlyScreener.run_screener.
  destruct (map fst (filter _ rows)) as [|u us] eqn:Hu; [reflexivity|].
  destruct (eod NIFTY_SYMBOL_YF) as [[|b nifty_df]|]; try reflexivity.
  intros ->. reflexivity.
Qed.

Lemma screen_rows_in lg eod nifty_returns universe_df c :
  In c (NightlyScreener.screen_rows lg eod nifty_returns universe_df) <->
  exists row, In row universe_df
              /\ NightlyScreener.screen_row lg eod nifty_returns row = Some c.
Proof.
  induction universe_df as [|row rest IH]; cbn [NightlyScreener.screen_rows In].
  - split; [tauto | intros [row [[] _]]].
  - destruct (NightlyScreener.screen_row lg eod nifty_returns row) as [c'|] eqn:Hrow.
    + cbn [In]. rewrite IH. split.
      * intros [-> | [r [Hin Hr]]]; [exists row; auto | exists r; auto].
      * intros [r [[-> | Hin] Hr]]; [left; congruence | right; exists r; auto].
    + rewrite IH. split.
      * intros [r [Hin Hr]]. exists r; auto.
      * intros [r [[-> | Hin] Hr]]; [congruence | exists r; auto].
Qed.

Lemma filter_all {A} (p : A -> bool) (l : list A) :
  Forall (fun x => p x = true) l -> filter p l = l.
Proof.
  induction 1 as [|x l Hx _ IH]; cbn [filter]; [reflexivity|].
  rewrite Hx, IH. reflexivity.
Qed.

Lemma filter_none {A} (p : A -> bool) (l : list A) :
  Forall (fun x => p x = false) l -> filter p l = [].
Proof.
  induction 1 as [|x l Hx _ IH]; cbn [filter]; [reflexivity|].
  rewrite Hx, IH. reflexivity.
Qed.

Lemma mid_not_large (r : Watchlist.WatchlistRow) :
  mid_bucket r = true -> large_bucket r = false.
Proof.
  unfold mid_bucket, large_bucket. intros H.
  apply String.eqb_eq in H. rewrite H. reflexivity.
Qed.

Lemma large_not_mid (r : Watchlist.WatchlistRow) :
  large_bucket r = true -> mid_bucket r = false.
Proof.
  intros H. destruct (mid_bucket r) eqn:Hm; [|reflexivity].
  apply mid_not_large in Hm. congruence.
Qed.

Lemma in_firstn {A} (n : nat) (l : list A) (x : A) :
  In x (firstn n l) -> In x l.
Proof.
  intros H. rewrite <- (firstn_skipn n l). apply in_or_app. left. exact H.
Qed.

Lemma large_df_in sort records c :
  keeps_rows sort ->
  In c (NightlyScreener.large_df sort records) ->
  In c records /\ NightlyScreener.large_mask c = true.
Proof.
  intros Hs Hin. unfold NightlyScreener.large_df in Hin.
  apply in_firstn in Hin. apply (proj1 (Hs _ _)) in Hin. apply filter_In in Hin. exact Hin.
Qed.

Lemma mid_df_in sort records c :
  keeps_rows sort ->
  In c (NightlyScreener.mid_df sort records) ->
  In c records /\ NightlyScreener.mid_mask c = true.
Proof.
  intros Hs Hin. unfold NightlyScreener.mid_df in Hin.
  apply in_firstn in Hin. apply (proj1 (Hs _ _)) in Hin. apply filter_In in Hin. exact Hin.
Qed.

Lemma dated_large today sort records :
  keeps_rows sort ->
  Forall (fun r => large_bucket r = true)
    (map (NightlyScreener.dated today) (NightlyScreener.large_df sort records)).
Proof.
  intros Hs. apply Forall_map, Forall_forall. intros c Hc.
  apply (large_df_in _ _ _ Hs) in Hc. exact (proj2 Hc).
Qed.

Lemma dated_mid today sort records :
  keeps_rows sort ->
  Forall (fun r => mid_bucket r = true)
    (map (NightlyScreener.dated today) (NightlyScreener.mid_df sort records)).
Proof.
  intros Hs. apply Forall_map, Forall_forall. intros c Hc.
  apply (mid_df_in _ _ _ Hs) in Hc. exact (proj2 Hc).
Qed.

(** When a stock passes the filters, the watchlist the screener writes
    holds the rows of the large-cap buckets (NIFTY50, NIFTY100) first, at
    most 10 of them, then the rows of NIFTY-MIDCAP, at most 5, and nothing
    else. *)
Theorem watchlist_size_and_buckets lg sort uf eod today files :
  keeps_rows sort ->
  candidates lg uf eod <> [] ->
  exists final_df hist_df,
    NightlyScreener.run_screener lg sort uf eod today files
    = NightlyScreener.Returned
        (NightlyScreener.mk_files (Some (Watchlist.WithRows final_df)) (Some hist_df))
    /\ final_df = filter large_bucket final_df ++ filter mid_bucket final_df
    /\ (List.length (filter large_bucket final_df) <= 10)%nat
    /\ (List.length (filter mid_bucket final_df) <= 5)%nat.
Proof.
  intros Hs Hc. rewrite (run_screener_written _ _ _ _ _ _ Hc). cbv zeta.
  eexists. eexists. split; [reflexivity|].
  set (records := candidates lg uf eod).
  pose proof (dated_large today sort records Hs) as HL.
  pose proof (dated_mid today sort records Hs) as HM.
  rewrite map_app, !filter_app.
  rewrite (filter_all large_bucket _ HL).
  rewrite (filter_none large_bucket
             (map (NightlyScreener.dated today) (NightlyScreener.mid_df sort records))).
  2:{ eapply Forall_impl; [|exact HM]. intros r. apply mid_not_large. }
  rewrite (filter_all mid_bucket _ HM).
  rewrite (filter_none mid_bucket
             (map (NightlyScreener.dated today) (NightlyScreener.large_df sort records))).
  2:{ eapply Forall_impl; [|exact HL]. intros r. apply large_not_mid. }
  rewrite app_nil_r. cbn [app]. split; [reflexivity|].
  rewrite !length_map. unfold NightlyScreener.large_df, NightlyScreener.mid_df.
  split; apply firstn_le_length.
Qed.

Lemma date_eqb_refl (d : Config.date) : date_eqb d d = true.
Proof. unfold date_eqb. rewrite !Z.eqb_refl. reflexivity. Qed.

Lemma date_eqb_sym (a b : Config.date) : date_eqb a b = date_eqb b a.
Proof.
  unfold date_eqb.
  rewrite (Z.eqb_sym (d_year a)), (Z.eqb_sym (d_month a)), (Z.eqb_sym (d_day a)).
  reflexivity.
Qed.

(** The watchlist written by a run on [today] is what
    [load_today_watchlist] returns while the IST date is still [today]; on
    every other date, the following day included, it returns no row. *)
Theorem watchlist_usable_on_run_day_only lg sort uf eod today files :
  candidates lg uf eod <> [] ->
  exists final_df hist_df,
    NightlyScreener.run_screener lg sort uf eod today files
    = NightlyScreener.Returned
        (NightlyScreener.mk_files (Some (Watchlist.WithRows final_df)) (Some hist_df))
    /\ forall now_ist,
         Watchlist.load_today_watchlist (Some (Watchlist.WithRows final_df)) now_ist
         = if date_eqb (date_of now_ist) today then final_df else [].
Proof.
  intros Hc. rewrite (run_screener_written _ _ _ _ _ _ Hc). cbv zeta.
  eexists. eexists. split; [reflexivity|].
  intros now_ist.
  unfold Watchlist.load_today_watchlist, Watchlist.load_active_watchlist_for_date.
  cbv zeta.
  destruct (date_eqb (date_of now_ist) today) eqn:Hd.
  - apply filter_all, Forall_map, Forall_forall. intros c _.
    cbn [NightlyScreener.dated Watchlist.usable_for_date].
    rewrite date_eqb_sym. exact Hd.
  - apply filter_none, Forall_map, Forall_forall. intros c _.
    cbn [NightlyScreener.dated Watchlist.usable_for_date].
    rewrite date_eqb_sym. exact Hd.
Qed.

(** *** Beta *)

Lemma sum_acc_const (c : Q) (xs : list Q) (acc : Q) :
  Forall (eq c) xs ->
  (fold_left (fun a x => Qred (a + x)) xs acc
   == acc + inject_Z (Z.of_nat (List.length xs)) * c)%Q.
Proof.
  intros H. revert acc. induction H as [|x xs <- _ IH]; intros acc.
  - cbn [fold_left List.length]. change (inject_Z (Z.of_nat 0)) with 0%Q. ring.
  - cbn [fold_left]. rewrite IH, Qred_correct.
    change (List.length (c :: xs)) with (S (List.length xs)).
    rewrite Nat2Z.inj_succ. unfold Z.succ. rewrite inject_Z_plus.
    change (inject_Z 1) with 1%Q. ring.
Qed.

Lemma mean_const (c : Q) (xs : list Q) :
  xs <> [] -> Forall (eq c) xs -> (Num.mean xs == c)%Q.
Proof.
  intros Hne H. unfold Num.mean, Num.sum. rewrite (sum_acc_const c xs 0 H).
  assert (~ inject_Z (Z.of_nat (List.length xs)) == 0)%Q as Hn.
  { destruct xs as [|x xs]; [congruence|].
    change 0%Q with (inject_Z 0). rewrite inject_Z_injective.
    cbn [List.length]. lia. }
  field. exact Hn.
Qed.

Lemma squares_const (c : Q) (xs : list Q) :
  xs <> [] -> Forall (eq c) xs ->
  Num.sum (map (fun x => (x - Num.mean xs) * (x - Num.mean xs))%Q xs) = 0%Q.
Proof.
  intros Hne H. apply sum_zero, Forall_map.
  pose proof (mean_const c xs Hne H) as Hm.
  eapply Forall_impl; [|exact H]. intros x <-. cbv beta. rewrite Hm. ring.
Qed.

Lemma sample_variance_const (c : Q) (xs : list Q) :
  xs <> [] -> Forall (eq c) xs -> Num.Qeqb (Num.sample_variance xs) 0 = true.
Proof.
  intros Hne H. unfold Num.Qeqb. apply Qeq_bool_iff.
  unfold Num.sample_variance. rewrite (squares_const c xs Hne H).
  unfold Qdiv. apply Qmult_0_l.
Qed.

Lemma np_var_const (c : Q) (xs : list Q) :
  xs <> [] -> Forall (eq c) xs -> Num.Qeqb (NightlyScreener.np_var xs) 0 = true.
Proof.
  intros Hne H. unfold Num.Qeqb. apply Qeq_bool_iff.
  unfold NightlyScreener.np_var. cbv zeta. rewrite (squares_const c xs Hne H).
  unfold Qdiv. apply Qmult_0_l.
Qed.

Lemma finite_rows_some (df : list (Num.pct * Num.pct)) (rows : list (Q * Q)) :
  NightlyScreener.finite_rows df = Some rows ->
  df = map (fun p => (Num.Fin (fst p), Num.Fin (snd p))) rows.
Proof.
  revert rows. induction df as [|[x y] df IH]; intros rows H.
  - cbn in H. injection H as <-. reflexivity.
  - cbn [NightlyScreener.finite_rows] in H.
    destruct x as [x| |]; try discriminate.
    destruct y as [y| |]; try discriminate.
    destruct (NightlyScreener.finite_rows df) as [rows'|]; [|discriminate].
    cbn [option_map] in H. injection H as <-.
    cbn [map fst snd]. rewrite <- (IH rows' eq_refl). reflexivity.
Qed.

(** The beta is [nan] when the benchmark's joined returns all agree. *)
Lemma compute_beta_constant (s m : NightlyScreener.Series) :
  (forall r r', In r (NightlyScreener.dropna_rows (NightlyScreener.inner_join s m)) ->
                In r' (NightlyScreener.dropna_rows (NightlyScreener.inner_join s m)) ->
                snd r = snd r') ->
  NightlyScreener.compute_beta s m = None.
Proof.
  unfold NightlyScreener.compute_beta. cbv zeta.
  destruct (NightlyScreener.dropna_rows (NightlyScreener.inner_join s m))
    as [|r0 df] eqn:Hdf; [reflexivity|].
  intros Hall.
  destruct (NightlyScreener.finite_rows (r0 :: df)) as [rows|] eqn:Hfin; [|reflexivity].
  apply finite_rows_some in Hfin.
  destruct rows as [|[x0 y0] rows]; [discriminate|].
  assert (Forall (eq y0) (map snd ((x0, y0) :: rows))) as Hconst.
  { apply Forall_map, Forall_forall. intros [x y] Hin. cbn [snd].
    assert (In (Num.Fin x, Num.Fin y) (r0 :: df)) as H1.
    { rewrite Hfin. apply (in_map (fun p => (Num.Fin (fst p), Num.Fin (snd p))) _ _ Hin). }
    assert (In (Num.Fin x0, Num.Fin y0) (r0 :: df)) as H0.
    { rewrite Hfin. left. reflexivity. }
    pose proof (Hall _ _ H0 H1) as E. cbn [snd] in E. congruence. }
  assert (map snd ((x0, y0) :: rows) <> []) as Hne by discriminate.
  unfold NightlyScreener.pandas_var.
  destruct (2 <=? List.length (map snd ((x0, y0) :: rows)))%nat.
  - rewrite (sample_variance_const y0 _ Hne Hconst). reflexivity.
  - rewrite (np_var_const y0 _ Hne Hconst). reflexivity.
Qed.

Lemma inner_join_in (s m : NightlyScreener.Series) (x y : Num.pct) :
  In (x, y) (NightlyScreener.inner_join s m) ->
  exists i, In (i, x) s /\ In (i, y) m.
Proof.
  induction s as [|[i x'] s IH]; cbn [NightlyScreener.inner_join]; [intros []|].
  destruct (find (fun jy => (fst jy =? i)%Z) m) as [[j y']|] eqn:Hf.
  - intros [E | Hin].
    + injection E as -> ->. apply find_some in Hf. destruct Hf as [Hin Hj].
      cbn [fst] in Hj. apply Z.eqb_eq in Hj. subst j.
      exists i. split; [left; reflexivity | exact Hin].
    + destruct (IH Hin) as [k [Hs Hm]]. exists k. split; [right; exact Hs | exact Hm].
  - intros Hin. destruct (IH Hin) as [k [Hs Hm]].
    exists k. split; [right; exact Hs | exact Hm].
Qed.

Lemma dropna_rows_in (df : list (Num.pct * Num.pct)) (r : Num.pct * Num.pct) :
  In r (NightlyScreener.dropna_rows df) ->
  In r df /\ fst r <> Num.NaN /\ snd r <> Num.NaN.
Proof.
  unfold NightlyScreener.dropna_rows. rewrite filter_In. intros [Hin Hb].
  apply andb_prop in Hb. destruct Hb as [H1 H2].
  split; [exact Hin|].
  split; intros E; [rewrite E in H1 | rewrite E in H2]; discriminate.
Qed.

(** Joined returns take their benchmark value from the benchmark's
    series. *)
Lemma compute_beta_benchmark_values (s m : NightlyScreener.Series) (v : Num.pct) :
  (forall i y, In (i, y) m -> y = Num.NaN \/ y = v) ->
  NightlyScreener.compute_beta s m = None.
Proof.
  intros Hm. apply compute_beta_constant.
  assert (forall r, In r (NightlyScreener.dropna_rows (NightlyScreener.inner_join s m)) ->
                    snd r = v) as H.
  { intros [x y] Hr. apply dropna_rows_in in Hr. destruct Hr as [Hin [_ Hy]].
    apply inner_join_in in Hin. destruct Hin as [i [_ Hi]].
    cbn [snd] in *. destruct (Hm i y Hi); [contradiction | assumption]. }
  intros r r' Hr Hr'. rewrite (H r Hr), (H r' Hr'). reflexivity.
Qed.

Lemma compute_beta_stock_values (s m : NightlyScreener.Series) (i0 : Z) (v : Num.pct) :
  (forall i x, In (i, x) s -> x = Num.NaN \/ (i, x) = (i0, v)) ->
  NightlyScreener.compute_beta s m = None.
Proof.
  intros Hs. apply compute_beta_constant.
  assert (forall r, In r (NightlyScreener.dropna_rows (NightlyScreener.inner_join s m)) ->
            exists y, find (fun jy => (fst jy =? i0)%Z) m = Some (i0, y) /\ snd r = y) as H.
  { intros [x y] Hr. apply dropna_rows_in in Hr. destruct Hr as [Hin [Hx _]].
    cbn [fst snd] in *.
    revert Hin. induction s as [|[i x'] s IH]; cbn [NightlyScreener.inner_join]; [intros []|].
    assert (forall i x, In (i, x) s -> x = Num.NaN \/ (i, x) = (i0, v)) as Hs'.
    { intros k z Hk. apply Hs. right. exact Hk. }
    destruct (find (fun jy => (fst jy =? i)%Z) m) as [[j y']|] eqn:Hf.
    - intros [E | Hin]; [|exact (IH Hs' Hin)].
      injection E as -> ->.
      destruct (Hs i x (or_introl eq_refl)) as [E | E]; [contradiction|].
      injection E as -> ->.
      pose proof (find_some _ _ Hf) as [_ Hj]. cbn [fst] in Hj.
      apply Z.eqb_eq in Hj. subst j. exists y. split; [exact Hf | reflexivity].
    - intros Hin. exact (IH Hs' Hin). }
  intros r r' Hr Hr'.
  destruct (H r Hr) as [y [Hy ->]]. destruct (H r' Hr') as [y' [Hy' ->]].
  congruence.
Qed.

Lemma close_returns_short (df : list Bar) :
  (List.length df < 3)%nat ->
  exists i0 v, forall i x,
    In (i, x) (NightlyScreener.close_returns df) -> x = Num.NaN \/ (i, x) = (i0, v).
Proof.
  intros H. unfold NightlyScreener.close_returns, Num.pct_change.
  destruct df as [|b0 [|b1 [|b2 df]]]; cbn [List.length] in H; try lia.
  - exists 0, Num.NaN. intros i x [].
  - exists 0, Num.NaN. cbn. intros i x [E | []]. injection E as _ <-. left. reflexivity.
  - exists (index b1), (Num.pct_of (Close b0) (Close b1)). cbn.
    intros i x [E | [E | []]].
    + injection E as _ <-. left. reflexivity.
    + right. symmetry. exact E.
Qed.

Lemma compute_beta_short (df nifty_df : list Bar) :
  (List.length df < 3)%nat \/ (List.length nifty_df < 3)%nat ->
  NightlyScreener.compute_beta (NightlyScreener.close_returns df)
    (NightlyScreener.close_returns nifty_df) = None.
Proof.
  intros [H | H].
  - destruct (close_returns_short df H) as [i0 [v Hv]].
    exact (compute_beta_stock_values _ _ i0 v Hv).
  - destruct (close_returns_short nifty_df H) as [i0 [v Hv]].
    apply (compute_beta_benchmark_values _ _ v).
    intros i y Hin. destruct (Hv i y Hin) as [E | E]; [left; exact E|].
    right. congruence.
Qed.

(** No beta comes out of a frame of fewer than three daily bars, on
    either side: [compute_beta] is [nan] on the returns of two frames of
    which one has fewer than three rows. *)
Theorem beta_needs_three_bars (df nifty_df : list Bar) :
  (List.length df < 3)%nat \/ (List.length nifty_df < 3)%nat ->
  NightlyScreener.compute_beta (NightlyScreener.close_returns df)
    (NightlyScreener.close_returns nifty_df) = None.
Proof. exact (compute_beta_short df nifty_df). Qed.

(** *** What the loop keeps *)

Lemma Qltb_false (a b : Q) : Num.Qltb a b = false -> (b <= a)%Q.
Proof.
  unfold Num.Qltb. intros H. apply negb_false_iff in H.
  apply Qle_bool_iff. exact H.
Qed.

Lemma last_map {A B} (f : A -> B) (l : list A) (d : A) :
  last (map f l) (f d) = f (last l d).
Proof.
  induction l as [|x l IH]; [reflexivity|].
  destruct l as [|y l]; [reflexivity|]. exact IH.
Qed.

Lemma py_round_3_lower (x : Q) (A : Z) :
  (inject_Z A - (1 # 2) < x * 1000)%Q -> (A # 1000 <= Num.py_round x 3)%Q.
Proof.
  intros H. unfold Num.py_round.
  change (inject_Z (Num.pow10 3)) with 1000%Q.
  change (Z.to_pos (Num.pow10 3)) with 1000%positive.
  pose proof (round_half_even_lower _ _ H) as H1.
  unfold Qle. cbn [Qnum Qden]. nia.
Qed.

Lemma int_lower (x : Q) (A : Z) : (inject_Z A <= x)%Q -> A <= NightlyScreener.int x.
Proof.
  unfold NightlyScreener.int, Qle, inject_Z. cbn [Qnum Qden]. intros H.
  apply Z.quot_le_lower_bound; lia.
Qed.

Lemma screen_row_some lg eod nifty_returns row c :
  NightlyScreener.screen_row lg eod nifty_returns row = Some c ->
  NightlyScreener.c_ticker c = NightlyScreener.u_ticker row
  /\ NightlyScreener.c_data_symbol c = NightlyScreener.u_data_symbol row
  /\ NightlyScreener.c_index_bucket c = NightlyScreener.u_index_bucket row
  /\ (1.5 <= NightlyScreener.c_beta c)%Q
  /\ 500000 <= NightlyScreener.c_avg_volume c
  /\ exists df close_today,
       eod (NightlyScreener.u_data_symbol row) = Some df
       /\ YahooMarketDataProvider.get_last_price df = Some close_today
       /\ (100 <= close_today <= 5000)%Q
       /\ NightlyScreener.compute_beta (NightlyScreener.close_returns df) nifty_returns
          <> None.
Proof.
  unfold NightlyScreener.screen_row. cbv zeta.
  destruct (eod (NightlyScreener.u_data_symbol row)) as [[|b df]|]; try discriminate.
  destruct (Num.Qleb NightlyScreener.MIN_PRICE (last (map Close (b :: df)) (Close b))
            && Num.Qleb (last (map Close (b :: df)) (Close b)) NightlyScreener.MAX_PRICE)
    eqn:Hprice; cbn [negb]; [|discriminate].
  destruct (Num.Qltb (Num.mean (Num.lastn 20 (map Volume (b :: df))))
              NightlyScreener.MIN_AVG_VOLUME) eqn:Hvol; [discriminate|].
  destruct (NightlyScreener.compute_beta _ nifty_returns) as [beta|] eqn:Hbeta;
    [|discriminate].
  destruct (Num.Qltb beta NightlyScreener.MIN_BETA) eqn:Hb; [discriminate|].
  intros E. injection E as <-.
  cbn [NightlyScreener.c_ticker NightlyScreener.c_data_symbol
       NightlyScreener.c_index_bucket NightlyScreener.c_beta
       NightlyScreener.c_avg_volume].
  split; [reflexivity|]. split; [reflexivity|]. split; [reflexivity|].
  apply Qltb_false in Hvol, Hb.
  apply andb_prop in Hprice. destruct Hprice as [Hlo Hhi].
  unfold Num.Qleb in Hlo, Hhi. apply Qle_bool_iff in Hlo, Hhi.
  split.
  { apply (Qle_trans _ (1500 # 1000)); [unfold Qle; cbn; lia|].
    apply py_round_3_lower.
    unfold NightlyScreener.MIN_BETA in Hb.
    apply Qlt_le_trans with (y := (1.5 * 1000)%Q); [reflexivity|].
    apply Qmult_le_compat_r; [exact Hb | discriminate]. }
  split.
  { apply int_lower. exact Hvol. }
  exists (b :: df), (Close (last (b :: df) b)).
  split; [reflexivity|]. split; [reflexivity|].
  rewrite last_map in Hlo, Hhi.
  split; [split|].
  - apply (Qle_trans _ NightlyScreener.MIN_PRICE); [vm_compute; discriminate | exact Hlo].
  - apply (Qle_trans _ NightlyScreener.MAX_PRICE); [exact Hhi | vm_compute; discriminate].
  - rewrite Hbeta. discriminate.
Qed.

Lemma candidates_in lg rows eod c :
  In c (candidates lg (Some (NightlyScreener.WithIsActive rows)) eod) ->
  exists nifty_df row,
    eod NIFTY_SYMBOL_YF = Some nifty_df
    /\ In (row, 1) rows
    /\ NightlyScreener.screen_row lg eod (NightlyScreener.close_returns nifty_df) row
       = Some c.
Proof.
  unfold candidates.
  destruct (eod NIFTY_SYMBOL_YF) as [[|b nifty_df]|]; try (intros []).
  intros Hin. apply screen_rows_in in Hin. destruct Hin as [row [Hrow Hc]].
  exists (b :: nifty_df), row. split; [reflexivity|]. split; [|exact Hc].
  apply in_map_iff in Hrow. destruct Hrow as [[row' z] [E Hin]].
  cbn [fst] in E. subst row'. apply filter_In in Hin. destruct Hin as [Hin Hz].
  cbn [snd] in Hz. apply Z.eqb_eq in Hz. subst z. exact Hin.
Qed.

Lemma candidate_passed_filters lg rows eod today c :
  In c (candidates lg (Some (NightlyScreener.WithIsActive rows)) eod) ->
  passed_filters rows eod (NightlyScreener.dated today c).
Proof.
  intros Hin. apply candidates_in in Hin.
  destruct Hin as [nifty_df [row [Hn [Hrow Hc]]]].
  apply screen_row_some in Hc.
  destruct Hc as [Ht [Hs [Hi [Hb [Hv [df [close_today [Hdf [Hlast [Hp Hbeta]]]]]]]]]].
  unfold passed_filters.
  cbn [NightlyScreener.dated Watchlist.ticker Watchlist.data_symbol
       Watchlist.index_bucket Watchlist.beta Watchlist.avg_volume].
  rewrite Ht, Hs, Hi. destruct row as [t s i].
  cbn [NightlyScreener.u_ticker NightlyScreener.u_data_symbol
       NightlyScreener.u_index_bucket] in *.
  split; [exact Hrow|]. split; [exact Hb|]. split; [exact Hv|].
  exists df, close_today. split; [exact Hdf|]. split; [|split; [exact Hlast | exact Hp]].
  destruct (Nat.lt_ge_cases (List.length df) 3) as [Hlt | Hge]; [|exact Hge].
  exfalso. apply Hbeta. apply compute_beta_short. left. exact Hlt.
Qed.

Lemma final_df_in sort records today r :
  keeps_rows sort ->
  In r (map (NightlyScreener.dated today)
          (NightlyScreener.large_df sort records ++ NightlyScreener.mid_df sort records)) ->
  exists c, r = NightlyScreener.dated today c /\ In c records.
Proof.
  intros Hs Hin. apply in_map_iff in Hin. destruct Hin as [c [<- Hc]].
  exists c. split; [reflexivity|].
  apply in_app_or in Hc. destruct Hc as [Hc | Hc].
  - exact (proj1 (large_df_in _ _ _ Hs Hc)).
  - exact (proj1 (mid_df_in _ _ _ Hs Hc)).
Qed.

(** Every row of the watchlist the screener writes comes from a universe
    row marked active whose symbol has at least three daily bars and a last
    close within 100..5000; its [beta] is at least 1.5 and its [avg_volume]
    at least 500000; it is dated, for selection and for use, on the day of
    the run. *)
Theorem selected_rows_passed_filters lg sort rows eod today files :
  keeps_rows sort ->
  candidates lg (Some (NightlyScreener.WithIsActive rows)) eod <> [] ->
  exists final_df hist_df,
    NightlyScreener.run_screener lg sort (Some (NightlyScreener.WithIsActive rows))
      eod today files
    = NightlyScreener.Returned
        (NightlyScreener.mk_files (Some (Watchlist.WithRows final_df)) (Some hist_df))
    /\ Forall (fun r => passed_filters rows eod r
                        /\ Watchlist.selection_date r = today
                        /\ Watchlist.usable_for_date r = today) final_df.
Proof.
  intros Hs Hc. rewrite (run_screener_written _ _ _ _ _ _ Hc). cbv zeta.
  eexists. eexists. split; [reflexivity|].
  apply Forall_forall. intros r Hr.
  apply (final_df_in _ _ _ _ Hs) in Hr. destruct Hr as [c [-> Hin]].
  split; [exact (candidate_passed_filters _ _ _ _ _ Hin)|].
  split; reflexivity.
Qed.

(** *** A benchmark without variation *)

Lemma pct_pairs_flat_in (c : Q) (cs : list Q) (y : Num.pct) :
  Forall (eq c) cs -> In y (Num.pct_pairs c cs) -> y = Num.NaN \/ y = Num.Fin 0.
Proof.
  induction 1 as [|x cs <- _ IH]; cbn [Num.pct_pairs]; [intros []|].
  intros [E | Hin]; [|exact (IH Hin)].
  subst y. unfold Num.pct_of.
  destruct (Num.Qeqb c 0) eqn:E; [left; reflexivity|].
  right. f_equal. apply Qred_zero.
  unfold Num.Qeqb in E. apply Qeq_bool_neq in E. field. exact E.
Qed.

Lemma close_returns_flat (c : Q) (df : list Bar) (i : Z) (y : Num.pct) :
  Forall (fun b => Close b = c) df ->
  In (i, y) (NightlyScreener.close_returns df) -> y = Num.NaN \/ y = Num.Fin 0.
Proof.
  intros Hflat Hin. unfold NightlyScreener.close_returns in Hin.
  apply in_combine_r in Hin. unfold Num.pct_change in Hin.
  destruct df as [|b df]; [destruct Hin|].
  cbn [map] in Hin. destruct Hin as [<- | Hin]; [left; reflexivity|].
  inversion Hflat as [|b' df' Hb Hdf]; subst.
  apply (pct_pairs_flat_in (Close b) (map Close df)); [|exact Hin].
  apply Forall_map. eapply Forall_impl; [|exact Hdf].
  intros b' E. symmetry. exact E.
Qed.

Lemma screen_row_without_beta lg eod nifty_returns row :
  (forall s, NightlyScreener.compute_beta s nifty_returns = None) ->
  NightlyScreener.screen_row lg eod nifty_returns row = None.
Proof.
  intros H. unfold NightlyScreener.screen_row. cbv zeta.
  destruct (eod (NightlyScreener.u_data_symbol row)) as [[|b df]|]; try reflexivity.
  destruct (negb _); [reflexivity|].
  destruct (Num.Qltb _ NightlyScreener.MIN_AVG_VOLUME); [reflexivity|].
  rewrite H. reflexivity.
Qed.

Lemma candidates_without_beta lg uf eod :
  (forall nifty_df, eod NIFTY_SYMBOL_YF = Some nifty_df ->
     forall s, NightlyScreener.compute_beta s (NightlyScreener.close_returns nifty_df)
               = None) ->
  candidates lg uf eod = [].
Proof.
  intros H. unfold candidates.
  destruct uf as [[rows|rows]|]; try reflexivity.
  destruct (eod NIFTY_SYMBOL_YF) as [[|b nifty_df]|]; try reflexivity.
  specialize (H (b :: nifty_df) eq_refl).
  induction (map fst (filter (fun r => (snd r =? 1)%Z) rows)) as [|row rest IH];
    [reflexivity|].
  cbn [NightlyScreener.screen_rows].
  rewrite (screen_row_without_beta _ _ _ _ H). exact IH.
Qed.

(** On a benchmark history of fewer than three daily bars, or one whose
    closes are all the same, no beta is defined: the run appends no record
    and returns with both files as they were. *)
Theorem screener_idle_without_benchmark_variation
  lg sort rows eod today files nifty_df c :
  eod NIFTY_SYMBOL_YF = Some nifty_df ->
  (List.length nifty_df < 3)%nat \/ Forall (fun b => Close b = c) nifty_df ->
  NightlyScreener.run_screener lg sort (Some (NightlyScreener.WithIsActive rows))
    eod today files = NightlyScreener.Returned files.
Proof.
  intros Hn H. apply run_screener_untouched. apply candidates_without_beta.
  intros nifty_df' E s. rewrite Hn in E. injection E as <-.
  destruct H as [H | H].
  - destruct (close_returns_short nifty_df H) as [i0 [v Hv]].
    apply (compute_beta_benchmark_values _ _ v).
    intros i y Hin. destruct (Hv i y Hin) as [E | E]; [left; exact E|].
    right. congruence.
  - apply (compute_beta_benchmark_values _ _ (Num.Fin 0)).
    intros i y Hin. exact (close_returns_flat c nifty_df i y H Hin).
Qed.

(** *** The best of each segment *)

Lemma fop_app {A} (R : A -> A -> Prop) (l1 l2 : list A) (a b : A) :
  ForallOrdPairs R (l1 ++ l2) -> In a l1 -> In b l2 -> R a b.
Proof.
  induction l1 as [|x l1 IH]; [intros _ []|].
  cbn [app]. intros H Ha Hb. inversion H as [|x' l' Hx Hl]; subst.
  destruct Ha as [-> | Ha].
  - rewrite Forall_forall in Hx. apply Hx. apply in_or_app. right. exact Hb.
  - exact (IH Hl Ha Hb).
Qed.

Lemma head_of_sorted sort (n : nat) (l : list NightlyScreener.Candidate) c r :
  keeps_rows sort -> sorts_by_falling_score sort ->
  In c l -> In r (firstn n (sort l)) ->
  In c (firstn n (sort l))
  \/ (NightlyScreener.c_score c <= NightlyScreener.c_score r)%Q.
Proof.
  intros Hk Hs Hc Hr.
  apply (proj2 (Hk l c)) in Hc. rewrite <- (firstn_skipn n (sort l)) in Hc.
  apply in_app_or in Hc. destruct Hc as [Hc | Hc]; [left; exact Hc|].
  right. pose proof (Hs l) as Hsorted. unfold by_falling_score in Hsorted.
  rewrite <- (firstn_skipn n (sort l)) in Hsorted.
  exact (fop_app _ _ _ r c Hsorted Hr Hc).
Qed.

(** Within each segment the watchlist holds the best scores: a candidate
    of the large-cap buckets that is not on the written watchlist scores no
    more than any large-cap row written, and likewise for NIFTY-MIDCAP. *)
Theorem watchlist_holds_best_scores lg sort uf eod today files :
  keeps_rows sort -> sorts_by_falling_score sort ->
  candidates lg uf eod <> [] ->
  exists final_df hist_df,
    NightlyScreener.run_screener lg sort uf eod today files
    = NightlyScreener.Returned
        (NightlyScreener.mk_files (Some (Watchlist.WithRows final_df)) (Some hist_df))
    /\ forall c r,
         In c (candidates lg uf eod) -> In r final_df ->
         (NightlyScreener.large_mask c = true /\ large_bucket r = true)
         \/ (NightlyScreener.mid_mask c = true /\ mid_bucket r = true) ->
         In (NightlyScreener.dated today c) final_df
         \/ (NightlyScreener.c_score c <= Watchlist.score r)%Q.
Proof.
  intros Hk Hs Hc. rewrite (run_screener_written _ _ _ _ _ _ Hc). cbv zeta.
  eexists. eexists. split; [reflexivity|].
  set (records := candidates lg uf eod).
  intros c r Hin Hr Hseg. rewrite map_app in *.
  apply in_app_or in Hr.
  pose proof (dated_large today sort records Hk) as HL.
  pose proof (dated_mid today sort records Hk) as HM.
  rewrite Forall_forall in HL, HM.
  destruct Hseg as [[Hcm Hrm] | [Hcm Hrm]].
  - destruct Hr as [Hr | Hr].
    2:{ apply HM in Hr. apply mid_not_large in Hr. congruence. }
    apply in_map_iff in Hr. destruct Hr as [r0 [<- Hr0]].
    assert (In c (filter NightlyScreener.large_mask records)) as Hcf
      by (apply filter_In; auto).
    destruct (head_of_sorted sort _ _ c r0 Hk Hs Hcf Hr0) as [H | H].
    + left. apply in_or_app. left. apply in_map. exact H.
    + right. exact H.
  - destruct Hr as [Hr | Hr].
    { apply HL in Hr. apply large_not_mid in Hr. congruence. }
    apply in_map_iff in Hr. destruct Hr as [r0 [<- Hr0]].
    assert (In c (filter NightlyScreener.mid_mask records)) as Hcf
      by (apply filter_In; auto).
    destruct (head_of_sorted sort _ _ c r0 Hk Hs Hcf Hr0) as [H | H].
    + left. apply in_or_app. right. apply in_map. exact H.
    + right. exact H.
Qed.

(** *** The sorting routine of the examples *)

Lemma insert_by_score_in c l x :
  In x (insert_by_score c l) <-> x = c \/ In x l.
Proof.
  induction l as [|y l IH]; cbn [insert_by_score In].
  - split; [intros [E | []]; left; symmetry; exact E | intros [E | []]; left; symmetry; exact E].
  - destruct (Num.Qltb _ _); cbn [In].
    + split; [intros [E | H]; [left; symmetry; exact E | right; exact H]
             | intros [E | H]; [left; symmetry; exact E | right; exact H]].
    + rewrite IH. tauto.
Qed.

Lemma sort_by_score_keeps_rows : keeps_rows sort_by_score.
Proof.
  intros l x. unfold sort_by_score.
  induction l as [|c l IH]; cbn [fold_right In]; [tauto|].
  rewrite insert_by_score_in, IH. split; intros [H | H]; auto.
Qed.

Lemma insert_by_score_falling c l :
  by_falling_score l -> by_falling_score (insert_by_score c l).
Proof.
  unfold by_falling_score.
  induction 1 as [|x l Hx Hl IH]; cbn [insert_by_score].
  - constructor; constructor.
  - destruct (Num.Qltb (NightlyScreener.c_score x) (NightlyScreener.c_score c)) eqn:E.
    + constructor; [|constructor; assumption].
      unfold Num.Qltb in E. apply negb_true_iff in E.
      assert (NightlyScreener.c_score x <= NightlyScreener.c_score c)%Q as Hxc.
      { destruct (Qlt_le_dec (NightlyScreener.c_score x) (NightlyScreener.c_score c))
          as [H | H]; [apply Qlt_le_weak; exact H|].
        apply Qle_bool_iff in H. congruence. }
      constructor; [exact Hxc|].
      eapply Forall_impl; [|exact Hx]. intros b Hb. cbv beta in *.
      exact (Qle_trans _ _ _ Hb Hxc).
    + apply Qltb_false in E. constructor; [|exact IH].
      apply Forall_forall. intros b Hb. apply insert_by_score_in in Hb.
      destruct Hb as [-> | Hb]; [exact E|].
      rewrite Forall_forall in Hx. exact (Hx b Hb).
Qed.

Lemma sort_by_score_falling : sorts_by_falling_score sort_by_score.
Proof.
  intros l. unfold sort_by_score.
  induction l as [|c l IH]; cbn [fold_right]; [constructor|].
  apply insert_by_score_falling. exact IH.
Qed.

Lemma sample_candidates :
  candidates log1p_coarse (Some sample_universe) sample_eod <> [].
Proof. vm_compute. discriminate. Qed.

Lemma watchlist_size_and_buckets_witness :
  keeps_rows sort_by_score
  /\ candidates log1p_coarse (Some sample_universe) sample_eod <> []
  /\ exists final_df hist_df,
       sample_run
       = NightlyScreener.Returned
           (NightlyScreener.mk_files (Some (Watchlist.WithRows final_df)) (Some hist_df))
       /\ final_df = filter large_bucket final_df ++ filter mid_bucket final_df
       /\ (List.length (filter large_bucket final_df) <= 10)%nat
       /\ (List.length (filter mid_bucket final_df) <= 5)%nat.
Proof.
  split; [exact sort_by_score_keeps_rows | split; [exact sample_candidates|]].
  exact (watchlist_size_and_buckets log1p_coarse sort_by_score (Some sample_universe)
           sample_eod sample_today no_files sort_by_score_keeps_rows sample_candidates).
Defined.

Lemma watchlist_usable_on_run_day_only_witness :
  candidates log1p_coarse (Some sample_universe) sample_eod <> []
  /\ exists final_df hist_df,
       sample_run
       = NightlyScreener.Returned
           (NightlyScreener.mk_files (Some (Watchlist.WithRows final_df)) (Some hist_df))
       /\ forall now_ist,
            Watchlist.load_today_watchlist (Some (Watchlist.WithRows final_df)) now_ist
            = if date_eqb (date_of now_ist) sample_today then final_df else [].
Proof.
  split; [exact sample_candidates|].
  exact (watchlist_usable_on_run_day_only log1p_coarse sort_by_score
           (Some sample_universe) sample_eod sample_today no_files sample_candidates).
Defined.

Lemma beta_needs_three_bars_witness :
  ((List.length (daily_frame [1000; 1040]%Q 600000%Q) < 3)%nat
   \/ (List.length (daily_frame [100; 102; 100.98]%Q 0%Q) < 3)%nat)
  /\ NightlyScreener.compute_beta
       (NightlyScreener.close_returns (daily_frame [1000; 1040]%Q 600000%Q))
       (NightlyScreener.close_returns (daily_frame [100; 102; 100.98]%Q 0%Q)) = None.
Proof.
  assert (H : (List.length (daily_frame [1000; 1040]%Q 600000%Q) < 3)%nat
              \/ (List.length (daily_frame [100; 102; 100.98]%Q 0%Q) < 3)%nat).
  { left. vm_compute. lia. }
  split; [exact H|].
  exact (beta_needs_three_bars _ _ H).
Defined.

Lemma selected_rows_passed_filters_witness :
  keeps_rows sort_by_score
  /\ candidates log1p_coarse (Some sample_universe) sample_eod <> []
  /\ exists final_df hist_df,
       sample_run
       = NightlyScreener.Returned
           (NightlyScreener.mk_files (Some (Watchlist.WithRows final_df)) (Some hist_df))
       /\ Forall (fun r =>
                    passed_filters
                      [(NightlyScreener.mk_universe_row "TCS" "TCS.NS" "NIFTY50", 1);
                       (NightlyScreener.mk_universe_row "INFY" "INFY.NS" "NIFTY50", 0);
                       (NightlyScreener.mk_universe_row "VOLTAS" "VOLTAS.NS"
                          "NIFTY-MIDCAP", 1);
                       (NightlyScreener.mk_universe_row "ITC" "ITC.NS" "NIFTY100", 1)]
                      sample_eod r
                    /\ Watchlist.selection_date r = sample_today
                    /\ Watchlist.usable_for_date r = sample_today) final_df.
Proof.
  split; [exact sort_by_score_keeps_rows | split; [exact sample_candidates|]].
  exact (selected_rows_passed_filters log1p_coarse sort_by_score _
           sample_eod sample_today no_files sort_by_score_keeps_rows sample_candidates).
Defined.

Lemma flat_eod_flat :
  Forall (fun b => Close b = 100%Q) (daily_frame [100; 100; 100]%Q 0%Q).
Proof. repeat constructor. Qed.

Lemma screener_idle_without_benchmark_variation_witness :
  flat_eod NIFTY_SYMBOL_YF = Some (daily_frame [100; 100; 100]%Q 0%Q)
  /\ ((List.length (daily_frame [100; 100; 100]%Q 0%Q) < 3)%nat
      \/ Forall (fun b => Close b = 100%Q) (daily_frame [100; 100; 100]%Q 0%Q))
  /\ NightlyScreener.run_screener log1p_coarse sort_by_score (Some sample_universe)
       flat_eod sample_today no_files = NightlyScreener.Returned no_files.
Proof.
  split; [reflexivity | split; [right; exact flat_eod_flat|]].
  exact (screener_idle_without_benchmark_variation log1p_coarse sort_by_score _
           flat_eod sample_today no_files _ 100%Q eq_refl (or_intror flat_eod_flat)).
Defined.

Lemma watchlist_holds_best_scores_witness :
  keeps_rows sort_by_score /\ sorts_by_falling_score sort_by_score
  /\ candidates log1p_coarse (Some sample_universe) sample_eod <> []
  /\ exists final_df hist_df,
       sample_run
       = NightlyScreener.Returned
           (NightlyScreener.mk_files (Some (Watchlist.WithRows final_df)) (Some hist_df))
       /\ forall c r,
            In c (candidates log1p_coarse (Some sample_universe) sample_eod) ->
            In r final_df ->
            (NightlyScreener.large_mask c = true /\ large_bucket r = true)
            \/ (NightlyScreener.mid_mask c = true /\ mid_bucket r = true) ->
            In (NightlyScreener.dated sample_today c) final_df
            \/ (NightlyScreener.c_score c <= Watchlist.score r)%Q.
Proof.
  split; [exact sort_by_score_keeps_rows|].
  split; [exact sort_by_score_falling | split; [exact sample_candidates|]].
  exact (watchlist_holds_best_scores log1p_coarse sort_by_score (Some sample_universe)
           sample_eod sample_today no_files sort_by_score_keeps_rows
           sort_by_score_falling sample_candidates).
Defined.

(** *** The watchlist history *)

Lemma same_history_key_iff (a b : Watchlist.WatchlistRow) :
  NightlyScreener.same_history_key a b = true <-> history_key a = history_key b.
Proof.
  unfold NightlyScreener.same_history_key, history_key.
  rewrite andb_true_iff, String.eqb_eq, date_eqb_eq.
  split; [intros [-> ->]; reflexivity | intros E; injection E; auto].
Qed.

Lemma same_history_key_false (a b : Watchlist.WatchlistRow) :
  NightlyScreener.same_history_key a b = false -> history_key a <> history_key b.
Proof.
  intros H E. apply same_history_key_iff in E. congruence.
Qed.

Lemma date_ltb_iff (a b : Config.date) :
  NightlyScreener.date_ltb a b = true <->
  d_year a < d_year b
  \/ (d_year a = d_year b
      /\ (d_month a < d_month b \/ (d_month a = d_month b /\ d_day a < d_day b))).
Proof.
  unfold NightlyScreener.date_ltb.
  destruct (Z.ltb_spec (d_year a) (d_year b)); [split; [lia | reflexivity]|].
  destruct (Z.ltb_spec (d_year b) (d_year a)); [split; [discriminate | lia]|].
  destruct (Z.ltb_spec (d_month a) (d_month b)); [split; [lia | reflexivity]|].
  destruct (Z.ltb_spec (d_month b) (d_month a)); [split; [discriminate | lia]|].
  rewrite Z.ltb_lt. lia.
Qed.

(** [a] sorts strictly before [b]: a later date, or the same date and a
    higher score. *)
Lemma history_before_iff (a b : Watchlist.WatchlistRow) :
  NightlyScreener.history_before a b = true <->
  NightlyScreener.date_ltb (Watchlist.usable_for_date b) (Watchlist.usable_for_date a) = true
  \/ (NightlyScreener.date_ltb (Watchlist.usable_for_date b) (Watchlist.usable_for_date a)
      = false
      /\ NightlyScreener.date_ltb (Watchlist.usable_for_date a)
           (Watchlist.usable_for_date b) = false
      /\ (Watchlist.score b < Watchlist.score a)%Q).
Proof.
  unfold NightlyScreener.history_before.
  destruct (NightlyScreener.date_ltb (Watchlist.usable_for_date b)
              (Watchlist.usable_for_date a)); [split; auto|].
  destruct (NightlyScreener.date_ltb (Watchlist.usable_for_date a)
              (Watchlist.usable_for_date b)).
  - split; [discriminate | intros [H | [_ [H _]]]; discriminate].
  - unfold Num.Qltb. rewrite negb_true_iff. split.
    + intros H. right. split; [reflexivity | split; [reflexivity|]].
      apply Qnot_le_lt. intros Hle. apply Qle_bool_iff in Hle. congruence.
    + intros [H | [_ [_ H]]]; [discriminate|].
      destruct (Qle_bool (Watchlist.score a) (Watchlist.score b)) eqn:E; [|reflexivity].
      apply Qle_bool_iff in E. exfalso. exact (Qlt_not_le _ _ H E).
Qed.

Lemma date_ltb_false (a b : Config.date) :
  NightlyScreener.date_ltb a b = false <-> ~ (NightlyScreener.date_ltb a b = true).
Proof. destruct (NightlyScreener.date_ltb a b); split; congruence. Qed.

Lemma history_before_asym (a b : Watchlist.WatchlistRow) :
  NightlyScreener.history_before a b = true ->
  NightlyScreener.history_before b a = false.
Proof.
  intros H. destruct (NightlyScreener.history_before b a) eqn:E; [|reflexivity].
  exfalso. apply history_before_iff in H, E.
  rewrite !date_ltb_false, !date_ltb_iff in H, E.
  destruct H as [H | [H1 [H2 H3]]], E as [E | [E1 [E2 E3]]]; try lia.
  exact (Qlt_irrefl _ (Qlt_trans _ _ _ H3 E3)).
Qed.

Lemma date_ltb_cotrans (a b x : Config.date) :
  NightlyScreener.date_ltb a b = true ->
  NightlyScreener.date_ltb a x = true \/ NightlyScreener.date_ltb x b = true.
Proof. rewrite !date_ltb_iff. lia. Qed.

(** Rows that do not sort before one another form classes: a row strictly
    before [b] is strictly before [x] or [x] is strictly before [b]. *)
Lemma history_before_cotrans (a b x : Watchlist.WatchlistRow) :
  NightlyScreener.history_before a b = true ->
  NightlyScreener.history_before a x = true
  \/ NightlyScreener.history_before x b = true.
Proof.
  intros H. rewrite !history_before_iff in *.
  set (da := Watchlist.usable_for_date a) in *.
  set (db := Watchlist.usable_for_date b) in *.
  set (dx := Watchlist.usable_for_date x) in *.
  destruct H as [H | [H1 [H2 H3]]].
  - destruct (date_ltb_cotrans _ _ dx H) as [E | E]; [right | left]; left; exact E.
  - destruct (NightlyScreener.date_ltb dx da) eqn:Exa; [left; left; reflexivity|].
    destruct (NightlyScreener.date_ltb da dx) eqn:Eax.
    + right. left. destruct (date_ltb_cotrans _ _ db Eax) as [E | E]; [congruence | exact E].
    + assert (NightlyScreener.date_ltb db dx = false) as Ebx.
      { destruct (NightlyScreener.date_ltb db dx) eqn:E; [|reflexivity].
        destruct (date_ltb_cotrans _ _ da E); congruence. }
      assert (NightlyScreener.date_ltb dx db = false) as Exb.
      { destruct (NightlyScreener.date_ltb dx db) eqn:E; [|reflexivity].
        destruct (date_ltb_cotrans _ _ da E); congruence. }
      destruct (Qlt_le_dec (Watchlist.score x) (Watchlist.score a)) as [Hs | Hs].
      * left. right. auto.
      * right. right. split; [exact Ebx | split; [exact Exb|]].
        exact (Qlt_le_trans _ _ _ H3 Hs).
Qed.

Lemma insert_history_in r l x :
  In x (NightlyScreener.insert_history r l) <-> x = r \/ In x l.
Proof.
  induction l as [|y l IH]; cbn [NightlyScreener.insert_history In].
  - split; intros [E | []]; left; symmetry; exact E.
  - destruct (NightlyScreener.history_before y r); cbn [In].
    + rewrite IH. tauto.
    + split; (intros [E | H]; [left; symmetry; exact E | right; exact H]).
Qed.

Lemma sort_history_in l x : In x (NightlyScreener.sort_history l) <-> In x l.
Proof.
  unfold NightlyScreener.sort_history.
  induction l as [|r l IH]; cbn [fold_right In]; [tauto|].
  rewrite insert_history_in, IH. split; intros [H | H]; auto.
Qed.

(** No row of the sorted history comes after a row that sorts strictly
    before it. *)
Lemma insert_history_sorted r l :
  ForallOrdPairs (fun a b => NightlyScreener.history_before b a = false) l ->
  ForallOrdPairs (fun a b => NightlyScreener.history_before b a = false)
    (NightlyScreener.insert_history r l).
Proof.
  induction 1 as [|x l Hx Hl IH]; cbn [NightlyScreener.insert_history].
  - constructor; constructor.
  - destruct (NightlyScreener.history_before x r) eqn:E.
    + constructor; [|exact IH].
      apply Forall_forall. intros b Hb. apply insert_history_in in Hb.
      destruct Hb as [-> | Hb]; [exact (history_before_asym _ _ E)|].
      rewrite Forall_forall in Hx. exact (Hx b Hb).
    + constructor; [|constructor; assumption].
      constructor; [exact E|].
      eapply Forall_impl; [|exact Hx]. intros b Hb. cbv beta in *.
      destruct (NightlyScreener.history_before b r) eqn:Ebr; [|reflexivity].
      destruct (history_before_cotrans _ _ x Ebr); congruence.
Qed.

Lemma sort_history_sorted l :
  ForallOrdPairs (fun a b => NightlyScreener.history_before b a = false)
    (NightlyScreener.sort_history l).
Proof.
  unfold NightlyScreener.sort_history.
  induction l as [|r l IH]; cbn [fold_right]; [constructor|].
  apply insert_history_sorted. exact IH.
Qed.

Lemma drop_duplicates_in l x :
  In x (NightlyScreener.drop_duplicates l) -> In x l.
Proof.
  revert x. induction l as [|r l IH]; cbn [NightlyScreener.drop_duplicates In]; [tauto|].
  intros x [E | H]; [left; exact E|].
  apply filter_In in H. right. apply IH. exact (proj1 H).
Qed.

Lemma drop_duplicates_NoDup l :
  NoDup (map history_key (NightlyScreener.drop_duplicates l)).
Proof.
  induction l as [|r l IH]; cbn [NightlyScreener.drop_duplicates map]; constructor.
  - intros Hin. apply in_map_iff in Hin. destruct Hin as [x [E Hx]].
    apply filter_In in Hx. destruct Hx as [_ Hx]. apply negb_true_iff in Hx.
    apply same_history_key_false in Hx. congruence.
  - induction (NightlyScreener.drop_duplicates l) as [|y ys IHy]; [constructor|].
    cbn [map] in IH. inversion IH as [|k ks Hk Hks]; subst.
    cbn [filter]. destruct (negb (NightlyScreener.same_history_key r y)).
    + cbn [map]. constructor; [|exact (IHy Hks)].
      intros Hin. apply Hk. apply in_map_iff in Hin. destruct Hin as [z [E Hz]].
      apply filter_In in Hz. apply in_map_iff. exists z. split; [exact E | exact (proj1 Hz)].
    + exact (IHy Hks).
Qed.

(** Of the rows that share a key, the first of the frame stays. *)
Lemma drop_duplicates_first (R : Watchlist.WatchlistRow -> Watchlist.WatchlistRow -> Prop)
  l r :
  ForallOrdPairs R l -> In r l ->
  exists r', In r' (NightlyScreener.drop_duplicates l)
             /\ history_key r' = history_key r
             /\ (r' = r \/ R r' r).
Proof.
  induction 1 as [|x l Hx Hl IH]; [intros []|].
  cbn [NightlyScreener.drop_duplicates].
  intros [-> | Hin].
  - exists r. split; [left; reflexivity | split; [reflexivity | left; reflexivity]].
  - destruct (NightlyScreener.same_history_key x r) eqn:E.
    + exists x. split; [left; reflexivity|].
      split; [apply same_history_key_iff; exact E|].
      right. rewrite Forall_forall in Hx. exact (Hx r Hin).
    + destruct (IH Hin) as [r' [Hr' [Hk Hrel]]].
      exists r'. split; [|split; assumption].
      right. apply filter_In. split; [exact Hr'|].
      apply negb_true_iff.
      destruct (NightlyScreener.same_history_key x r') eqn:E'; [|reflexivity].
      apply same_history_key_iff in E'. apply same_history_key_false in E. congruence.
Qed.

Lemma same_date_score (a b : Watchlist.WatchlistRow) :
  Watchlist.usable_for_date a = Watchlist.usable_for_date b ->
  NightlyScreener.history_before b a = false ->
  (Watchlist.score b <= Watchlist.score a)%Q.
Proof.
  intros Hd H. destruct (Qlt_le_dec (Watchlist.score a) (Watchlist.score b)) as [Hlt | Hle];
    [|exact Hle].
  exfalso. assert (NightlyScreener.history_before b a = true) as E; [|congruence].
  apply history_before_iff. right. rewrite Hd.
  assert (forall d, NightlyScreener.date_ltb d d = false) as Hirr.
  { intros d. apply date_ltb_false. rewrite date_ltb_iff. lia. }
  rewrite Hirr. auto.
Qed.

(** After a run that writes, the history holds one row for each
    (ticker, usable_for_date) of its former rows and of the new watchlist:
    no key twice, no key lost, every row one of those rows, and for each key
    a row of the highest score recorded for it, so that a row of an earlier
    run the same day outlives a new row of a lower score. *)
Theorem history_keeps_best_row_per_key lg sort uf eod today files :
  candidates lg uf eod <> [] ->
  exists final_df hist_df,
    NightlyScreener.run_screener lg sort uf eod today files
    = NightlyScreener.Returned
        (NightlyScreener.mk_files (Some (Watchlist.WithRows final_df)) (Some hist_df))
    /\ NoDup (map history_key hist_df)
    /\ (forall r, In r hist_df -> In r (history_rows files ++ final_df))
    /\ (forall r, In r (history_rows files ++ final_df) ->
          exists r', In r' hist_df
                     /\ history_key r' = history_key r
                     /\ (Watchlist.score r <= Watchlist.score r')%Q).
Proof.
  intros Hc. rewrite (run_screener_written _ _ _ _ _ _ Hc). cbv zeta.
  eexists. eexists. split; [reflexivity|].
  fold (history_rows files).
  set (all := history_rows files ++ _).
  split; [apply drop_duplicates_NoDup|].
  split.
  - intros r Hr. apply drop_duplicates_in in Hr. exact (proj1 (sort_history_in _ _) Hr).
  - intros r Hr. apply (proj2 (sort_history_in all r)) in Hr.
    destruct (drop_duplicates_first _ _ r (sort_history_sorted all) Hr)
      as [r' [Hr' [Hk Hrel]]].
    exists r'. split; [exact Hr' | split; [exact Hk|]].
    destruct Hrel as [-> | Hrel]; [apply Qle_refl|].
    apply same_date_score; [|exact Hrel].
    unfold history_key in Hk. congruence.
Qed.

Lemma history_keeps_best_row_per_key_witness :
  candidates log1p_coarse (Some sample_universe) sample_eod <> []
  /\ exists final_df hist_df,
       NightlyScreener.run_screener log1p_coarse sort_by_score (Some sample_universe)
         sample_eod sample_today earlier_files
       = NightlyScreener.Returned
           (NightlyScreener.mk_files (Some (Watchlist.WithRows final_df)) (Some hist_df))
       /\ NoDup (map history_key hist_df)
       /\ (forall r, In r hist_df -> In r (history_rows earlier_files ++ final_df))
       /\ (forall r, In r (history_rows earlier_files ++ final_df) ->
             exists r', In r' hist_df
                        /\ history_key r' = history_key r
                        /\ (Watchlist.score r <= Watchlist.score r')%Q).
Proof.
  split; [exact sample_candidates|].
  exact (history_keeps_best_row_per_key log1p_coarse sort_by_score
           (Some sample_universe) sample_eod sample_today earlier_files
           sample_candidates).
Defined.

(** *** The beta of a series against itself *)

Lemma find_by_index (b : list (Z * Num.pct)) (i : Z) (x : Num.pct) :
  NoDup (map fst b) -> In (i, x) b ->
  find (fun jy => (fst jy =? i)%Z) b = Some (i, x).
Proof.
  induction b as [|[j y] b IH]; [intros _ []|].
  cbn [map fst]. intros Hnd Hin. inversion Hnd as [|k ks Hk Hks]; subst.
  cbn [find fst]. destruct Hin as [E | Hin].
  - injection E as -> ->. rewrite Z.eqb_refl. reflexivity.
  - destruct (Z.eqb_spec j i) as [-> | Hne]; [|exact (IH Hks Hin)].
    exfalso. apply Hk. apply (in_map fst) in Hin. exact Hin.
Qed.

Lemma inner_join_self (a b : NightlyScreener.Series) :
  NoDup (map fst b) -> incl a b ->
  NightlyScreener.inner_join a b = map (fun r => (snd r, snd r)) a.
Proof.
  intros Hnd. induction a as [|[i x] a IH]; [reflexivity|].
  intros Hincl. cbn [NightlyScreener.inner_join map snd].
  rewrite (find_by_index b i x Hnd (Hincl _ (or_introl eq_refl))).
  rewrite IH; [reflexivity|].
  intros r Hr. apply Hincl. right. exact Hr.
Qed.

Lemma finite_rows_finite (rows : list (Z * Q)) :
  NightlyScreener.finite_rows
    (NightlyScreener.dropna_rows
       (map (fun r => (snd r, snd r)) (finite_series rows)))
  = Some (map (fun r => (snd r, snd r)) rows)
  /\ (rows <> [] ->
      NightlyScreener.dropna_rows
        (map (fun r => (snd r, snd r)) (finite_series rows)) <> []).
Proof.
  unfold NightlyScreener.dropna_rows, finite_series.
  induction rows as [|[i x] rows [IH _]]; [split; [reflexivity | congruence]|].
  cbn [map filter fst snd NightlyScreener.is_nan negb andb].
  split; [|discriminate].
  cbn [NightlyScreener.finite_rows]. rewrite IH. reflexivity.
Qed.

Lemma combine_diag {A} (l : list A) : combine l l = map (fun x => (x, x)) l.
Proof. induction l as [|x l IH]; [reflexivity|]. cbn [combine map]. rewrite IH. reflexivity. Qed.

(** The covariance is taken with divisor [n - 1] and the variance with
    divisor [n], so the beta of a series of [n] finite returns against
    itself is [n / (n - 1)], not 1. *)
Theorem beta_against_itself (rows : list (Z * Q)) :
  NoDup (map fst rows) ->
  (2 <= List.length rows)%nat ->
  ~ (Num.sample_variance (map snd rows) == 0)%Q ->
  exists beta,
    NightlyScreener.compute_beta (finite_series rows) (finite_series rows) = Some beta
    /\ (beta == inject_Z (Z.of_nat (List.length rows))
                / inject_Z (Z.of_nat (List.length rows) - 1))%Q.
Proof.
  intros Hnd Hlen Hvar.
  assert (rows <> []) as Hne by (destruct rows; [cbn in Hlen; lia | discriminate]).
  unfold NightlyScreener.compute_beta. cbv zeta.
  rewrite inner_join_self; [|unfold finite_series; rewrite map_map; exact Hnd
                            |apply incl_refl].
  destruct (finite_rows_finite rows) as [Hfin Hdf]. specialize (Hdf Hne).
  destruct (NightlyScreener.dropna_rows _) as [|r0 df] eqn:E; [congruence|].
  rewrite Hfin. rewrite !map_map. cbn [fst snd].
  set (xs := map (fun x : Z * Q => snd x) rows).
  assert (xs = map snd rows) as Exs by reflexivity.
  assert (List.length xs = List.length rows) as Hl by (unfold xs; apply length_map).
  unfold NightlyScreener.pandas_var, NightlyScreener.np_cov, NightlyScreener.np_var.
  cbv zeta. rewrite Hl.
  destruct (Nat.leb_spec 2 (List.length rows)) as [_ | Hlt]; [|lia].
  rewrite combine_diag, map_map. cbn [fst snd].
  rewrite <- Exs in Hvar. pose proof Hvar as Hvar0.
  unfold Num.sample_variance in Hvar. cbv zeta in Hvar.
  rewrite Hl in Hvar.
  set (S := Num.sum (map (fun x => (x - Num.mean xs) * (x - Num.mean xs))%Q xs)) in *.
  set (n := Z.of_nat (List.length rows)) in *.
  assert (2 <= n) as Hn by (unfold n; lia).
  assert (~ inject_Z n == 0)%Q as Hn0.
  { change 0%Q with (inject_Z 0). rewrite inject_Z_injective. lia. }
  assert (~ inject_Z (n - 1) == 0)%Q as Hn1.
  { change 0%Q with (inject_Z 0). rewrite inject_Z_injective. lia. }
  assert (~ S == 0)%Q as HS.
  { intros E0. apply Hvar. rewrite E0. unfold Qdiv. apply Qmult_0_l. }
  assert (Num.Qeqb (Num.sample_variance xs) 0 = false) as ->.
  { unfold Num.Qeqb. destruct (Qeq_bool _ 0) eqn:Eb; [|reflexivity].
    apply Qeq_bool_iff in Eb. contradiction. }
  assert (Num.Qeqb (S / inject_Z n) 0 = false) as ->.
  { unfold Num.Qeqb. destruct (Qeq_bool _ 0) eqn:Eb; [|reflexivity].
    apply Qeq_bool_iff in Eb. exfalso. apply HS.
    rewrite <- (Qmult_div_r S (inject_Z n) Hn0). unfold Qdiv in *. rewrite Eb. ring. }
  cbn [option_map]. eexists. split; [reflexivity|].
  field. repeat split; assumption.
Qed.

Lemma beta_against_itself_witness :
  NoDup (map fst [(2, 1%Q); (3, (1 # 2)%Q)])
  /\ (2 <= List.length [(2, 1%Q); (3, (1 # 2)%Q)])%nat
  /\ ~ (Num.sample_variance (map snd [(2, 1%Q); (3, (1 # 2)%Q)]) == 0)%Q
  /\ exists beta,
       NightlyScreener.compute_beta (finite_series [(2, 1%Q); (3, (1 # 2)%Q)])
         (finite_series [(2, 1%Q); (3, (1 # 2)%Q)]) = Some beta
       /\ (beta == inject_Z (Z.of_nat (List.length [(2, 1%Q); (3, (1 # 2)%Q)]))
                   / inject_Z (Z.of_nat (List.length [(2, 1%Q); (3, (1 # 2)%Q)]) - 1))%Q.
Proof.
  assert (H1 : NoDup (map fst [(2, 1%Q); (3, (1 # 2)%Q)])).
  { cbn. constructor; [intros [E | []]; discriminate|].
    constructor; [intros []|constructor]. }
  assert (H2 : (2 <= List.length [(2, 1%Q); (3, (1 # 2)%Q)])%nat) by (cbn; lia).
  assert (H3 : ~ (Num.sample_variance (map snd [(2, 1%Q); (3, (1 # 2)%Q)]) == 0)%Q).
  { vm_compute. discriminate. }
  split; [exact H1 | split; [exact H2 | split; [exact H3|]]].
  exact (beta_against_itself _ H1 H2 H3).
Defined.

(** *** From the screener to the predictions *)

(** Composed with the loader and the engine, a run that writes decides
    the batch of the day: while the IST date is the day of the run, a cycle
    over [load_today_watchlist] predicts for the written rows, one
    prediction per row in their order; on any other date the loaded
    watchlist and the batch are empty. *)
Theorem predictions_cover_written_watchlist lg sort uf eod today files :
  candidates lg uf eod <> [] ->
  exists final_df hist_df,
    NightlyScreener.run_screener lg sort uf eod today files
    = NightlyScreener.Returned
        (NightlyScreener.mk_files (Some (Watchlist.WithRows final_df)) (Some hist_df))
    /\ forall now_ist mp np sv,
         map (fun p => (ticker p, data_symbol p, index_bucket p))
           (generate_predictions_for_watchlist now_ist
              (map Watchlist.engine_row
                 (Watchlist.load_today_watchlist (Some (Watchlist.WithRows final_df))
                    now_ist))
              mp np sv)
         = if date_eqb (date_of now_ist) today
           then map (fun r => (Watchlist.ticker r, Watchlist.data_symbol r,
                               Watchlist.index_bucket r)) final_df
           else [].
Proof.
  intros Hc. rewrite (run_screener_written _ _ _ _ _ _ Hc). cbv zeta.
  eexists. eexists. split; [reflexivity|].
  intros now_ist mp np sv.
  set (final_df := map (NightlyScreener.dated today) _).
  assert (Watchlist.load_today_watchlist (Some (Watchlist.WithRows final_df)) now_ist
          = if date_eqb (date_of now_ist) today then final_df else []) as ->.
  { unfold Watchlist.load_today_watchlist, Watchlist.load_active_watchlist_for_date.
    cbv zeta. destruct (date_eqb (date_of now_ist) today) eqn:Hd.
    - apply filter_all, Forall_map, Forall_forall. intros c _.
      cbn [NightlyScreener.dated Watchlist.usable_for_date].
      rewrite date_eqb_sym. exact Hd.
    - apply filter_none, Forall_map, Forall_forall. intros c _.
      cbn [NightlyScreener.dated Watchlist.usable_for_date].
      rewrite date_eqb_sym. exact Hd. }
  rewrite generate_as_map, !map_map.
  destruct (date_eqb (date_of now_ist) today); [|reflexivity].
  apply map_ext. intros r. cbv beta.
  destruct (predict_row_columns now_ist (code (get_time_status now_ist))
              (get_nifty_trend_daily mp) (compute_market_regime (nifty_frame mp))
              (is_actionable (code (get_time_status now_ist))
                 (compute_market_regime (nifty_frame mp)))
              mp np sv (Watchlist.engine_row r)) as [[Ht [Hs Hi]] _].
  rewrite Ht, Hs, Hi. reflexivity.
Qed.

Lemma predictions_cover_written_watchlist_witness :
  candidates log1p_coarse (Some sample_universe) sample_eod <> []
  /\ exists final_df hist_df,
       sample_run
       = NightlyScreener.Returned
           (NightlyScreener.mk_files (Some (Watchlist.WithRows final_df)) (Some hist_df))
       /\ forall now_ist mp np sv,
            map (fun p => (ticker p, data_symbol p, index_bucket p))
              (generate_predictions_for_watchlist now_ist
                 (map Watchlist.engine_row
                    (Watchlist.load_today_watchlist
                       (Some (Watchlist.WithRows final_df)) now_ist))
                 mp np sv)
            = if date_eqb (date_of now_ist) sample_today
              then map (fun r => (Watchlist.ticker r, Watchlist.data_symbol r,
                                  Watchlist.index_bucket r)) final_df
              else [].
Proof.
  split; [exact sample_candidates|].
  exact (predictions_cover_written_watchlist log1p_coarse sort_by_score
           (Some sample_universe) sample_eod sample_today no_files sample_candidates).
Defined.

